(** * actionproxy.py: the action proxy of the docker skeleton runtime

    A shallow embedding of [core/actionProxy/actionproxy.py]: the
    [ActionRunner] class (init, env, run and their helpers) and the five
    Flask routes built on it (/init, /run, /onstart, /onpause, /onfinish),
    with the process-wide state ([proxy.initialized], [proxy.started],
    [os.environ], the file system, what was written to stdout and stderr)
    threaded explicitly. *)

From Stdlib Require Import ZArith Ascii String DecimalString Lia.
From stdpp Require Import base option list strings gmap.

Local Open Scope Z_scope.
Set Warnings "-register-all".

(** ** Python text

    A Python [str] is modelled as a [string] whose characters are code
    points below 256.  The functions below are the [str] methods the proxy
    uses, written out. *)

Module Text.

Definition nl : ascii := ascii_of_nat 10.

(** [str.isspace] on one character, for code points below 256:
    U+0009..U+000D, U+001C..U+001F, U+0020, U+0085 and U+00A0. *)
Definition is_space (c : ascii) : bool :=
  let n := N_of_ascii c in
  ((9 <=? n) && (n <=? 13) || (28 <=? n) && (n <=? 32)
   || (n =? 133) || (n =? 160))%N.

Fixpoint lstrip (s : string) : string :=
  match s with
  | EmptyString => EmptyString
  | String c r => if is_space c then lstrip r else s
  end.

Fixpoint rstrip (s : string) : string :=
  match s with
  | EmptyString => EmptyString
  | String c r =>
      match rstrip r with
      | EmptyString => if is_space c then EmptyString else String c EmptyString
      | r' => String c r'
      end
  end.

(** [s.strip()] *)
Definition strip (s : string) : string := rstrip (lstrip s).

(** [s[:n]] and [s[n:]] for [0 <= n]. *)
Fixpoint take (n : nat) (s : string) : string :=
  match n, s with
  | S k, String c r => String c (take k r)
  | _, _ => EmptyString
  end.

Fixpoint drop (n : nat) (s : string) : string :=
  match n, s with
  | S k, String _ r => drop k r
  | _, _ => s
  end.

(** [s.rfind(c, 0, stop)] for [0 <= stop]: the highest index below [stop]
    (and inside [s]) that holds [c]; [None] stands for Python's [-1]. *)
Fixpoint rfind (c : ascii) (s : string) (stop : nat) {struct stop}
    : option nat :=
  match stop, s with
  | S k, String a r =>
      match rfind c r k with
      | Some j => Some (S j)
      | None => if Ascii.eqb a c then Some O else None
      end
  | _, _ => None
  end.

(** [len(s)] *)
Definition len (s : string) : Z := Z.of_nat (String.length s).

(** [s.rstrip('/')] *)
Fixpoint rstrip_slash (s : string) : string :=
  match s with
  | EmptyString => EmptyString
  | String c r =>
      match rstrip_slash r with
      | EmptyString => if Ascii.eqb c "/" then EmptyString else String c EmptyString
      | r' => String c r'
      end
  end.

(** [os.path.dirname(p)]: the part up to the last slash, without the
    slashes that end it unless it is made of slashes only. *)
Definition dirname (p : string) : string :=
  match rfind "/" p (String.length p) with
  | Some i =>
      let head := take (S i) p in
      match rstrip_slash head with
      | EmptyString => head
      | stripped => stripped
      end
  | None => EmptyString
  end.

Fixpoint contains_nl (s : string) : bool :=
  match s with
  | EmptyString => false
  | String c r => Ascii.eqb c nl || contains_nl r
  end.

(** ["x" * n] *)
Fixpoint replicate (n : nat) (c : ascii) : string :=
  match n with
  | O => EmptyString
  | S k => String c (replicate k c)
  end.

End Text.

(** ** JSON values and Python objects *)

(** What [json.loads] and [flask.request.get_json] produce.  [JNull] is
    Python's [None]; a [dict] keeps its items in insertion order; numbers
    are integers (floats are left out). *)
Inductive json : Type :=
  | JNull
  | JBool (b : bool)
  | JInt (n : Z)
  | JStr (s : string)
  | JArr (xs : list json)
  | JObj (kvs : list (string * json)).

Abbreviation dict := (list (string * json)).

(** Truth value of an object, as [if message] and [not binary] test it. *)
Definition truthy (v : json) : bool :=
  match v with
  | JNull => false
  | JBool b => b
  | JInt n => negb (n =? 0)
  | JStr s => negb (String.eqb s "")
  | JArr xs => match xs with [] => false | _ => true end
  | JObj kvs => match kvs with [] => false | _ => true end
  end.

(** [isinstance(v, dict)] *)
Definition is_dict (v : json) : bool :=
  match v with JObj _ => true | _ => false end.

(** [d.get(k)] ([None] when [k not in d]). *)
Fixpoint dict_get (k : string) (d : dict) : option json :=
  match d with
  | [] => None
  | (k', v) :: r => if String.eqb k' k then Some v else dict_get k r
  end.

(** [type(v).__name__] *)
Definition type_name (v : json) : string :=
  match v with
  | JNull => "NoneType"
  | JBool _ => "bool"
  | JInt _ => "int"
  | JStr _ => "str"
  | JArr _ => "list"
  | JObj _ => "dict"
  end.

(** [str(b)] *)
Definition bool_str (b : bool) : string := if b then "True" else "False".

(** A raised exception: its class and [str(e)]. *)
Record exn : Type := Exn { exn_class : string; exn_str : string }.

(** The outcome of a Python computation. *)
Inductive res (A : Type) : Type :=
  | Ok (a : A)
  | Raise (e : exn).
Arguments Ok {A} a.
Arguments Raise {A} e.

(** What the overridable methods of a runner return. *)
Inductive pyval : Type :=
  | PNone
  | PBool (b : bool)
  | PStr (s : string).

(** [v is False] *)
Definition is_False (v : pyval) : bool :=
  match v with PBool false => true | _ => false end.

(** A [bytes] object captured from a pipe, seen through [decode('utf-8')]:
    either it is the encoding of a text, or decoding it raises. *)
Inductive pybytes : Type :=
  | Utf8 (text : string)
  | Undecodable (e : exn).

Definition decode (b : pybytes) : res string :=
  match b with
  | Utf8 t => Ok t
  | Undecodable e => Raise e
  end.

Inductive stream : Type := Stdout | Stderr.

(** What the process does to the outside: writes to its two streams, and
    calls to [Popen] (argument vector, environment handed over) with the
    text fed to the child's stdin. *)
Inductive event : Type :=
  | Write (fd : stream) (data : string)
  | Popen (argv : list string) (env : gmap string string) (input : string).

(** The second component of what [ActionRunner.run] returns: the action's
    result object, or [{'error': msg}] where [msg] is a text or, on the
    exception path, the exception object itself. *)
Inductive errmsg : Type :=
  | MText (s : string)
  | MExc (e : exn).

Inductive runresult : Type :=
  | RObj (d : dict)
  | RErr (m : errmsg).

(** ['%s' % msg] for the two kinds of [msg] that [_error] receives. *)
Definition errmsg_str (m : errmsg) : string :=
  match m with
  | MText s => s
  | MExc e => exn_str e
  end.

(** The mapping passed as [env=] to [Popen]: the live [os.environ] object
    or some other dictionary. *)
Inductive envobj : Type :=
  | OsEnviron
  | EnvDict (m : gmap string string).

(** An HTTP response body. *)
Inductive body : Type :=
  | BJson (j : json)
  | BVal (v : pyval).

(** How a route ends: a response it built, [flask.abort(code)], or an
    exception nobody caught (Flask answers 500 by itself then). *)
Inductive outcome : Type :=
  | Response (code : Z) (b : body)
  | Aborted (code : Z)
  | Unhandled (e : exn).

(** ** The libraries and the operating system

    Everything the proxy calls but does not define.  The theorems hold for
    every implementation of this interface. *)
Class Platform : Type := {
  (** the file system *)
  FS : Type;
  (** [json.dumps(v)] *)
  json_dumps : json -> string;
  (** [json.loads(s)]; [None] when it raises *)
  json_loads : string -> option json;
  (** ['%s' % v] *)
  py_format : json -> string;
  (** [s.upper()] *)
  str_upper : string -> string;
  (** [with codecs.open(path, 'w', 'utf-8') as fp: fp.write(v)] *)
  write_text : string -> json -> FS -> option exn * FS;
  (** [archive = zipfile.ZipFile(io.BytesIO(base64.b64decode(v)));
      archive.extractall(dest); archive.close()] *)
  extract_archive : json -> string -> FS -> option exn * FS;
  (** [os.path.isfile(path)] *)
  isfile : string -> FS -> bool;
  (** [os.access(path, os.X_OK)] *)
  access_x : string -> FS -> bool;
  (** [subprocess.Popen(argv, stdin=PIPE, stdout=PIPE, stderr=PIPE, env=env)]
      followed by [p.communicate(input=input.encode())]: an exception, or
      the bytes the child wrote to stdout and to stderr *)
  communicate : list string -> gmap string string -> string -> FS ->
                res (pybytes * pybytes) * FS;
}.

Section Process.
Context `{Platform}.

(** ** Process state

    The module-level state of the proxy ([proxy.rejectReinit],
    [proxy.initialized], [proxy.started]), the process environment
    [os.environ], the file system, and the events so far, oldest first. *)
Record world : Type := World {
  fs : FS;
  environ : gmap string string;
  rejectReinit : bool;
  initialized : bool;
  started : bool;
  trace : list event;
}.

Definition set_fs (f : FS) (w : world) : world :=
  World f (environ w) (rejectReinit w) (initialized w) (started w) (trace w).
Definition set_environ (e : gmap string string) (w : world) : world :=
  World (fs w) e (rejectReinit w) (initialized w) (started w) (trace w).
Definition set_initialized (b : bool) (w : world) : world :=
  World (fs w) (environ w) (rejectReinit w) b (started w) (trace w).
Definition set_started (b : bool) (w : world) : world :=
  World (fs w) (environ w) (rejectReinit w) (initialized w) b (trace w).
Definition emit (ev : event) (w : world) : world :=
  World (fs w) (environ w) (rejectReinit w) (initialized w) (started w)
        (trace w ++ [ev]).

(** [proxy.rejectReinit = 'PROXY_ALLOW_REINIT' not in os.environ or
    os.environ['PROXY_ALLOW_REINIT'] != "1"], and the two flags start
    false. *)
Definition boot (f : FS) (env : gmap string string) : world :=
  World f env
        (match env !! "PROXY_ALLOW_REINIT" with
         | Some v => negb (String.eqb v "1")
         | None => true
         end)
        false false [].

(** ** Computations: state and exceptions *)
Definition M (A : Type) : Type := world -> res A * world.

#[global] Instance M_ret : MRet M := fun A a w => (Ok a, w).
#[global] Instance M_bind : MBind M := fun A B k c w =>
  match c w with
  | (Ok a, w') => k a w'
  | (Raise e, w') => (Raise e, w')
  end.

Definition raise {A} (e : exn) : M A := fun w => (Raise e, w).

(** [try: c  except Exception as e: h e] *)
Definition try_except {A} (c : M A) (h : exn -> M A) : M A := fun w =>
  match c w with
  | (Ok a, w') => (Ok a, w')
  | (Raise e, w') => h e w'
  end.

Definition modify (f : world -> world) : M unit := fun w => (Ok tt, f w).
Definition gets {A} (f : world -> A) : M A := fun w => (Ok (f w), w).

(** A library call that works on the file system and may raise. *)
Definition os_call (c : FS -> option exn * FS) : M unit := fun w =>
  match c (fs w) with
  | (None, f) => (Ok tt, set_fs f w)
  | (Some e, f) => (Raise e, set_fs f w)
  end.

(** [sys.stdout.write(s)] and [sys.stderr.write(s)] *)
Definition stdout_write (s : string) : M unit := modify (emit (Write Stdout s)).
Definition stderr_write (s : string) : M unit := modify (emit (Write Stderr s)).

Definition line (msg : string) : string := msg +:+ String Text.nl "".

(** [log(msg)], with [msg] already formatted by ['%s' % msg]: the line
    goes to both streams. *)
Definition log (msg : string) : M unit :=
  stdout_write (line msg) ;; stderr_write (line msg).

(** [d[k]] *)
Definition getitem (k : string) (d : dict) : M json :=
  match dict_get k d with
  | Some v => mret v
  | None => raise (Exn "KeyError" ("'" +:+ k +:+ "'"))
  end.

End Process.

(** ** class ActionRunner *)
Module ActionRunner.
Section Methods.
Context `{Platform}.

Definition LOG_SENTINEL : string := "XXX_THE_END_OF_A_WHISK_ACTIVATION_XXX".

(** A method of the runner: its parameters besides [self], and what its
    body does with the arguments (it works on the file system and returns
    or raises). *)
Record method : Type := Method {
  m_name : string;
  m_params : list string;
  m_body : list json -> FS -> res pyval * FS;
}.

(** Calling a method with positional arguments: Python raises [TypeError]
    before running the body when their number is not the number of
    parameters (none of the methods here has defaults).  Python's message
    also names the parameters that are missing; it is shortened here. *)
Definition call (m : method) (args : list json) : M pyval := fun w =>
  if Nat.eqb (length args) (length (m_params m)) then
    let '(r, f) := m_body m args (fs w) in (r, set_fs f w)
  else
    (Raise (Exn "TypeError"
              (m_name m +:+ "() called with the wrong number of arguments")), w).

(** [self.source], [self.binary], [self.zipdest] and the methods that
    subclasses override. *)
Record t : Type := Runner {
  source : string;
  binary : string;
  zipdest : string;
  preinit : method;
  epilogue : method;
  build : method;
  start : method;
  pause : method;
  stop : method;
  features : method;
}.

(** A body that does nothing: [pass], or a bare [return]. *)
Definition pass : list json -> FS -> res pyval * FS :=
  fun _ f => (Ok PNone, f).

(** The class as the file defines it, with the three paths given:
    [preinit], [epilogue] and [build] return at once, [stop], [pause] and
    [start] take [args] and [env] and do nothing, [features] returns
    ["OK"]. *)
Definition base (src bin zdest : string) : t :=
  {| source := src; binary := bin; zipdest := zdest;
     preinit := Method "preinit" [] pass;
     epilogue := Method "epilogue" ["init_arguments"] pass;
     build := Method "build" ["init_arguments"] pass;
     start := Method "start" ["args"; "env"] pass;
     pause := Method "pause" ["args"; "env"] pass;
     stop := Method "stop" ["args"; "env"] pass;
     features := Method "features" [] (fun _ f => (Ok (PStr "OK"), f)) |}.

(** [__init__]: an argument that is absent or empty gives the default.
    (The [os.chdir] that ends it is not part of the model.) *)
Definition new (source binary zipdest : option string) : t :=
  let defaultBinary := "/action/exec" in
  let given (o : option string) (d : string) :=
    match o with
    | Some s => if String.eqb s "" then d else s
    | None => d
    end in
  let src := given source defaultBinary in
  base src (given binary defaultBinary) (given zipdest (Text.dirname src)).

Variable self : t.

Definition initCodeFromString (message : dict) : M bool :=
  code ← getitem "code" message;
  os_call (write_text (source self) code) ;;
  mret true.

Definition initCodeFromZip (message : dict) : M bool :=
  try_except
    (code ← getitem "code" message;
     os_call (extract_archive code (zipdest self)) ;;
     mret true)
    (fun e => stdout_write (line ("err " +:+ exn_str e)) ;; mret false).

(** [os.path.isfile(self.binary) and os.access(self.binary, os.X_OK)] *)
Definition verify : M bool :=
  gets (fun w => isfile (binary self) (fs w) && access_x (binary self) (fs w)).

(** The local function [prep] of [init]. *)
Definition prep (message : dict) : M bool :=
  call (preinit self) [] ;;
  log (py_format (JObj message)) ;;
  match dict_get "code" message with
  | Some JNull | None => log "no prep" ;; mret false
  | Some _ =>
      let binary := default (JBool false) (dict_get "binary" message) in
      if negb (truthy binary) then initCodeFromString message
      else initCodeFromZip message
  end.

(** The [try] block of [init]: [Some v] when it leaves [init] with
    [return v], [None] when control falls through to the verification. *)
Definition hooks (message : dict) : M (option bool) :=
  try_except
    (e ← call (epilogue self) [JObj message];
     if is_False e then mret (Some false)
     else
       b ← call (build self) [JObj message];
       if is_False b then mret (Some false) else mret None)
    (fun _ => mret (Some false)).

Definition init (message : dict) : M bool :=
  p ← prep message;
  early ← (if p : bool then hooks message else mret None);
  match early : option bool with
  | Some v => mret v
  | None =>
      verified ← verify;
      log ("verified: " +:+ bool_str verified) ;;
      mret verified
  end.

(** [os.environ[key] = v]: the value must be a [str]; [putenv] refuses a
    name or a value that holds a NUL character and a name that holds
    [=]. *)
Definition has_char (c : ascii) (s : string) : bool :=
  existsb (Ascii.eqb c) (list_ascii_of_string s).

Definition environ_setitem (key : string) (v : json) : M unit :=
  match v with
  | JStr s =>
      if has_char zero key || has_char zero s
      then raise (Exn "ValueError" "embedded null byte")
      else if has_char "="%char key
      then raise (Exn "ValueError" "illegal environment variable name")
      else modify (fun w => set_environ (<[key := s]> (environ w)) w)
  | _ => raise (Exn "TypeError" ("str expected, not " +:+ type_name v))
  end.

(** The loop of [env] over [message.items()]. *)
Fixpoint env_items (items : dict) : M unit :=
  match items with
  | [] => mret tt
  | (k, v) :: rest =>
      (if negb (String.eqb k "value")
       then environ_setitem ("__OW_" +:+ str_upper k) v
       else mret tt) ;;
      env_items rest
  end.

(** [env = os.environ; ...; return env]: the object returned is the
    process environment itself. *)
Definition env (message : dict) : M envobj :=
  env_items message ;; mret OsEnviron.

Definition _error (msg : errmsg) : M (Z * runresult) :=
  stdout_write (line (errmsg_str msg)) ;;
  mret (502, RErr msg).

(** [Popen(argv, ..., env=env)] and [p.communicate(input=...)]: the child
    gets the content of [env] as it is now. *)
Definition popen_communicate (argv : list string) (env : envobj)
    (input : string) : M (pybytes * pybytes) := fun w =>
  let vars := match env with OsEnviron => environ w | EnvDict m => m end in
  let w1 := emit (Popen argv vars input) w in
  let '(r, f) := communicate argv vars input (fs w1) in
  (r, set_fs f w1).

(** The [try] block of [run]. *)
Definition spawn (args : dict) (env : envobj) : M (pybytes * pybytes) :=
  let input := json_dumps (JObj args) in
  if Text.len input >? 131071 then
    popen_communicate [binary self] env input
  else
    popen_communicate [binary self; input] env input.

(** [run] after the [try] block, from the captured bytes on. *)
Definition collect (o e : pybytes) : M (Z * runresult) :=
  o ← (fun w => (decode o, w));
  e ← (fun w => (decode e, w));
  lastLine ←
    match Text.rfind Text.nl o (String.length o - 1) with
    | Some lastNewLine =>
        stdout_write (Text.take (S lastNewLine) o) ;;
        mret (Text.strip (Text.drop (S lastNewLine) o))
    | None => mret (Text.strip o)
    end;
  (if negb (String.eqb e "") then stderr_write e else mret tt) ;;
  match json_loads lastLine with
  | Some (JObj json_output) => mret (200, RObj json_output)
  | Some _ => _error (MText lastLine)
  | None => _error (MText lastLine)
  end.

Definition run (args : dict) (env : envobj) : M (Z * runresult) := fun w =>
  match spawn args env w with
  | (Raise e, w') => _error (MExc e) w'
  | (Ok (o, e), w') => collect o e w'
  end.

End Methods.
End ActionRunner.

(** ** The Flask application [proxy] and its routes *)
Module Proxy.
Section Routes.
Context `{Platform}.

(** The global [runner], as [setRunner] installed it. *)
Variable runner : ActionRunner.t.

Definition complete (response : outcome) : M outcome :=
  log ActionRunner.LOG_SENTINEL ;; mret response.

Definition error (msg : string) (code : Z) : M outcome :=
  complete (Response code (BJson (JObj [("error", JStr msg)]))).

(** [flask.jsonify(result)] on what [ActionRunner.run] returns: an
    exception object is not serializable. *)
Definition jsonify (result : runresult) : M json :=
  match result with
  | RObj d => mret (JObj d)
  | RErr (MText s) => mret (JObj [("error", JStr s)])
  | RErr (MExc e) =>
      raise (Exn "TypeError"
               ("Object of type " +:+ exn_class e +:+ " is not JSON serializable"))
  end.

(** [message.get('value', {}) if message else {}], for a [message] that
    is a dictionary or is false. *)
Definition value_of (message : json) : json :=
  if truthy message then
    match message with
    | JObj d => default (JObj []) (dict_get "value" d)
    | _ => JObj []
    end
  else JObj [].

(** [message or {}], under the same condition. *)
Definition or_empty (message : json) : dict :=
  match message with
  | JObj d => d
  | _ => []
  end.

(** POST /init; [message] is [flask.request.get_json(force=True,
    silent=True)]. *)
Definition init (message : json) : M outcome := fun w =>
  if rejectReinit w && initialized w then
    let msg := "Cannot initialize the action more than once." in
    (stderr_write (line msg) ;; error msg 403) w
  else
    ((log (py_format message) : M unit) ;;
     if truthy message && negb (is_dict message) then mret (Aborted 404)
     else
       match value_of message with
       | JObj value => fun w1 =>
           match ActionRunner.init runner value w1 with
           | (Raise e, w2) =>
               error ("The action failed to generate or locate a binary with exception "
                      +:+ exn_str e +:+ ". See logs for details.") 502 w2
           | (Ok true, w2) =>
               (modify (set_started false) ;;
                modify (set_initialized true) ;;
                f ← ActionRunner.call (ActionRunner.features runner) [];
                mret (Response 200 (BVal f))) w2
           | (Ok false, w2) =>
               error "The action failed to generate or locate a binary with exception . See logs for details."
                     502 w2
           end
       | _ => mret (Aborted 404)
       end : M outcome) w.

(** POST /onstart *)
Definition start : M outcome := fun w =>
  if started w then
    let msg := "Cannot trigger start the action more than once." in
    (stderr_write (line msg) ;; error msg 500) w
  else
    (modify (set_started true) ;;
     log "onStart" ;;
     ActionRunner.call (ActionRunner.start runner) [] ;;
     mret (Response 200 (BJson (JObj [("msg", JStr "onStart")])))) w.

(** POST /onpause *)
Definition pause : M outcome :=
  log "onpause" ;;
  ActionRunner.call (ActionRunner.pause runner) [] ;;
  mret (Response 200 (BJson (JObj [("msg", JStr "onpause")]))).

(** POST /onfinish *)
Definition finish : M outcome :=
  log "onfinish" ;;
  ActionRunner.call (ActionRunner.stop runner) [] ;;
  mret (Response 200 (BJson (JObj [("msg", JStr "onfinish")]))).

(** The [try] block of the /run route. *)
Definition invoke (args : dict) (message : json) : M outcome :=
  env ← ActionRunner.env (or_empty message);
  cr ← ActionRunner.run runner args env;
  j ← jsonify (snd (cr : Z * runresult));
  mret (Response (fst cr) (BJson j)).

(** [try: ... except Exception as e: return error(...)] followed by
    [return complete(response)]. *)
Definition answer (args : dict) (message : json) : M outcome := fun w =>
  match invoke args message w with
  | (Ok response, w') => complete response w'
  | (Raise e, w') => error ("Internal error. " +:+ exn_str e) 500 w'
  end.

(** POST /run *)
Definition run (message : json) : M outcome :=
  let not_a_dict := "The action did not receive a dictionary as an argument." in
  if truthy message && negb (is_dict message) then error not_a_dict 404
  else
    match value_of message with
    | JObj args =>
        ok ← ActionRunner.verify runner;
        if ok : bool then
          answer args message
        else error "The action failed to locate a binary. See logs for details." 502
    | _ => error not_a_dict 404
    end.

(** One HTTP request to the proxy. *)
Inductive request : Type :=
  | PostInit (message : json)
  | PostRun (message : json)
  | PostOnStart
  | PostOnPause
  | PostOnFinish.

Definition route (r : request) : M outcome :=
  match r with
  | PostInit m => init m
  | PostRun m => run m
  | PostOnStart => start
  | PostOnPause => pause
  | PostOnFinish => finish
  end.

(** Flask around a route: an exception that leaves it is not answered by
    the proxy's own code. *)
Definition serve (r : request) (w : world) : outcome * world :=
  match route r w with
  | (Ok o, w') => (o, w')
  | (Raise e, w') => (Unhandled e, w')
  end.

(** Requests served one after the other. *)
Fixpoint serve_all (rs : list request) (w : world) : world :=
  match rs with
  | [] => w
  | r :: rest => serve_all rest (snd (serve r w))
  end.

End Routes.
End Proxy.

(** ** A concrete platform

    An implementation of [Platform] to run the model on: Python's
    [json.dumps] with its default settings, a reader for the same JSON
    values, and a file system that is a finite map from paths to files.
    The examples below are evaluated on it. *)
Module Machine.

Definition dquote : ascii := ascii_of_nat 34.
Definition backslash : ascii := ascii_of_nat 92.

Definition hex_digit (n : N) : ascii :=
  ascii_of_N (if (n <? 10)%N then 48 + n else 87 + n)%N.

(** One character of a string literal written by [json.dumps]
    ([ensure_ascii=True]): everything outside [' '..'~'], the quote and
    the backslash are escaped. *)
Definition escape_char (c : ascii) : string :=
  let n := N_of_ascii c in
  let esc (t : string) := String backslash t in
  if (n =? 34)%N then esc (String dquote "")
  else if (n =? 92)%N then esc (String backslash "")
  else if (n =? 10)%N then esc "n"
  else if (n =? 13)%N then esc "r"
  else if (n =? 9)%N then esc "t"
  else if (n =? 8)%N then esc "b"
  else if (n =? 12)%N then esc "f"
  else if ((n <? 32) || (126 <? n))%N then
    esc ("u00" +:+ String (hex_digit (n / 16)) (String (hex_digit (n mod 16)) ""))
  else String c "".

Fixpoint escape (s : string) : string :=
  match s with
  | EmptyString => EmptyString
  | String c r => escape_char c +:+ escape r
  end.

Definition quote (s : string) : string :=
  String dquote (escape s +:+ String dquote "").

Definition int_str (n : Z) : string :=
  DecimalString.NilZero.string_of_int (Z.to_int n).

(** [json.dumps(v)]: items separated by [", "], keys from values by
    [": "]. *)
Fixpoint dumps (v : json) : string :=
  match v with
  | JNull => "null"
  | JBool b => if b then "true" else "false"
  | JInt n => int_str n
  | JStr s => quote s
  | JArr xs =>
      let fix items (xs : list json) : string :=
        match xs with
        | [] => ""
        | [x] => dumps x
        | x :: r => dumps x +:+ ", " +:+ items r
        end in
      "[" +:+ items xs +:+ "]"
  | JObj kvs =>
      let fix items (kvs : list (string * json)) : string :=
        match kvs with
        | [] => ""
        | [(k, x)] => quote k +:+ ": " +:+ dumps x
        | (k, x) :: r => quote k +:+ ": " +:+ dumps x +:+ ", " +:+ items r
        end in
      "{" +:+ items kvs +:+ "}"
  end.

(** ['%s' % v]: Python's [repr], for values whose strings need no
    escaping. *)
Fixpoint format (v : json) : string :=
  match v with
  | JNull => "None"
  | JBool b => bool_str b
  | JInt n => int_str n
  | JStr s => "'" +:+ s +:+ "'"
  | JArr xs =>
      let fix items (xs : list json) : string :=
        match xs with
        | [] => ""
        | [x] => format x
        | x :: r => format x +:+ ", " +:+ items r
        end in
      "[" +:+ items xs +:+ "]"
  | JObj kvs =>
      let fix items (kvs : list (string * json)) : string :=
        match kvs with
        | [] => ""
        | [(k, x)] => "'" +:+ k +:+ "': " +:+ format x
        | (k, x) :: r => "'" +:+ k +:+ "': " +:+ format x +:+ ", " +:+ items r
        end in
      "{" +:+ items kvs +:+ "}"
  end.

(** *** Reading JSON *)

Definition is_ws (c : ascii) : bool :=
  let n := N_of_ascii c in
  ((n =? 32) || (n =? 9) || (n =? 10) || (n =? 13))%N.

Fixpoint skip_ws (l : list ascii) : list ascii :=
  match l with
  | c :: r => if is_ws c then skip_ws r else l
  | [] => []
  end.

Definition digit_of (c : ascii) : option Z :=
  let n := N_of_ascii c in
  if ((48 <=? n) && (n <=? 57))%N then Some (Z.of_N (n - 48)) else None.

Fixpoint digits (acc : Z) (l : list ascii) : Z * list ascii :=
  match l with
  | c :: r =>
      match digit_of c with
      | Some d => digits (10 * acc + d) r
      | None => (acc, l)
      end
  | [] => (acc, [])
  end.

(** An integer literal: [-]? digits, without a fraction or an exponent
    behind it and without a superfluous leading zero. *)
Definition number (l : list ascii) : option (Z * list ascii) :=
  let '(neg, l1) :=
    match l with
    | "-"%char :: r => (true, r)
    | _ => (false, l)
    end in
  match l1 with
  | c :: r =>
      match digit_of c with
      | Some d =>
          let '(n, rest) := digits 0 l1 in
          let leading_zero := (Z.eqb d 0 && negb (length rest =? length r)%nat)%bool in
          let more :=
            match rest with
            | c' :: _ => orb (Ascii.eqb c' ".") (orb (Ascii.eqb c' "e") (Ascii.eqb c' "E"))
            | [] => false
            end in
          if orb leading_zero more then None
          else Some (if neg then - n else n, rest)
      | None => None
      end
  | [] => None
  end.

(** The inside of a string literal, up to the closing quote. *)
Definition unescape (e : ascii) : option ascii :=
  if Ascii.eqb e dquote then Some dquote
  else if Ascii.eqb e backslash then Some backslash
  else if Ascii.eqb e "/" then Some "/"%char
  else if Ascii.eqb e "n" then Some (ascii_of_nat 10)
  else if Ascii.eqb e "r" then Some (ascii_of_nat 13)
  else if Ascii.eqb e "t" then Some (ascii_of_nat 9)
  else if Ascii.eqb e "b" then Some (ascii_of_nat 8)
  else if Ascii.eqb e "f" then Some (ascii_of_nat 12)
  else None.

Fixpoint chars (l : list ascii) : option (string * list ascii) :=
  match l with
  | [] => None
  | c :: r =>
      if Ascii.eqb c dquote then Some (EmptyString, r)
      else if Ascii.eqb c backslash then
        match r with
        | e :: r' =>
            match unescape e, chars r' with
            | Some c', Some (s, rest) => Some (String c' s, rest)
            | _, _ => None
            end
        | [] => None
        end
      else if (N_of_ascii c <? 32)%N then None
      else
        match chars r with
        | Some (s, rest) => Some (String c s, rest)
        | None => None
        end
  end.

(** [d[k] = v] on a dictionary in insertion order. *)
Fixpoint dict_set (k : string) (v : json) (d : dict) : dict :=
  match d with
  | [] => [(k, v)]
  | (k', v') :: r =>
      if String.eqb k' k then (k', v) :: r else (k', v') :: dict_set k v r
  end.

(** One value, with [n] bounding the depth of the recursion. *)
Fixpoint value (n : nat) (l : list ascii) : option (json * list ascii) :=
  match n with
  | O => None
  | S n =>
      let fix elements (fuel : nat) (acc : list json) (l : list ascii)
          : option (json * list ascii) :=
        match fuel with
        | O => None
        | S fuel =>
            match value n l with
            | Some (x, rest) =>
                match skip_ws rest with
                | ","%char :: rest' => elements fuel (acc ++ [x]) rest'
                | "]"%char :: rest' => Some (JArr (acc ++ [x]), rest')
                | _ => None
                end
            | None => None
            end
        end in
      let fix members (fuel : nat) (acc : dict) (l : list ascii)
          : option (json * list ascii) :=
        match fuel with
        | O => None
        | S fuel =>
            match skip_ws l with
            | q :: r =>
                match (if Ascii.eqb q dquote then chars r else None) with
                | Some (k, rest) =>
                    match skip_ws rest with
                    | ":"%char :: rest' =>
                        match value n rest' with
                        | Some (x, rest'') =>
                            match skip_ws rest'' with
                            | ","%char :: r' => members fuel (dict_set k x acc) r'
                            | "}"%char :: r' => Some (JObj (dict_set k x acc), r')
                            | _ => None
                            end
                        | None => None
                        end
                    | _ => None
                    end
                | None => None
                end
            | _ => None
            end
        end in
      match skip_ws l with
      | "{"%char :: r =>
          match skip_ws r with
          | "}"%char :: r' => Some (JObj [], r')
          | _ => members (length r) [] r
          end
      | "["%char :: r =>
          match skip_ws r with
          | "]"%char :: r' => Some (JArr [], r')
          | _ => elements (length r) [] r
          end
      | "n"%char :: "u"%char :: "l"%char :: "l"%char :: r => Some (JNull, r)
      | "t"%char :: "r"%char :: "u"%char :: "e"%char :: r => Some (JBool true, r)
      | "f"%char :: "a"%char :: "l"%char :: "s"%char :: "e"%char :: r =>
          Some (JBool false, r)
      | q :: r =>
          if Ascii.eqb q dquote then
            match chars r with
            | Some (s, rest) => Some (JStr s, rest)
            | None => None
            end
          else
            match number (q :: r) with
            | Some (i, rest) => Some (JInt i, rest)
            | None => None
            end
      | [] => None
      end
  end.

(** [json.loads(s)]: one value and nothing but white space after it. *)
Definition loads (s : string) : option json :=
  let l := list_ascii_of_string s in
  match value (S (length l)) l with
  | Some (v, rest) =>
      match skip_ws rest with
      | [] => Some v
      | _ => None
      end
  | None => None
  end.

(** *** Texts

    The texts of this machine are ASCII: [s.upper()] maps the letters a..z
    and keeps every other character. *)
Definition upper_char (c : ascii) : ascii :=
  let n := N_of_ascii c in
  if ((97 <=? n) && (n <=? 122))%N then ascii_of_N (n - 32) else c.

Fixpoint upper (s : string) : string :=
  match s with
  | EmptyString => EmptyString
  | String c r => String (upper_char c) (upper r)
  end.

(** *** Files and processes *)

Record file : Type := File { content : string; executable : bool }.

(** Whether the file at [path] keeps its mode when it is rewritten. *)
Definition mode_of (path : string) (f : gmap string file) : bool :=
  match f !! path with
  | Some old => executable old
  | None => false
  end.

(** Opening the empty path fails; writing something that is not a [str]
    fails after the file was opened, hence emptied. *)
Definition write (path : string) (v : json) (f : gmap string file)
    : option exn * gmap string file :=
  if String.eqb path "" then
    (Some (Exn "FileNotFoundError" "[Errno 2] No such file or directory: ''"), f)
  else
    match v with
    | JStr s => (None, <[path := File s (mode_of path f)]> f)
    | _ =>
        (Some (Exn "TypeError"
                 ("utf_8_encode() argument 1 must be str, not " +:+ type_name v)),
         <[path := File "" (mode_of path f)]> f)
    end.

(** The base64 text of the archive without entries. *)
Definition empty_archive : string := "UEsFBgAAAAAAAAAAAAAAAAAAAAAAAA==".

(** The only archive this machine can read is the empty one, which
    extracts to nothing; other texts are not archives to it. *)
Definition extract (v : json) (dest : string) (f : gmap string file)
    : option exn * gmap string file :=
  match v with
  | JStr s =>
      if String.eqb s empty_archive then (None, f)
      else (Some (Exn "BadZipFile" "File is not a zip file"), f)
  | _ =>
      (Some (Exn "TypeError"
               ("argument should be a bytes-like object or ASCII string, not '"
                +:+ type_name v +:+ "'")), f)
  end.

Definition exists_file (path : string) (f : gmap string file) : bool :=
  match f !! path with Some _ => true | None => false end.

Definition runnable (path : string) (f : gmap string file) : bool :=
  match f !! path with Some x => executable x | None => false end.

(** The machine, given how its child processes behave: [child argv env
    input] is what [communicate] returns.  Children leave the files
    alone. *)
Definition platform
    (child : list string -> gmap string string -> string -> res (pybytes * pybytes))
    : Platform :=
  {| FS := gmap string file;
     json_dumps := dumps;
     json_loads := loads;
     py_format := format;
     str_upper := upper;
     write_text := write;
     extract_archive := extract;
     isfile := exists_file;
     access_x := runnable;
     communicate := fun argv env input f => (child argv env input, f) |}.

End Machine.

(** ** Vocabulary of the statements *)

(** Status classes. *)
Definition client_error (code : Z) : bool := (400 <=? code) && (code <? 500).
Definition server_error (code : Z) : bool := (500 <=? code) && (code <? 600).

(** The text of a sequence of log lines, each ended by a newline. *)
Fixpoint log_text (lines : list string) : string :=
  match lines with
  | [] => ""
  | l :: r => line l +:+ log_text r
  end.

(** What a child wrote: log lines, then a last line [j], ended by a
    newline or not. *)
Definition output_of (lines : list string) (j : string) (terminated : bool)
    : string :=
  log_text lines +:+ j +:+ (if terminated then line "" else "").

(** The write that forwards log lines: none when there is no line. *)
Definition forwarded (lines : list string) : list event :=
  match lines with
  | [] => []
  | _ => [Write Stdout (log_text lines)]
  end.

(** The write that forwards the child's stderr: none when it is empty. *)
Definition forwarded_err (e : string) : list event :=
  if String.eqb e "" then [] else [Write Stderr e].

(** The same state with more events recorded. *)
Definition add_events `{Platform} (evs : list event) (w : world) : world :=
  World (fs w) (environ w) (rejectReinit w) (initialized w) (started w)
        (trace w ++ evs).

(** The sentinel on both streams, as [complete] writes it. *)
Definition sentinel_lines : list event :=
  [Write Stdout (line ActionRunner.LOG_SENTINEL);
   Write Stderr (line ActionRunner.LOG_SENTINEL)].

(** [new] is [old] followed by more events, the last of which are
    [last]. *)
Definition ends_with (old new last : list event) : Prop :=
  exists mid, new = old ++ mid ++ last.

(** [Popen] calls among events: argument vector, environment, stdin. *)
Definition popen_calls (evs : list event)
    : list (list string * gmap string string * string) :=
  omap (fun ev =>
          match ev with
          | Popen argv env input => Some (argv, env, input)
          | Write _ _ => None
          end) evs.

(** [w'] comes after [w] with the flags and the environment as they were
    and with more events, if any; the children created in between got that
    environment. *)
Definition proceeds `{Platform} (w w' : world) : Prop :=
  rejectReinit w' = rejectReinit w /\ initialized w' = initialized w
  /\ started w' = started w /\ environ w' = environ w
  /\ exists evs, trace w' = trace w ++ evs
                 /\ Forall (fun c => snd (fst c) = environ w) (popen_calls evs).

(** A computation that only ever does that. *)
Definition steady `{Platform} {A : Type} (c : M A) : Prop :=
  forall w, proceeds w (snd (c w)).

(** The same relation without the flags: what every route but /run does to
    the environment and the children. *)
Definition carries `{Platform} (w w' : world) : Prop :=
  environ w' = environ w
  /\ exists evs, trace w' = trace w ++ evs
                 /\ Forall (fun c => snd (fst c) = environ w) (popen_calls evs).

(** The variable that [env] sets for the metadata key [k]. *)
Definition variable_of `{Platform} (k : string) : string :=
  "__OW_" +:+ str_upper k.

(** Whether a message makes [env] set the variable [key]. *)
Definition supplies `{Platform} (key : string) (items : dict) : bool :=
  existsb (fun kv => negb (String.eqb (fst kv) "value")
                     && String.eqb (variable_of (fst kv)) key) items.

Definition request_supplies `{Platform} (key : string) (r : Proxy.request)
    : bool :=
  match r with
  | Proxy.PostRun m => supplies key (Proxy.or_empty m)
  | _ => false
  end.

(** A child whose environment holds [key] with value [s]. *)
Definition child_sees (key s : string)
    (c : list string * gmap string string * string) : Prop :=
  snd (fst c) !! key = Some s.

(** From [w] to [w'] the variable [key] keeps the value [s], and every
    child created in between sees it. *)
Definition keeps `{Platform} (key s : string) (w w' : world) : Prop :=
  environ w' !! key = Some s
  /\ exists evs, trace w' = trace w ++ evs
                 /\ Forall (child_sees key s) (popen_calls evs).

(** What the payload checks of /init and /run refuse: a message that is
    true without being a dictionary, or whose ['value'] is not one. *)
Definition bad_payload (message : json) : bool :=
  truthy message && negb (is_dict message)
  || negb (is_dict (Proxy.value_of message)).

(** What [runner.verify()] returns in a state. *)
Definition runnable `{Platform} (self : ActionRunner.t) (w : world) : bool :=
  isfile (ActionRunner.binary self) (fs w)
  && access_x (ActionRunner.binary self) (fs w).

(** The body [{'error': msg}]. *)
Definition error_body (msg : string) : body :=
  BJson (JObj [("error", JStr msg)]).

(** What [log(msg)] writes. *)
Definition log_lines (msg : string) : list event :=
  [Write Stdout (line msg); Write Stderr (line msg)].

(** The payload carries no code: the key is absent or holds [None]. *)
Definition no_code (message : dict) : bool :=
  match dict_get "code" message with
  | Some JNull | None => true
  | Some _ => false
  end.

(** [isinstance(v, str)] *)
Definition is_str (v : json) : bool :=
  match v with JStr _ => true | _ => false end.

(** [w'] comes after [w] with more writes and no new child. *)
Definition writes_only `{Platform} (w w' : world) : Prop :=
  exists evs, trace w' = trace w ++ evs /\ popen_calls evs = [].

(** A computation that creates no child. *)
Definition quiet `{Platform} {A : Type} (c : M A) : Prop :=
  forall w, writes_only w (snd (c w)).

(** The last output of a verification that succeeded. *)
Definition verified_lines : list event :=
  [Write Stdout (line "verified: True"); Write Stderr (line "verified: True")].


(** ** Concrete runs

    The objects of the examples: the stock runner at the default path, a
    disk that holds a runnable file there, and a few actions. *)
Module Demo.

Definition action_path : string := "/action/exec".

(** [ActionRunner()], as the module's main program installs it. *)
Definition stock `{Platform} : ActionRunner.t := ActionRunner.new None None None.

Definition disk : gmap string Machine.file :=
  {[ action_path := Machine.File "#!/bin/sh" true ]}.

(** An action that logs one line and answers [{"result": 1}]. *)
Definition answer : dict := [("result", JInt 1)].
Definition polite : list string -> gmap string string -> string ->
                    res (pybytes * pybytes) :=
  fun _ _ _ => Ok (Utf8 (output_of ["hello"] (Machine.dumps (JObj answer)) true),
                   Utf8 "").

(** An action that prints the same object and nothing else, without a
    final newline. *)
Definition terse : list string -> gmap string string -> string ->
                   res (pybytes * pybytes) :=
  fun _ _ _ => Ok (Utf8 (Machine.dumps (JObj answer)), Utf8 "").

(** An action whose last line is a JSON number. *)
Definition sloppy : list string -> gmap string string -> string ->
                    res (pybytes * pybytes) :=
  fun _ _ _ => Ok (Utf8 (output_of ["working"] "42" true), Utf8 "").

(** A file the kernel refuses to execute. *)
Definition exec_format_error : exn :=
  Exn "OSError" "[Errno 8] Exec format error: '/action/exec'".
Definition broken : list string -> gmap string string -> string ->
                    res (pybytes * pybytes) :=
  fun _ _ _ => Raise exec_format_error.

(** A runner like the stock one whose [build] reports failure. *)
Definition strict `{Platform} : ActionRunner.t :=
  let r := stock in
  ActionRunner.Runner (ActionRunner.source r) (ActionRunner.binary r)
    (ActionRunner.zipdest r) (ActionRunner.preinit r) (ActionRunner.epilogue r)
    (ActionRunner.Method "build" ["init_arguments"]
       (fun _ f => (Ok (PBool false), f)))
    (ActionRunner.start r) (ActionRunner.pause r) (ActionRunner.stop r)
    (ActionRunner.features r).

(** A runner like the stock one whose [start], [pause] and [stop] take no
    argument. *)
Definition patched `{Platform} : ActionRunner.t :=
  let r := stock in
  ActionRunner.Runner (ActionRunner.source r) (ActionRunner.binary r)
    (ActionRunner.zipdest r) (ActionRunner.preinit r) (ActionRunner.epilogue r)
    (ActionRunner.build r)
    (ActionRunner.Method "start" [] ActionRunner.pass)
    (ActionRunner.Method "pause" [] ActionRunner.pass)
    (ActionRunner.Method "stop" [] ActionRunner.pass)
    (ActionRunner.features r).

(** An action that writes bytes that are not UTF-8. *)
Definition bad_bytes : exn :=
  Exn "UnicodeDecodeError"
      "'utf-8' codec can't decode byte 0xff in position 0: invalid start byte".
Definition garbled : list string -> gmap string string -> string ->
                     res (pybytes * pybytes) :=
  fun _ _ _ => Ok (Undecodable bad_bytes, Utf8 "").

(** An action that complains on stderr before it answers. *)
Definition noisy : list string -> gmap string string -> string ->
                   res (pybytes * pybytes) :=
  fun _ _ _ => Ok (Utf8 (Machine.dumps (JObj answer)), Utf8 "warning: low disk").

(** The process right after start on a disk without any file. *)
Definition bare (child : list string -> gmap string string -> string ->
                         res (pybytes * pybytes))
    : @world (Machine.platform child) :=
  @boot (Machine.platform child) ∅ ∅.

(** A /run request with arguments and two metadata entries. *)
Definition activation : json :=
  JObj [("value", JObj [("n", JInt 1)]); ("api_key", JStr "secret");
        ("deadline", JStr "1700000000")].

(** The same with a deadline that is a number. *)
Definition odd_activation : json :=
  JObj [("value", JObj [("n", JInt 1)]); ("api_key", JStr "secret");
        ("deadline", JInt 1700000000)].

(** The process right after start, on this disk, with an empty
    environment. *)
Definition fresh (child : list string -> gmap string string -> string ->
                          res (pybytes * pybytes))
    : @world (Machine.platform child) :=
  @boot (Machine.platform child) disk ∅.

(** The same process once initialized and started. *)
Definition running (child : list string -> gmap string string -> string ->
                            res (pybytes * pybytes))
    : @world (Machine.platform child) :=
  set_started true (set_initialized true (fresh child)).

(** The same process when reinitialization is allowed. *)
Definition permissive (child : list string -> gmap string string -> string ->
                               res (pybytes * pybytes))
    : @world (Machine.platform child) :=
  set_started true
    (set_initialized true
       (@boot (Machine.platform child) disk {[ "PROXY_ALLOW_REINIT" := "1" ]})).

(** Initialization payloads: inline source, and something that is not
    an archive flagged as one. *)
Definition inline_source : json :=
  JObj [("value", JObj [("code", JStr "echo hello")])].
Definition bad_archive : dict := [("code", JStr "!"); ("binary", JBool true)].

(** Arguments whose serialization has a given length (at least 9). *)
Definition padded (n : Z) : dict :=
  [("a", JStr (Text.replicate (Z.to_nat (n - 9)) "x"))].

End Demo.

(** * Facts about the text functions *)
Module TextFacts.
Import Text.

Lemma append_cons (c : ascii) (s t : string) :
  String c s +:+ t = String c (s +:+ t).
Proof. reflexivity. Qed.

Lemma append_nil_l (t : string) : "" +:+ t = t.
Proof. reflexivity. Qed.

Ltac app_simpl := rewrite ?append_cons, ?append_nil_l in *; simpl in *.

Lemma append_assoc (s t u : string) : (s +:+ t) +:+ u = s +:+ (t +:+ u).
Proof. induction s as [|c s IH]; app_simpl; [reflexivity | now f_equal]. Qed.

Lemma append_nil_r (s : string) : s +:+ "" = s.
Proof. induction s as [|c s IH]; app_simpl; [reflexivity | now f_equal]. Qed.

Lemma length_append (s t : string) :
  String.length (s +:+ t) = (String.length s + String.length t)%nat.
Proof. induction s as [|c s IH]; app_simpl; [reflexivity | now f_equal]. Qed.

Lemma take_app (p r : string) : take (String.length p) (p +:+ r) = p.
Proof. induction p as [|c p IH]; app_simpl; [now destruct r | now f_equal]. Qed.

Lemma drop_app (p r : string) : drop (String.length p) (p +:+ r) = r.
Proof. induction p as [|c p IH]; app_simpl; [reflexivity | exact IH]. Qed.

(** No newline in [j]: nothing is found in it. *)
Lemma rfind_no_nl (j rest : string) (stop : nat) :
  contains_nl j = false -> (stop <= String.length j)%nat ->
  rfind nl (j +:+ rest) stop = None.
Proof.
  revert stop. induction j as [|c j IH]; intros stop Hj Hstop; app_simpl.
  - assert (stop = O) by lia. subst. reflexivity.
  - apply orb_false_iff in Hj as [Hc Hj].
    destruct stop as [|k]; [reflexivity|]. simpl.
    rewrite (IH k Hj) by lia. now rewrite Hc.
Qed.

(** A newline with none after it below [stop] is the one found. *)
Lemma rfind_last (p r : string) (k : nat) :
  rfind nl r k = None ->
  rfind nl (p +:+ String nl r) (String.length p + 1 + k) = Some (String.length p).
Proof.
  intros Hr. induction p as [|c p IH]; app_simpl.
  - now rewrite Hr.
  - now rewrite IH.
Qed.

Lemma rstrip_line (s : string) : rstrip (s +:+ String nl "") = rstrip s.
Proof.
  induction s as [|c s IH]; app_simpl; [reflexivity|]. now rewrite IH.
Qed.

Lemma lstrip_line (s : string) :
  lstrip (s +:+ String nl "") = lstrip s +:+ String nl "" \/
  (lstrip (s +:+ String nl "") = "" /\ lstrip s = "").
Proof.
  induction s as [|c s IH]; app_simpl.
  - right. split; reflexivity.
  - destruct (is_space c); [exact IH | left; reflexivity].
Qed.

(** The newline that ends a line does not survive [strip]. *)
Lemma strip_line (s : string) : strip (s +:+ String nl "") = strip s.
Proof.
  unfold strip. destruct (lstrip_line s) as [-> | [-> ->]].
  - apply rstrip_line.
  - reflexivity.
Qed.

Lemma length_replicate (n : nat) (c : ascii) :
  String.length (replicate n c) = n.
Proof. induction n as [|n IH]; simpl; [reflexivity | now rewrite IH]. Qed.

Example strip_demo : strip (String nl " {} ") = "{}".
Proof. reflexivity. Qed.

Example rfind_demo : rfind "a" "banana" 5 = Some 3%nat.
Proof. reflexivity. Qed.

Example rfind_empty : rfind nl "" (String.length "" - 1) = None.
Proof. reflexivity. Qed.

Example upper_demo : Machine.upper "api_key" = "API_KEY".
Proof. reflexivity. Qed.

Example dirname_demo :
  dirname "/action/exec" = "/action" /\ dirname "exec" = ""
  /\ dirname "/exec" = "/" /\ dirname "a/b/" = "a/b".
Proof. repeat split; reflexivity. Qed.

End TextFacts.

(** * The executor: [ActionRunner.run] *)
Section Executor.
Context `{Platform}.
Import Text TextFacts.

Lemma add_events_nil (w : world) : add_events [] w = w.
Proof. destruct w. unfold add_events. simpl. now rewrite app_nil_r. Qed.

Lemma add_events_app (a b : list event) (w : world) :
  add_events b (add_events a w) = add_events (a ++ b) w.
Proof. unfold add_events. simpl. now rewrite <- (assoc_L (++)). Qed.

Lemma emit_add_events (ev : event) (w : world) : emit ev w = add_events [ev] w.
Proof. reflexivity. Qed.

(** Log lines, when there are some, end with a newline. *)
Lemma log_text_ends (l : string) (lines : list string) :
  exists p, log_text (l :: lines) = p +:+ String nl "".
Proof.
  revert l. induction lines as [|l' lines IH]; intros l.
  - exists l. simpl. unfold line. now rewrite append_nil_r.
  - destruct (IH l') as [p Hp]. exists (line l +:+ p).
    change (log_text (l :: l' :: lines)) with (line l +:+ log_text (l' :: lines)).
    now rewrite Hp, append_assoc.
Qed.

(** Without log lines no newline is found before the last character, and
    the candidate is the whole output, trimmed. *)
Lemma split_no_logs (j : string) (term : bool) :
  contains_nl j = false ->
  let o := output_of [] j term in
  rfind nl o (String.length o - 1) = None /\ strip o = strip j.
Proof.
  intros Hj. unfold output_of, line. simpl log_text. rewrite append_nil_l.
  destruct term; rewrite ?append_nil_l.
  - split; [|apply strip_line].
    apply rfind_no_nl; [exact Hj|]. rewrite length_append. simpl. lia.
  - rewrite append_nil_r. split; [|reflexivity].
    rewrite <- (append_nil_r j) at 1. apply rfind_no_nl; [exact Hj | lia].
Qed.

(** With log lines, the newline found is the one that ends the last of
    them: the text up to it is the log, the rest is the last line. *)
Lemma split_logs (l : string) (lines : list string) (j : string) (term : bool) :
  contains_nl j = false -> term = true \/ j <> "" ->
  let o := output_of (l :: lines) j term in
  exists i, rfind nl o (String.length o - 1) = Some i /\
            take (S i) o = log_text (l :: lines) /\
            strip (drop (S i) o) = strip j.
Proof.
  intros Hj Hterm. unfold output_of.
  destruct (log_text_ends l lines) as [p Hp]. rewrite Hp.
  set (t := if term then line "" else "").
  assert (Hlen : (String.length (j +:+ t) =
                  S (String.length (j +:+ t) - 1))%nat
                 /\ (String.length (j +:+ t) - 1 <= String.length j)%nat).
  { rewrite length_append. subst t. unfold line.
    destruct term; rewrite ?append_nil_l; simpl; [lia|].
    destruct Hterm as [? | Hne]; [discriminate|].
    destruct j; [congruence | simpl; lia]. }
  destruct Hlen as [Hlen Hle].
  assert (Hnone : rfind nl (j +:+ t) (String.length (j +:+ t) - 1) = None)
    by (apply rfind_no_nl; assumption).
  assert (Hst : strip (j +:+ t) = strip j).
  { subst t. destruct term; unfold line; rewrite ?append_nil_l.
    - apply strip_line.
    - now rewrite append_nil_r. }
  exists (String.length p).
  rewrite append_assoc, append_cons, append_nil_l.
  replace (String.length (p +:+ String nl (j +:+ t)) - 1)%nat
    with (String.length p + 1 + (String.length (j +:+ t) - 1))%nat
    by (rewrite (length_append p); simpl String.length; lia).
  split; [now apply rfind_last|].
  replace (S (String.length p)) with (String.length (p +:+ String nl ""))
    by (rewrite length_append; simpl; lia).
  replace (p +:+ String nl (j +:+ t)) with ((p +:+ String nl "") +:+ (j +:+ t))
    by (now rewrite append_assoc, append_cons, append_nil_l).
  rewrite take_app, drop_app. split; [reflexivity | exact Hst].
Qed.

(** What [run] does with the captured output: it forwards the log lines
    and the child's stderr, and decides on the last line, trimmed. *)
Lemma collect_output (lines : list string) (j : string) (term : bool)
    (err : string) (w : world) :
  contains_nl j = false -> term = true \/ j <> "" \/ lines = [] ->
  ActionRunner.collect (Utf8 (output_of lines j term)) (Utf8 err) w =
    let w' := add_events (forwarded lines ++ forwarded_err err) w in
    match json_loads (strip j) with
    | Some (JObj d) => (Ok (200, RObj d), w')
    | _ => ActionRunner._error (MText (strip j)) w'
    end.
Proof.
  intros Hj Hterm. unfold ActionRunner.collect.
  unfold mbind, M_bind, mret, M_ret. simpl decode. cbv beta iota.
  destruct lines as [|l lines].
  - destruct (split_no_logs j term Hj) as [-> ->]. simpl forwarded.
    unfold forwarded_err.
    destruct (String.eqb err ""); simpl;
      unfold stderr_write, modify; rewrite ?emit_add_events, ?add_events_nil;
      destruct (json_loads (strip j)) as [[]|]; reflexivity.
  - assert (Ht : term = true \/ j <> "") by (destruct Hterm as [?|[?|?]]; auto; discriminate).
    destruct (split_logs l lines j term Hj Ht) as (i & -> & -> & ->).
    unfold forwarded, forwarded_err, stdout_write, stderr_write, modify.
    unfold mbind, M_bind, mret, M_ret.
    destruct (String.eqb err ""); simpl;
      rewrite ?emit_add_events, ?add_events_app;
      destruct (json_loads (strip j)) as [[]|]; reflexivity.
Qed.

(** Every text is log lines followed by a last line in exactly the sense
    of [collect_output]. *)
Lemma every_output_splits (o : string) :
  exists (lines : list string) (j : string) (term : bool),
    o = output_of lines j term /\ contains_nl j = false
    /\ (term = true \/ j <> "" \/ lines = []).
Proof.
  induction o as [|c o IH].
  - exists [], "", false. repeat split; auto.
  - destruct IH as (lines & j & term & -> & Hj & Hterm).
    destruct (Ascii.eqb c nl) eqn:Hc.
    + apply Ascii.eqb_eq in Hc. subst c.
      destruct lines as [|l ls].
      * destruct term.
        -- exists [""], j, true. repeat split; auto.
        -- destruct j as [|a j].
           ++ exists [], "", true. repeat split; auto.
           ++ exists [""], (String a j), false. repeat split; auto.
      * exists ("" :: l :: ls), j, term. repeat split; auto.
        destruct Hterm as [?|[?|?]]; auto; discriminate.
    + destruct lines as [|l ls].
      * exists [], (String c j), term. repeat split; auto.
        cbn [contains_nl]. now rewrite Hc.
      * exists (String c l :: ls), j, term. repeat split; auto.
        destruct Hterm as [?|[?|?]]; auto; discriminate.
Qed.

End Executor.

(** * Running the computations *)
Section Evaluation.
Context `{Platform}.

Lemma bind_eval {A B} (c : M A) (k : A -> M B) (w : world) :
  (c ≫= k) w = match c w with
               | (Ok a, w') => k a w'
               | (Raise e, w') => (Raise e, w')
               end.
Proof. reflexivity. Qed.

Lemma ret_eval {A} (a : A) (w : world) : (mret a : M A) w = (Ok a, w).
Proof. reflexivity. Qed.

Lemma stdout_write_eval (s : string) (w : world) :
  stdout_write s w = (Ok tt, add_events [Write Stdout s] w).
Proof. reflexivity. Qed.

Lemma stderr_write_eval (s : string) (w : world) :
  stderr_write s w = (Ok tt, add_events [Write Stderr s] w).
Proof. reflexivity. Qed.

Lemma log_eval (msg : string) (w : world) :
  log msg w
  = (Ok tt, add_events [Write Stdout (line msg); Write Stderr (line msg)] w).
Proof.
  unfold log. rewrite bind_eval, stdout_write_eval, stderr_write_eval.
  now rewrite add_events_app.
Qed.

End Evaluation.

Ltac run_monad :=
  repeat (first [ rewrite bind_eval | rewrite log_eval
                | rewrite stdout_write_eval | rewrite stderr_write_eval
                | rewrite add_events_app ];
          cbn beta iota zeta).

(** * Claims about the executor *)
Section ExecutorClaims.
Context `{Platform}.
Import Text.

(** C1: when the child's output is N log lines followed by a last line
    whose trimmed text [json.loads] reads as an object (N arbitrary, the
    last line ended by a newline or not), [run] returns 200 with exactly
    that object and forwards the N log lines to stdout.  With [lines = []]
    and [term = false] this is the output that is only the JSON text,
    without a final newline. *)
Theorem run_recovers_result (self : ActionRunner.t) (args : dict)
    (env : envobj) (w w1 : world) (lines : list string) (j err : string)
    (term : bool) (obj : dict) :
  ActionRunner.spawn self args env w
    = (Ok (Utf8 (output_of lines j term), Utf8 err), w1) ->
  contains_nl j = false ->
  term = true \/ j <> "" \/ lines = [] ->
  json_loads (strip j) = Some (JObj obj) ->
  ActionRunner.run self args env w
    = (Ok (200, RObj obj),
       add_events (forwarded lines ++ forwarded_err err) w1).
Proof.
  intros Hspawn Hj Hterm Hobj. unfold ActionRunner.run. rewrite Hspawn.
  rewrite collect_output by assumption. cbv zeta. now rewrite Hobj.
Qed.

(** C6: when the last line of the child's output, trimmed, is not read by
    [json.loads] as an object (it is another JSON value, or not JSON),
    [run] returns 502 with [{'error': that text}] and writes the text to
    stdout, as the claim says.  When the child could not be spawned or
    talked to, [run] writes [str(e)] and returns 502 as well, but what it
    puts under ['error'] is the exception [e] itself and not its message:
    the result is not of the form the first case returns, and
    [flask.jsonify] raises [TypeError] on it. *)
Theorem run_reports_failure (self : ActionRunner.t) (args : dict)
    (env : envobj) (w w1 : world) :
  (forall (lines : list string) (j err : string) (term : bool),
      ActionRunner.spawn self args env w
        = (Ok (Utf8 (output_of lines j term), Utf8 err), w1) ->
      contains_nl j = false ->
      term = true \/ j <> "" \/ lines = [] ->
      (forall obj, json_loads (strip j) <> Some (JObj obj)) ->
      ActionRunner.run self args env w
        = (Ok (502, RErr (MText (strip j))),
           add_events (forwarded lines ++ forwarded_err err
                       ++ [Write Stdout (line (strip j))]) w1))
  /\ (forall e : exn,
      ActionRunner.spawn self args env w = (Raise e, w1) ->
      ActionRunner.run self args env w
        = (Ok (502, RErr (MExc e)),
           add_events [Write Stdout (line (exn_str e))] w1)
      /\ (forall s : string, RErr (MExc e) <> RErr (MText s))
      /\ forall w2 : world,
          Proxy.jsonify (RErr (MExc e)) w2
          = (Raise (Exn "TypeError"
                      ("Object of type " +:+ exn_class e
                       +:+ " is not JSON serializable")), w2))
  /\ server_error 502 = true.
Proof.
  split; [|split; [|reflexivity]].
  - intros lines j err term Hspawn Hj Hterm Hbad.
    unfold ActionRunner.run. rewrite Hspawn.
    rewrite collect_output by assumption. cbv zeta.
    assert (Herr : forall w', ActionRunner._error (MText (strip j)) w'
              = (Ok (502, RErr (MText (strip j))),
                 add_events [Write Stdout (line (strip j))] w'))
      by reflexivity.
    destruct (json_loads (strip j)) as [[| | | | |d]|] eqn:E;
      try (rewrite Herr, add_events_app, <- (assoc_L (++)); reflexivity).
    now destruct (Hbad d).
  - intros e Hspawn. split; [|split].
    + unfold ActionRunner.run. rewrite Hspawn. reflexivity.
    + intros s. discriminate.
    + intros w2. reflexivity.
Qed.

End ExecutorClaims.


(** The two theorems at concrete runs: an action that logs a line before
    its answer, and one that prints the answer alone without a newline. *)
Lemma run_recovers_result_witness :
  (let P := Machine.platform Demo.polite in
   let w := Demo.running Demo.polite in
   let input := Machine.dumps (JObj [("n", JInt 1)]) in
   @ActionRunner.run P Demo.stock [("n", JInt 1)] OsEnviron w
   = (Ok (200, RObj Demo.answer),
      add_events [Popen [Demo.action_path; input] ∅ input;
                  Write Stdout (line "hello")] w))
  /\ (let P := Machine.platform Demo.terse in
      let w := Demo.running Demo.terse in
      let input := Machine.dumps (JObj [("n", JInt 1)]) in
      @ActionRunner.run P Demo.stock [("n", JInt 1)] OsEnviron w
      = (Ok (200, RObj Demo.answer),
         add_events [Popen [Demo.action_path; input] ∅ input] w)).
Proof.
  split; intros P w input.
  - rewrite (@run_recovers_result P Demo.stock [("n", JInt 1)] OsEnviron w
               (add_events [Popen [Demo.action_path; input] ∅ input] w)
               ["hello"] (Machine.dumps (JObj Demo.answer)) "" true Demo.answer).
    + reflexivity.
    + reflexivity.
    + reflexivity.
    + left. reflexivity.
    + reflexivity.
  - rewrite (@run_recovers_result P Demo.stock [("n", JInt 1)] OsEnviron w
               (add_events [Popen [Demo.action_path; input] ∅ input] w)
               [] (Machine.dumps (JObj Demo.answer)) "" false Demo.answer).
    + reflexivity.
    + reflexivity.
    + reflexivity.
    + right. right. reflexivity.
    + reflexivity.
Defined.

Lemma run_reports_failure_witness :
  (let P := Machine.platform Demo.sloppy in
   let w := Demo.running Demo.sloppy in
   let input := Machine.dumps (JObj [("n", JInt 1)]) in
   @ActionRunner.run P Demo.stock [("n", JInt 1)] OsEnviron w
   = (Ok (502, RErr (MText "42")),
      add_events [Popen [Demo.action_path; input] ∅ input;
                  Write Stdout (line "working");
                  Write Stdout (line "42")] w))
  /\ (let P := Machine.platform Demo.broken in
      let w := Demo.running Demo.broken in
      let input := Machine.dumps (JObj [("n", JInt 1)]) in
      @ActionRunner.run P Demo.stock [("n", JInt 1)] OsEnviron w
      = (Ok (502, RErr (MExc Demo.exec_format_error)),
         add_events [Popen [Demo.action_path; input] ∅ input;
                     Write Stdout (line (exn_str Demo.exec_format_error))] w)
      /\ @Proxy.jsonify P (RErr (MExc Demo.exec_format_error)) w
         = (Raise (Exn "TypeError"
                     "Object of type OSError is not JSON serializable"), w)).
Proof.
  split; intros P w input.
  - rewrite (proj1 (@run_reports_failure P Demo.stock [("n", JInt 1)] OsEnviron w
                      (add_events [Popen [Demo.action_path; input] ∅ input] w))
               ["working"] "42" "" true).
    + reflexivity.
    + reflexivity.
    + reflexivity.
    + left. reflexivity.
    + intros obj. discriminate.
  - destruct (proj1 (proj2 (@run_reports_failure P Demo.stock [("n", JInt 1)]
                              OsEnviron w
                              (add_events [Popen [Demo.action_path; input] ∅ input] w)))
                Demo.exec_format_error) as (Hrun & _ & Hjson).
    + reflexivity.
    + split; [rewrite Hrun; reflexivity | apply Hjson].
Defined.

(** * The shape of the invocation *)
Section Invocation.
Context `{Platform}.

Lemma popen_calls_app (a b : list event) :
  popen_calls (a ++ b) = popen_calls a ++ popen_calls b.
Proof. apply omap_app. Qed.

Lemma error_writes (msg : errmsg) (w : world) :
  ActionRunner._error msg w
  = (Ok (502, RErr msg), add_events [Write Stdout (line (errmsg_str msg))] w).
Proof. reflexivity. Qed.

(** After the child has ended, [run] only writes to the two streams. *)
Lemma collect_only_writes (o e : pybytes) (w : world) :
  exists evs, snd (ActionRunner.collect o e w) = add_events evs w
              /\ popen_calls evs = [].
Proof.
  unfold ActionRunner.collect, mbind, M_bind, mret, M_ret.
  destruct o as [o|x]; simpl decode; cbv beta iota;
    [|exists []; now rewrite add_events_nil].
  destruct e as [e|x]; simpl decode; cbv beta iota;
    [|exists []; now rewrite add_events_nil].
  unfold stdout_write, stderr_write, modify.
  destruct (Text.rfind Text.nl o (String.length o - 1)) as [i|];
    destruct (negb (String.eqb e "")); cbv beta iota;
    destruct (json_loads _) as [[]|];
    rewrite ?error_writes; cbn [snd];
    rewrite ?emit_add_events, ?add_events_app;
    first [ eexists; split; [reflexivity | reflexivity]
          | exists []; now rewrite add_events_nil ].
Qed.

(** [run] creates exactly one child; the argument vector depends on the
    length of the serialized arguments, the bytes on stdin do not. *)
Lemma run_popen_calls (self : ActionRunner.t) (args : dict) (env : envobj)
    (w : world) :
  let input := json_dumps (JObj args) in
  let vars := match env with OsEnviron => environ w | EnvDict m => m end in
  popen_calls (trace (snd (ActionRunner.run self args env w)))
  = popen_calls (trace w)
    ++ [(if Text.len input >? 131071
         then [ActionRunner.binary self]
         else [ActionRunner.binary self; input], vars, input)].
Proof.
  intros input vars. unfold ActionRunner.run, ActionRunner.spawn.
  fold input.
  destruct (Text.len input >? 131071);
    unfold ActionRunner.popen_communicate; fold vars;
    match goal with
    | |- context [communicate ?a ?b ?c ?d] =>
        destruct (communicate a b c d) as [[[o e]|x] f]
    end;
    try (rewrite error_writes; cbn [snd trace add_events set_fs emit];
         rewrite !popen_calls_app; simpl; now rewrite app_nil_r);
    match goal with
    | |- context [ActionRunner.collect ?o ?e ?w'] =>
        destruct (collect_only_writes o e w') as (evs & -> & Hevs)
    end;
    cbn [snd trace add_events set_fs emit];
    rewrite !popen_calls_app, Hevs; simpl; now rewrite app_nil_r.
Qed.

(** C2, as the code has it: the serialized arguments always go to the
    child's stdin; they are also passed as a command-line argument when
    their length is at most 131071, and not when it is 131072 or more. *)
Theorem run_invocation_shape (self : ActionRunner.t) (args : dict)
    (env : envobj) (w : world) :
  let input := json_dumps (JObj args) in
  let vars := match env with OsEnviron => environ w | EnvDict m => m end in
  let calls := popen_calls (trace (snd (ActionRunner.run self args env w))) in
  (Text.len input <= 131071 ->
   calls = popen_calls (trace w)
           ++ [([ActionRunner.binary self; input], vars, input)])
  /\ (131072 <= Text.len input ->
      calls = popen_calls (trace w) ++ [([ActionRunner.binary self], vars, input)]).
Proof.
  intros input vars calls. subst calls. rewrite run_popen_calls.
  fold input vars. split; intros Hlen.
  - now replace (Text.len input >? 131071) with false by (symmetry; lia).
  - now replace (Text.len input >? 131071) with true by (symmetry; lia).
Qed.

End Invocation.

(** C2 as stated fails: arguments that serialize to 131071 characters are
    still passed on the command line. *)
Lemma stdin_only_from_131071_fails :
  let P := Machine.platform Demo.polite in
  let args := Demo.padded 131071 in
  let input := Machine.dumps (JObj args) in
  Text.len input = 131071
  /\ popen_calls (trace (snd (@ActionRunner.run P Demo.stock args OsEnviron
                                (Demo.fresh Demo.polite))))
     = [([Demo.action_path; input], ∅, input)]
  /\ [Demo.action_path; input] <> [Demo.action_path].
Proof.
  intros P args input.
  assert (Hlen : Text.len input = 131071) by (vm_compute; reflexivity).
  split; [exact Hlen|]. split; [|discriminate].
  rewrite (@run_popen_calls P). cbv zeta.
  change (@json_dumps P (JObj args)) with input. rewrite Hlen. reflexivity.
Qed.

Lemma run_invocation_shape_witness :
  let P := Machine.platform Demo.polite in
  let w := Demo.fresh Demo.polite in
  let calls (args : dict) :=
    popen_calls (trace (snd (@ActionRunner.run P Demo.stock args OsEnviron w))) in
  let input (n : Z) := Machine.dumps (JObj (Demo.padded n)) in
  calls (Demo.padded 131071)
    = [([Demo.action_path; input 131071], ∅, input 131071)]
  /\ calls (Demo.padded 131072) = [([Demo.action_path], ∅, input 131072)].
Proof.
  intros P w calls input. split.
  - apply (proj1 (@run_invocation_shape P Demo.stock (Demo.padded 131071)
                    OsEnviron w)).
    apply Z.leb_le. vm_compute. reflexivity.
  - apply (proj2 (@run_invocation_shape P Demo.stock (Demo.padded 131072)
                    OsEnviron w)).
    apply Z.leb_le. vm_compute. reflexivity.
Defined.

(** * What the runner leaves alone *)
Section Frame.
Context `{Platform}.

Lemma proceeds_refl (w : world) : proceeds w w.
Proof.
  repeat split; try reflexivity. exists []. rewrite app_nil_r.
  split; [reflexivity | constructor].
Qed.

Lemma proceeds_trans (w1 w2 w3 : world) :
  proceeds w1 w2 -> proceeds w2 w3 -> proceeds w1 w3.
Proof.
  intros (Hr & Hi & Hs & He & evs & Ht & Hp)
         (Hr' & Hi' & Hs' & He' & evs' & Ht' & Hp').
  repeat split; try congruence.
  exists (evs ++ evs'). split; [now rewrite Ht', Ht, <- (assoc_L (++))|].
  unfold popen_calls in *. rewrite omap_app. apply Forall_app. split; [exact Hp|].
  now rewrite <- He.
Qed.

Lemma proceeds_add_events (evs : list event) (w : world) :
  popen_calls evs = [] -> proceeds w (add_events evs w).
Proof.
  intros Hp. repeat split; try reflexivity. exists evs.
  split; [reflexivity | rewrite Hp; constructor].
Qed.

Lemma proceeds_popen (argv : list string) (input : string) (w : world) :
  proceeds w (emit (Popen argv (environ w) input) w).
Proof.
  repeat split; try reflexivity. exists [Popen argv (environ w) input].
  split; [reflexivity | repeat constructor].
Qed.

Lemma proceeds_set_fs (f : FS) (w : world) : proceeds w (set_fs f w).
Proof.
  repeat split; try reflexivity. exists []. cbn. rewrite app_nil_r.
  split; [reflexivity | constructor].
Qed.

Lemma steady_ret {A} (a : A) : steady (mret a : M A).
Proof. intros w. apply proceeds_refl. Qed.

Lemma steady_raise {A} (e : exn) : steady (raise e : M A).
Proof. intros w. apply proceeds_refl. Qed.

Lemma steady_bind {A B} (c : M A) (k : A -> M B) :
  steady c -> (forall a, steady (k a)) -> steady (c ≫= k).
Proof.
  intros Hc Hk w. unfold mbind, M_bind. specialize (Hc w).
  destruct (c w) as [[a|e] w1]; cbn [snd] in *; [|exact Hc].
  eapply proceeds_trans; [exact Hc | apply Hk].
Qed.

Lemma steady_try {A} (c : M A) (h : exn -> M A) :
  steady c -> (forall e, steady (h e)) -> steady (try_except c h).
Proof.
  intros Hc Hh w. unfold try_except. specialize (Hc w).
  destruct (c w) as [[a|e] w1]; cbn [snd] in *; [exact Hc|].
  eapply proceeds_trans; [exact Hc | apply Hh].
Qed.

Lemma steady_gets {A} (f : world -> A) : steady (gets f).
Proof. intros w. apply proceeds_refl. Qed.

Lemma steady_stdout (s : string) : steady (stdout_write s).
Proof. intros w. now apply (proceeds_add_events [Write Stdout s]). Qed.

Lemma steady_stderr (s : string) : steady (stderr_write s).
Proof. intros w. now apply (proceeds_add_events [Write Stderr s]). Qed.

Lemma steady_log (msg : string) : steady (log msg).
Proof. apply steady_bind; [apply steady_stdout | intros; apply steady_stderr]. Qed.

Lemma steady_os_call (c : FS -> option exn * FS) : steady (os_call c).
Proof.
  intros w. unfold os_call. destruct (c (fs w)) as [[e|] f];
    apply proceeds_set_fs.
Qed.

Lemma steady_getitem (k : string) (d : dict) : steady (getitem k d).
Proof.
  unfold getitem. destruct (dict_get k d); [apply steady_ret | apply steady_raise].
Qed.

Lemma steady_call (m : ActionRunner.method) (args : list json) :
  steady (ActionRunner.call m args).
Proof.
  intros w. unfold ActionRunner.call.
  destruct (Nat.eqb _ _); [|apply proceeds_refl].
  destruct (ActionRunner.m_body m args (fs w)) as [r f]. apply proceeds_set_fs.
Qed.

Create HintDb steady discriminated.
Hint Resolve steady_ret steady_raise steady_gets steady_stdout steady_stderr
  steady_log steady_os_call steady_getitem steady_call : steady.

Ltac steady :=
  repeat first
    [ solve [auto with steady]
    | progress cbv zeta
    | apply steady_bind; [|intros ?]
    | apply steady_try; [|intros ?]
    | match goal with
      | |- steady (if ?b then _ else _) => destruct b
      | |- steady (match ?x with _ => _ end) => destruct x
      end ].

Lemma steady_initCodeFromString (self : ActionRunner.t) (message : dict) :
  steady (ActionRunner.initCodeFromString self message).
Proof. unfold ActionRunner.initCodeFromString. steady. Qed.

Lemma steady_initCodeFromZip (self : ActionRunner.t) (message : dict) :
  steady (ActionRunner.initCodeFromZip self message).
Proof. unfold ActionRunner.initCodeFromZip. steady. Qed.

Lemma steady_verify (self : ActionRunner.t) : steady (ActionRunner.verify self).
Proof. apply steady_gets. Qed.

Hint Resolve steady_initCodeFromString steady_initCodeFromZip steady_verify
  : steady.

Lemma steady_prep (self : ActionRunner.t) (message : dict) :
  steady (ActionRunner.prep self message).
Proof. unfold ActionRunner.prep. steady. Qed.

Lemma steady_hooks (self : ActionRunner.t) (message : dict) :
  steady (ActionRunner.hooks self message).
Proof. unfold ActionRunner.hooks. steady. Qed.

Hint Resolve steady_prep steady_hooks : steady.

Lemma steady_init (self : ActionRunner.t) (message : dict) :
  steady (ActionRunner.init self message).
Proof. unfold ActionRunner.init. steady. Qed.

Lemma steady_error (msg : errmsg) : steady (ActionRunner._error msg).
Proof. unfold ActionRunner._error. steady. Qed.

Hint Resolve steady_error : steady.

Lemma steady_collect (o e : pybytes) : steady (ActionRunner.collect o e).
Proof.
  unfold ActionRunner.collect. steady.
  - intros w. destruct (decode o); apply proceeds_refl.
  - intros w. destruct (decode e); apply proceeds_refl.
Qed.

(** [run] on the live environment. *)
Lemma steady_run (self : ActionRunner.t) (args : dict) :
  steady (ActionRunner.run self args OsEnviron).
Proof.
  intros w. unfold ActionRunner.run, ActionRunner.spawn.
  assert (Hp : forall argv input,
             proceeds w (snd (ActionRunner.popen_communicate argv OsEnviron input w))).
  { intros argv input. unfold ActionRunner.popen_communicate.
    destruct (communicate _ _ _ _) as [r f]. cbn [snd].
    eapply proceeds_trans; [|apply proceeds_set_fs].
    apply proceeds_popen. }
  destruct (Text.len _ >? 131071);
    match goal with
    | |- context [ActionRunner.popen_communicate ?a ?e ?i ?w] =>
        specialize (Hp a i);
        destruct (ActionRunner.popen_communicate a e i w) as [[[o x]|x] w1]
    end; cbn [snd] in Hp;
    (eapply proceeds_trans; [exact Hp|]);
    first [apply steady_collect | apply steady_error].
Qed.

End Frame.

(** * The lifecycle: /init, /onstart, /onpause, /onfinish *)
Section Lifecycle.
Context `{Platform}.

(** A method call writes nothing and touches no flag. *)
Lemma call_frame (m : ActionRunner.method) (args : list json) (w : world) :
  let w' := snd (ActionRunner.call m args w) in
  trace w' = trace w /\ initialized w' = initialized w
  /\ started w' = started w.
Proof.
  unfold ActionRunner.call. destruct (Nat.eqb _ _); [|now cbn].
  destruct (ActionRunner.m_body m args (fs w)). now cbn.
Qed.

(** What [error] does: the sentinel goes out, then the response. *)
Lemma error_response (msg : string) (code : Z) (w : world) :
  Proxy.error msg code w
  = (Ok (Response code (BJson (JObj [("error", JStr msg)]))),
     add_events sentinel_lines w).
Proof. unfold Proxy.error, Proxy.complete. run_monad. reflexivity. Qed.

(** C4: when reinitialization is forbidden and the action is
    initialized, /init answers 403 whatever the payload; the flags, the
    environment and the files are as before, and the only output is the
    refusal on stderr and the sentinel. *)
Theorem reinit_refused (runner : ActionRunner.t) (message : json) (w : world) :
  rejectReinit w = true -> initialized w = true ->
  let msg := "Cannot initialize the action more than once." in
  let w' := snd (Proxy.serve runner (Proxy.PostInit message) w) in
  fst (Proxy.serve runner (Proxy.PostInit message) w)
    = Response 403 (BJson (JObj [("error", JStr msg)]))
  /\ client_error 403 = true
  /\ w' = add_events (Write Stderr (line msg) :: sentinel_lines) w
  /\ initialized w' = initialized w /\ started w' = started w
  /\ fs w' = fs w /\ environ w' = environ w.
Proof.
  intros Hrej Hini msg w'. subst w'.
  unfold Proxy.serve, Proxy.route, Proxy.init. rewrite Hrej, Hini.
  cbn [andb]. run_monad. rewrite error_response. run_monad.
  cbn [fst snd]. repeat split; try reflexivity; cbn; congruence.
Qed.

(** C8, as the code has it: while [started] is true, /onstart answers
    500 (a server-class status) and changes nothing but the output. *)
Theorem second_start_fails (runner : ActionRunner.t) (w : world) :
  started w = true ->
  let msg := "Cannot trigger start the action more than once." in
  let w' := snd (Proxy.serve runner Proxy.PostOnStart w) in
  fst (Proxy.serve runner Proxy.PostOnStart w)
    = Response 500 (BJson (JObj [("error", JStr msg)]))
  /\ server_error 500 = true
  /\ w' = add_events (Write Stderr (line msg) :: sentinel_lines) w
  /\ initialized w' = initialized w /\ started w' = started w
  /\ fs w' = fs w /\ environ w' = environ w.
Proof.
  intros Hst msg w'. subst w'.
  unfold Proxy.serve, Proxy.route, Proxy.start. rewrite Hst.
  run_monad. rewrite error_response. run_monad.
  cbn [fst snd]. repeat split; try reflexivity; cbn; congruence.
Qed.

(** C7 on the stock runner: /onpause and /onfinish call [pause] and
    [stop] without arguments, the methods take two, and the [TypeError]
    leaves the route after the log line: no response is built. *)
Theorem pause_and_finish_raise (src bin zdest : string) (w : world) :
  Proxy.serve (ActionRunner.base src bin zdest) Proxy.PostOnPause w
    = (Unhandled (Exn "TypeError" "pause() called with the wrong number of arguments"),
       add_events [Write Stdout (line "onpause"); Write Stderr (line "onpause")] w)
  /\ Proxy.serve (ActionRunner.base src bin zdest) Proxy.PostOnFinish w
    = (Unhandled (Exn "TypeError" "stop() called with the wrong number of arguments"),
       add_events [Write Stdout (line "onfinish"); Write Stderr (line "onfinish")] w).
Proof.
  split; unfold Proxy.serve, Proxy.route, Proxy.pause, Proxy.finish;
    run_monad; reflexivity.
Qed.

(** The first /onstart on the stock runner: [started] is set, then
    [start] is called without its two arguments. *)
Lemma first_start_on_stock_runner (src bin zdest : string) (w : world) :
  started w = false ->
  Proxy.serve (ActionRunner.base src bin zdest) Proxy.PostOnStart w
  = (Unhandled (Exn "TypeError" "start() called with the wrong number of arguments"),
     add_events [Write Stdout (line "onStart"); Write Stderr (line "onStart")]
       (set_started true w)).
Proof.
  intros Hst. unfold Proxy.serve, Proxy.route, Proxy.start. rewrite Hst.
  unfold modify. run_monad. reflexivity.
Qed.

(** With a runner whose [start] takes no argument and returns, the first
    /onstart is answered 200 and sets [started]. *)
Lemma first_start_accepted (runner : ActionRunner.t) (w : world) :
  started w = false ->
  ActionRunner.m_params (ActionRunner.start runner) = [] ->
  (forall f, exists v f', ActionRunner.m_body (ActionRunner.start runner) [] f = (Ok v, f')) ->
  exists w', Proxy.serve runner Proxy.PostOnStart w
             = (Response 200 (BJson (JObj [("msg", JStr "onStart")])), w')
             /\ started w' = true /\ initialized w' = initialized w.
Proof.
  intros Hst Hp Hb. unfold Proxy.serve, Proxy.route, Proxy.start. rewrite Hst.
  unfold modify. run_monad. unfold ActionRunner.call. rewrite Hp. cbn.
  match goal with
  | |- context [ActionRunner.m_body _ [] ?f] =>
      destruct (Hb f) as (v & f' & ->)
  end.
  unfold mret, M_ret. eexists. repeat split.
Qed.

(** A runner whose [pause] and [stop] take no argument and return is
    answered 200 in every state. *)
Lemma pause_accepted (runner : ActionRunner.t) (w : world) :
  ActionRunner.m_params (ActionRunner.pause runner) = [] ->
  (forall f, exists v f', ActionRunner.m_body (ActionRunner.pause runner) [] f = (Ok v, f')) ->
  exists w', Proxy.serve runner Proxy.PostOnPause w
             = (Response 200 (BJson (JObj [("msg", JStr "onpause")])), w').
Proof.
  intros Hp Hb. unfold Proxy.serve, Proxy.route, Proxy.pause.
  run_monad. unfold ActionRunner.call. rewrite Hp. cbn.
  unfold mret, M_ret.
  match goal with
  | |- context [ActionRunner.m_body _ [] ?f] =>
      destruct (Hb f) as (v & f' & ->)
  end.
  eexists. reflexivity.
Qed.

Lemma ends_with_add (evs last : list event) (w : world) :
  ends_with (trace w) (trace (add_events (evs ++ last) w)) last.
Proof. exists evs. reflexivity. Qed.

Lemma ends_with_after (w w1 : world) (last : list event) :
  proceeds w w1 -> ends_with (trace w) (trace (add_events last w1)) last.
Proof.
  intros (_ & _ & _ & _ & evs & Ht & _). exists evs. cbn.
  now rewrite Ht, <- (assoc_L (++)).
Qed.

(** The [try] block of [init] never raises, and when it returns from
    [init] it returns [False]. *)
Lemma hooks_result (self : ActionRunner.t) (message : dict) (w : world) :
  exists w', ActionRunner.hooks self message w = (Ok None, w')
             \/ ActionRunner.hooks self message w = (Ok (Some false), w').
Proof.
  unfold ActionRunner.hooks, try_except. rewrite bind_eval.
  destruct (ActionRunner.call (ActionRunner.epilogue self) _ w) as [[v|e] w1];
    [|eexists; right; reflexivity].
  destruct (is_False v); [eexists; right; reflexivity|].
  rewrite bind_eval.
  destruct (ActionRunner.call (ActionRunner.build self) _ w1) as [[v'|e] w2];
    [|eexists; right; reflexivity].
  destruct (is_False v'); eexists; [right | left]; reflexivity.
Qed.

(** [init] returns [True] only through the verification, whose log line
    is then the last thing written. *)
Lemma init_true_ends (self : ActionRunner.t) (message : dict) (w w' : world) :
  ActionRunner.init self message w = (Ok true, w') ->
  ends_with (trace w) (trace w') verified_lines.
Proof.
  unfold ActionRunner.init. rewrite bind_eval.
  pose proof (steady_prep self message w) as Hp.
  destruct (ActionRunner.prep self message w) as [[p|e] w1]; [|discriminate].
  cbn [snd] in Hp. rewrite bind_eval.
  assert (Hh : forall w2, proceeds w w2 ->
            (verified ← ActionRunner.verify self;
             log ("verified: " +:+ bool_str verified) ;; mret verified) w2
            = (Ok true, w') ->
            ends_with (trace w) (trace w') verified_lines).
  { intros w2 Hw2. unfold ActionRunner.verify, gets. rewrite bind_eval.
    cbn beta iota. rewrite bind_eval, log_eval. cbn beta iota.
    unfold mret, M_ret. intros [= Hv <-]. rewrite Hv.
    now apply ends_with_after. }
  destruct p.
  - pose proof (steady_hooks self message w1) as Hs.
    destruct (hooks_result self message w1) as (w2 & [E | E]);
      rewrite E in *; cbn [snd] in Hs; [|discriminate].
    apply Hh. eapply proceeds_trans; eassumption.
  - unfold mret at 1, M_ret at 1. now apply Hh.
Qed.

(** How /init can end. *)
Lemma init_outcome (runner : ActionRunner.t) (message : json) (w : world) :
  let o := fst (Proxy.serve runner (Proxy.PostInit message) w) in
  let w' := snd (Proxy.serve runner (Proxy.PostInit message) w) in
  (exists b, o = Response 403 b /\ proceeds w w'
             /\ ends_with (trace w) (trace w') sentinel_lines)
  \/ (o = Aborted 404 /\ proceeds w w')
  \/ (exists b, o = Response 502 b /\ proceeds w w'
                /\ ends_with (trace w) (trace w') sentinel_lines)
  \/ ((exists b, o = Response 200 b) /\ initialized w' = true
      /\ started w' = false
      /\ ends_with (trace w) (trace w') verified_lines)
  \/ (exists e, o = Unhandled e).
Proof.
  intros o w'. subst o w'.
  unfold Proxy.serve, Proxy.route, Proxy.init.
  destruct (rejectReinit w && initialized w).
  { left. rewrite bind_eval, stderr_write_eval. cbn beta iota.
    rewrite error_response, add_events_app. cbn [fst snd].
    eexists. split; [reflexivity|]. split; [now apply proceeds_add_events|].
    apply (ends_with_add [_]). }
  right. rewrite bind_eval, log_eval. cbn beta iota.
  set (w1 := add_events _ w).
  assert (H1 : proceeds w w1) by now apply proceeds_add_events.
  destruct (truthy message && negb (is_dict message)).
  { left. cbn. split; [reflexivity | exact H1]. }
  destruct (Proxy.value_of message) as [| | | | |value];
    try (left; cbn; split; [reflexivity | exact H1]).
  right.
  pose proof (steady_init runner value w1) as Hs.
  pose proof (init_true_ends runner value w1) as Ht.
  destruct (ActionRunner.init runner value w1) as [[[]|e] w2];
    cbn [snd] in Hs.
  - right. unfold modify. run_monad.
    pose proof (call_frame (ActionRunner.features runner) []
                  (set_initialized true (set_started false w2))) as Hc.
    destruct (ActionRunner.call _ _ _) as [[v|x] w3]; cbn [fst snd] in *;
      [left | right; eexists; reflexivity].
    destruct Hc as (Hev & Hi & Hst).
    split; [eexists; reflexivity|]. split; [exact Hi|]. split; [exact Hst|].
    destruct (Ht w2 eq_refl) as [mid Hmid].
    destruct H1 as (_ & _ & _ & _ & evs1 & Hev1 & _).
    exists (evs1 ++ mid). unfold mret, M_ret. cbn [fst snd].
    rewrite Hev. cbn [trace set_initialized set_started].
    rewrite Hmid, Hev1. now rewrite <- !(assoc_L (++)).
  - left. rewrite error_response. cbn [fst snd]. eexists.
    split; [reflexivity|].
    split; [eapply proceeds_trans; [eapply proceeds_trans; eassumption|];
            now apply proceeds_add_events|].
    apply ends_with_after. eapply proceeds_trans; eassumption.
  - left. rewrite error_response. cbn [fst snd]. eexists.
    split; [reflexivity|].
    split; [eapply proceeds_trans; [eapply proceeds_trans; eassumption|];
            now apply proceeds_add_events|].
    apply ends_with_after. eapply proceeds_trans; eassumption.
Qed.

(** [os.environ[key] = v] and the loop of [env] write nothing and leave
    the flags and the files alone. *)
Lemma env_items_frame (items : dict) (w : world) :
  let w' := snd (ActionRunner.env_items items w) in
  trace w' = trace w /\ initialized w' = initialized w
  /\ started w' = started w /\ rejectReinit w' = rejectReinit w
  /\ fs w' = fs w.
Proof.
  revert w. induction items as [|[k v] rest IH]; intros w; [now cbn|].
  cbn [ActionRunner.env_items]. rewrite bind_eval.
  assert (Hset : forall key, let w1 := snd (ActionRunner.environ_setitem key v w) in
             trace w1 = trace w /\ initialized w1 = initialized w
             /\ started w1 = started w /\ rejectReinit w1 = rejectReinit w
             /\ fs w1 = fs w).
  { intros key. unfold ActionRunner.environ_setitem.
    destruct v; try (now cbn). destruct (_ || _); [now cbn|].
    destruct (ActionRunner.has_char _ _); now cbn. }
  destruct (negb (String.eqb k "value")).
  - specialize (Hset ("__OW_" +:+ str_upper k)).
    destruct (ActionRunner.environ_setitem _ v w) as [[[]|e] w1];
      cbn [snd] in Hset; [|exact Hset].
    specialize (IH w1). cbv zeta in IH.
    destruct Hset as (<- & <- & <- & <- & <-). exact IH.
  - apply IH.
Qed.

(** How /run ends: always with a response, after the sentinel. *)
Lemma run_route_result (runner : ActionRunner.t) (message : json) (w : world) :
  exists code b w',
    Proxy.run runner message w = (Ok (Response code b), w')
    /\ ends_with (trace w) (trace w') sentinel_lines.
Proof.
  unfold Proxy.run.
  assert (Herr : forall (msg : string) (code : Z) (w1 : world),
    (exists evs, trace w1 = trace w ++ evs) ->
    exists (c : Z) (b : body) (w' : world),
      Proxy.error msg code w1 = (Ok (Response c b), w')
      /\ ends_with (trace w) (trace w') sentinel_lines).
  { intros msg code w1 [evs Hev]. rewrite error_response.
    do 3 eexists. split; [reflexivity|].
    exists evs. cbn. now rewrite Hev, <- (assoc_L (++)). }
  assert (Hw : exists evs, trace w = trace w ++ evs)
    by (exists []; now rewrite app_nil_r).
  cbv zeta.
  destruct (truthy message && negb (is_dict message)); [now apply Herr|].
  destruct (Proxy.value_of message) as [| | | | |args]; try (now apply Herr).
  rewrite bind_eval. unfold ActionRunner.verify, gets. cbn beta iota.
  destruct (isfile _ _ && access_x _ _); [|now apply Herr].
  unfold Proxy.answer, Proxy.invoke, ActionRunner.env.
  rewrite !bind_eval.
  pose proof (env_items_frame (Proxy.or_empty message) w) as Hf.
  destruct (ActionRunner.env_items _ w) as [[[]|e] w1]; cbn [snd] in Hf;
    destruct Hf as (Ht1 & _);
    [|apply Herr; exists []; now rewrite Ht1, app_nil_r].
  unfold mret at 1, M_ret at 1. cbn beta iota. rewrite bind_eval.
  pose proof (steady_run runner args w1) as Hr.
  destruct (ActionRunner.run runner args OsEnviron w1) as [[[code result]|e] w2];
    cbn [snd] in Hr; destruct Hr as (_ & _ & _ & _ & evs & Hev & _);
    assert (Hw2 : exists evs, trace w2 = trace w ++ evs)
      by (exists evs; now rewrite Hev, Ht1);
    [|now apply Herr].
  rewrite bind_eval. cbn [fst snd].
  destruct result as [d|[s|x]]; cbn [Proxy.jsonify];
    unfold mret, M_ret, raise; cbn beta iota; try (now apply Herr).
  all: unfold Proxy.complete; run_monad;
    do 3 eexists; (split; [reflexivity|]);
    destruct Hw2 as [evs2 Hev2]; exists evs2;
    cbn; now rewrite Hev2, <- (assoc_L (++)).
Qed.

(** C9: an /init that answers 200 leaves [initialized] true and
    [started] false. *)
Theorem init_success_sets_flags (runner : ActionRunner.t) (message : json)
    (w w' : world) (b : body) :
  Proxy.serve runner (Proxy.PostInit message) w = (Response 200 b, w') ->
  initialized w' = true /\ started w' = false.
Proof.
  intros E. pose proof (init_outcome runner message w) as Ho.
  cbv zeta in Ho. rewrite E in Ho. cbn [fst snd] in Ho.
  destruct Ho as [(b' & [=] & _) | [[[=] _] | [(b' & [=] & _)
                 | [(_ & Hi & Hs & _) | (e & [=])]]]].
  now split.
Qed.

(** C5, as the code has it: every /run ends with a response and with the
    sentinel on both streams as its last output, and so does every /init
    that answers an error status; an /init that answers 200 ends its
    output with the verification line instead. *)
Theorem completion_sentinel (runner : ActionRunner.t) (message : json)
    (w : world) :
  (exists code b w',
      Proxy.serve runner (Proxy.PostRun message) w = (Response code b, w')
      /\ ends_with (trace w) (trace w') sentinel_lines)
  /\ (forall code b w',
        Proxy.serve runner (Proxy.PostInit message) w = (Response code b, w') ->
        code <> 200 ->
        ends_with (trace w) (trace w') sentinel_lines)
  /\ (forall b w',
        Proxy.serve runner (Proxy.PostInit message) w = (Response 200 b, w') ->
        ends_with (trace w) (trace w') verified_lines).
Proof.
  split; [|split].
  - destruct (run_route_result runner message w) as (code & b & w' & E & Hs).
    exists code, b, w'. unfold Proxy.serve, Proxy.route. now rewrite E.
  - intros code b w' E Hcode. pose proof (init_outcome runner message w) as Ho.
    cbv zeta in Ho. rewrite E in Ho. cbn [fst snd] in Ho.
    destruct Ho as [(b' & _ & _ & Hs) | [[[=] _] | [(b' & _ & _ & Hs)
                   | [((b' & [= -> _]) & _) | (e & [=])]]]];
      [exact Hs | exact Hs | congruence].
  - intros b w' E. pose proof (init_outcome runner message w) as Ho.
    cbv zeta in Ho. rewrite E in Ho. cbn [fst snd] in Ho.
    destruct Ho as [(b' & [=] & _) | [[[=] _] | [(b' & [=] & _)
                   | [(_ & _ & _ & Hs) | (e & [=])]]]].
    exact Hs.
Qed.

(** The sibling paths of C3.  A hook that returns [False] or raises makes
    [init] return [False] without verifying. *)
Lemma failing_hook_aborts (self : ActionRunner.t) (message : dict)
    (w wp wh : world) :
  ActionRunner.prep self message w = (Ok true, wp) ->
  ActionRunner.hooks self message wp = (Ok (Some false), wh) ->
  ActionRunner.init self message w = (Ok false, wh).
Proof.
  intros Hp Hh. unfold ActionRunner.init. rewrite bind_eval, Hp.
  cbn beta iota. now rewrite bind_eval, Hh.
Qed.

Lemma epilogue_failure (self : ActionRunner.t) (message : dict) (wp w1 : world) :
  ActionRunner.call (ActionRunner.epilogue self) [JObj message] wp
    = (Ok (PBool false), w1)
  \/ (exists e, ActionRunner.call (ActionRunner.epilogue self) [JObj message] wp
                = (Raise e, w1)) ->
  ActionRunner.hooks self message wp = (Ok (Some false), w1).
Proof.
  intros [E | [e E]]; unfold ActionRunner.hooks, try_except;
    rewrite bind_eval, E; reflexivity.
Qed.

Lemma build_failure (self : ActionRunner.t) (message : dict) (v : pyval)
    (wp w1 w2 : world) :
  ActionRunner.call (ActionRunner.epilogue self) [JObj message] wp = (Ok v, w1) ->
  is_False v = false ->
  ActionRunner.call (ActionRunner.build self) [JObj message] w1
    = (Ok (PBool false), w2)
  \/ (exists e, ActionRunner.call (ActionRunner.build self) [JObj message] w1
                = (Raise e, w2)) ->
  ActionRunner.hooks self message wp = (Ok (Some false), w2).
Proof.
  intros E Hv [E' | [e E']]; unfold ActionRunner.hooks, try_except;
    rewrite bind_eval, E; cbn beta iota; rewrite Hv, bind_eval, E'; reflexivity.
Qed.

(** Inline source that cannot be written makes [init] raise. *)
Lemma write_failure_raises (self : ActionRunner.t) (message : dict)
    (code : json) (v : pyval) (e : exn) (f' : FS) (w w0 : world) :
  ActionRunner.call (ActionRunner.preinit self) [] w = (Ok v, w0) ->
  dict_get "code" message = Some code -> code <> JNull ->
  truthy (default (JBool false) (dict_get "binary" message)) = false ->
  write_text (ActionRunner.source self) code (fs w0) = (Some e, f') ->
  exists w', ActionRunner.init self message w = (Raise e, w').
Proof.
  intros Hpre Hcode Hnn Hbin Hw.
  unfold ActionRunner.init, ActionRunner.prep. rewrite !bind_eval, Hpre.
  cbn beta iota. run_monad. rewrite Hcode.
  assert (Hm : forall (A : Type) (x y : A),
             match code with JNull => x | _ => y end = y)
    by (intros; destruct code; congruence).
  rewrite Hm, Hbin. cbn [negb].
  unfold ActionRunner.initCodeFromString, getitem. rewrite Hcode.
  run_monad. unfold mret at 1, M_ret at 1. cbn beta iota.
  run_monad. unfold os_call. cbn [fs add_events]. rewrite Hw.
  eexists. reflexivity.
Qed.

(** What /init answers when the runner's [init] raises or returns
    [False]: 502, with the text of the exception in the first case. *)
Lemma failed_init_answer (runner : ActionRunner.t) (message : json)
    (value : dict) (r : res bool) (w w2 : world) :
  rejectReinit w && initialized w = false ->
  truthy message && negb (is_dict message) = false ->
  Proxy.value_of message = JObj value ->
  ActionRunner.init runner value
    (add_events [Write Stdout (line (py_format message));
                 Write Stderr (line (py_format message))] w) = (r, w2) ->
  r <> Ok true ->
  Proxy.serve runner (Proxy.PostInit message) w
  = (Response 502 (BJson (JObj [("error", JStr
       ("The action failed to generate or locate a binary with exception "
        +:+ match r with Raise e => exn_str e | Ok _ => "" end
        +:+ ". See logs for details."))])),
     add_events sentinel_lines w2).
Proof.
  intros Hguard Hmsg Hval Hinit Hr.
  unfold Proxy.serve, Proxy.route, Proxy.init. rewrite Hguard.
  run_monad. rewrite Hmsg, Hval, Hinit.
  destruct r as [[]|e]; try congruence; now rewrite error_response.
Qed.

(** A response that /init builds itself with a status other than 200 has
    status 403 or 502 and comes after the sentinel, with both flags as they
    were.  (The 404 of [flask.abort] is not such a response.) *)
Lemma failed_init_keeps_flags (runner : ActionRunner.t) (message : json)
    (w : world) (code : Z) (b : body) (w' : world) :
  Proxy.serve runner (Proxy.PostInit message) w = (Response code b, w') ->
  code <> 200 ->
  (code = 403 \/ code = 502)
  /\ initialized w' = initialized w /\ started w' = started w
  /\ ends_with (trace w) (trace w') sentinel_lines.
Proof.
  intros E Hcode. pose proof (init_outcome runner message w) as Ho.
  cbv zeta in Ho. rewrite E in Ho. cbn [fst snd] in Ho.
  destruct Ho as [(b' & [= -> _] & Hp & Hs) | [[[=] _]
                 | [(b' & [= -> _] & Hp & Hs)
                 | [((b' & [= -> _]) & _) | (e & [=])]]]];
    try congruence; destruct Hp as (_ & Hi & Hst & _); auto.
Qed.

(** The route on a payload whose archive cannot be extracted while a
    runnable file is at the binary path. *)
Lemma bad_archive_route (src bin zdest : string) (value : dict)
    (code : json) (e : exn) (f' : FS) (w : world) :
  rejectReinit w && initialized w = false ->
  dict_get "code" value = Some code -> code <> JNull ->
  truthy (default (JBool false) (dict_get "binary" value)) = true ->
  extract_archive code zdest (fs w) = (Some e, f') ->
  isfile bin f' = true -> access_x bin f' = true ->
  exists w',
    Proxy.init (ActionRunner.base src bin zdest) (JObj [("value", JObj value)]) w
    = (Ok (Response 200 (BVal (PStr "OK"))), w')
    /\ initialized w' = true
    /\ In (Write Stdout (line ("err " +:+ exn_str e))) (trace w').
Proof.
  intros Hguard Hcode Hnn Hbin Hext Hfile Hx.
  unfold Proxy.init. rewrite Hguard.
  unfold ActionRunner.init, ActionRunner.prep, ActionRunner.initCodeFromZip,
    ActionRunner.verify, ActionRunner.call, try_except, getitem, os_call,
    log, stdout_write, stderr_write, modify, gets, mbind, M_bind, mret, M_ret.
  cbn. rewrite Hcode.
  assert (Hm : forall (A : Type) (x y : A),
             match code with JNull => x | _ => y end = y)
    by (intros; destruct code; congruence).
  rewrite Hm, Hbin. cbn. rewrite Hext. cbn. rewrite Hfile, Hx. cbn.
  eexists. split; [reflexivity|]. split; [reflexivity|].
  cbn. repeat (rewrite in_app_iff; cbn). tauto.
Qed.

(** C3 at its failing input: the payload carries an archive that cannot
    be extracted, a runnable file is at the binary path; the stock runner
    reports the error on stdout, and /init answers 200 and sets
    [initialized]. *)
Theorem bad_archive_init_succeeds (src bin zdest : string) (value : dict)
    (code : json) (e : exn) (f' : FS) (w : world) :
  rejectReinit w && initialized w = false ->
  dict_get "code" value = Some code -> code <> JNull ->
  truthy (default (JBool false) (dict_get "binary" value)) = true ->
  extract_archive code zdest (fs w) = (Some e, f') ->
  isfile bin f' = true -> access_x bin f' = true ->
  exists w',
    Proxy.serve (ActionRunner.base src bin zdest)
                (Proxy.PostInit (JObj [("value", JObj value)])) w
    = (Response 200 (BVal (PStr "OK")), w')
    /\ initialized w' = true
    /\ In (Write Stdout (line ("err " +:+ exn_str e))) (trace w').
Proof.
  intros Hguard Hcode Hnn Hbin Hext Hfile Hx.
  destruct (bad_archive_route src bin zdest value code e f' w)
    as (w' & E & Hi & Hin); try assumption.
  exists w'. unfold Proxy.serve, Proxy.route. rewrite E. auto.
Qed.

End Lifecycle.

(** * The environment builder *)
Section Environment.
Context `{Platform}.

Lemma setitem_other (key key' : string) (v : json) (w : world) :
  key' <> key ->
  environ (snd (ActionRunner.environ_setitem key' v w)) !! key = environ w !! key.
Proof.
  intros Hne. unfold ActionRunner.environ_setitem.
  destruct v; try reflexivity.
  destruct (_ || _); [reflexivity|]. destruct (ActionRunner.has_char _ _);
    [reflexivity|]. cbn. now rewrite lookup_insert_ne.
Qed.

Lemma setitem_ok (key : string) (v : json) (w w' : world) :
  ActionRunner.environ_setitem key v w = (Ok tt, w') ->
  exists s, v = JStr s /\ w' = set_environ (<[key := s]> (environ w)) w.
Proof.
  unfold ActionRunner.environ_setitem. destruct v; try discriminate.
  destruct (_ || _); [discriminate|].
  destruct (ActionRunner.has_char _ _); [discriminate|]. intros [= <-]. eauto.
Qed.

(** A message that does not supply a variable leaves it as it is, whether
    the loop ends or raises on the way. *)
Lemma env_items_keeps (key : string) (items : dict) (w : world) :
  supplies key items = false ->
  environ (snd (ActionRunner.env_items items w)) !! key = environ w !! key.
Proof.
  revert w. induction items as [|[k v] rest IH]; intros w Hs; [reflexivity|].
  cbn [supplies existsb fst] in Hs. apply orb_false_iff in Hs as [Hk Hrest].
  cbn [ActionRunner.env_items]. rewrite bind_eval.
  destruct (negb (String.eqb k "value")) eqn:Hv; cbn [andb] in Hk.
  - apply String.eqb_neq in Hk.
    pose proof (setitem_other key _ v w Hk) as Ho.
    destruct (ActionRunner.environ_setitem _ v w) as [[[]|e] w1];
      cbn [snd] in *; [|exact Ho].
    rewrite <- Ho. now apply IH.
  - now apply IH.
Qed.

(** A loop that ends has run on each part of the message. *)
Lemma env_items_app (pre rest : dict) (w w' : world) :
  ActionRunner.env_items (pre ++ rest) w = (Ok tt, w') ->
  exists w1, ActionRunner.env_items pre w = (Ok tt, w1)
             /\ ActionRunner.env_items rest w1 = (Ok tt, w').
Proof.
  revert w. induction pre as [|[k v] pre IH]; intros w E.
  - exists w. split; [reflexivity | exact E].
  - cbn [app ActionRunner.env_items] in *. rewrite bind_eval in *.
    destruct ((if negb (String.eqb k "value")
               then ActionRunner.environ_setitem ("__OW_" +:+ str_upper k) v
               else mret ()) w) as [[[]|e] w0]; [|discriminate].
    now apply IH.
Qed.

(** The last entry of a message that supplies a variable decides its
    value. *)
Lemma env_items_sets (pre suf : dict) (k s : string) (w w' : world) :
  k <> "value" -> supplies (variable_of k) suf = false ->
  ActionRunner.env_items (pre ++ (k, JStr s) :: suf) w = (Ok tt, w') ->
  environ w' !! variable_of k = Some s.
Proof.
  intros Hk Hsuf E. apply env_items_app in E as (w1 & _ & E).
  cbn [ActionRunner.env_items] in E. rewrite bind_eval in E.
  apply String.eqb_neq in Hk. rewrite Hk in E. cbn [negb] in E.
  destruct (ActionRunner.environ_setitem _ (JStr s) w1) as [[[]|e] w2] eqn:E2;
    [|discriminate].
  apply setitem_ok in E2 as (s' & [= <-] & ->).
  pose proof (env_items_keeps (variable_of k) suf
                (set_environ (<[variable_of k := s]> (environ w1)) w1) Hsuf) as Hkeep.
  unfold variable_of in *. rewrite E in Hkeep. cbn [snd] in Hkeep.
  rewrite Hkeep. cbn. apply lookup_insert_eq.
Qed.

(** [env] hands out the live object. *)
Lemma env_returns_environ (message : dict) (w w' : world) (r : envobj) :
  ActionRunner.env message w = (Ok r, w') ->
  r = OsEnviron /\ ActionRunner.env_items message w = (Ok tt, w').
Proof.
  unfold ActionRunner.env. rewrite bind_eval.
  destruct (ActionRunner.env_items message w) as [[[]|e] w1]; [|discriminate].
  unfold mret, M_ret. now intros [= <- <-].
Qed.

Lemma carries_refl (w : world) : carries w w.
Proof.
  split; [reflexivity|]. exists []. rewrite app_nil_r.
  split; [reflexivity | constructor].
Qed.

Lemma proceeds_carries (w w' : world) : proceeds w w' -> carries w w'.
Proof. now intros (_ & _ & _ & He & Hev). Qed.

Lemma carries_trans (w1 w2 w3 : world) :
  carries w1 w2 -> carries w2 w3 -> carries w1 w3.
Proof.
  intros (He & evs & Ht & Hp) (He' & evs' & Ht' & Hp').
  split; [congruence|].
  exists (evs ++ evs'). split; [now rewrite Ht', Ht, <- (assoc_L (++))|].
  unfold popen_calls in *. rewrite omap_app. apply Forall_app. split; [exact Hp|].
  now rewrite <- He.
Qed.

Lemma carries_flags (f : world -> world) (w : world) :
  environ (f w) = environ w -> trace (f w) = trace w -> carries w (f w).
Proof.
  intros He Ht. split; [exact He|]. exists []. rewrite app_nil_r.
  split; [exact Ht | constructor].
Qed.

(** /init, whatever its outcome, leaves the environment alone and
    creates no child. *)
Lemma init_carries (runner : ActionRunner.t) (message : json) (w : world) :
  carries w (snd (Proxy.init runner message w)).
Proof.
  unfold Proxy.init.
  destruct (rejectReinit w && initialized w).
  { rewrite bind_eval, stderr_write_eval. cbn beta iota.
    rewrite error_response, add_events_app. cbn [snd].
    now apply proceeds_carries, proceeds_add_events. }
  rewrite bind_eval, log_eval. cbn beta iota.
  set (w1 := add_events _ w).
  assert (H1 : carries w w1) by now apply proceeds_carries, proceeds_add_events.
  destruct (truthy message && negb (is_dict message)); [exact H1|].
  destruct (Proxy.value_of message) as [| | | | |value]; try exact H1.
  pose proof (steady_init runner value w1) as Hs.
  apply proceeds_carries in Hs.
  destruct (ActionRunner.init runner value w1) as [[[]|e] w2]; cbn [snd] in Hs.
  - unfold modify. run_monad.
    pose proof (steady_call (ActionRunner.features runner) []
                  (set_initialized true (set_started false w2))) as Hc.
    apply proceeds_carries in Hc.
    destruct (ActionRunner.call _ _ _) as [[v|x] w3]; cbn [snd] in *;
      (eapply carries_trans; [exact H1|]);
      (eapply carries_trans; [exact Hs|]);
      (eapply carries_trans; [|exact Hc]);
      now apply (carries_flags (fun w => set_initialized true (set_started false w))).
  - rewrite error_response. cbn [snd].
    eapply carries_trans; [exact H1|]. eapply carries_trans; [exact Hs|].
    now apply proceeds_carries, proceeds_add_events.
  - rewrite error_response. cbn [snd].
    eapply carries_trans; [exact H1|]. eapply carries_trans; [exact Hs|].
    now apply proceeds_carries, proceeds_add_events.
Qed.

Lemma carries_keeps (key s : string) (w w' : world) :
  environ w !! key = Some s -> carries w w' -> keeps key s w w'.
Proof.
  intros Hk (He & evs & Ht & Hp). split; [now rewrite He|].
  exists evs. split; [exact Ht|].
  eapply Forall_impl; [exact Hp|]. intros c Hc. unfold child_sees.
  now rewrite Hc.
Qed.

Lemma keeps_trans (key s : string) (w1 w2 w3 : world) :
  keeps key s w1 w2 -> keeps key s w2 w3 -> keeps key s w1 w3.
Proof.
  intros (_ & evs & Ht & Hp) (Hk & evs' & Ht' & Hp'). split; [exact Hk|].
  exists (evs ++ evs'). split; [now rewrite Ht', Ht, <- (assoc_L (++))|].
  unfold popen_calls in *. rewrite omap_app. now apply Forall_app.
Qed.

Lemma serve_snd (runner : ActionRunner.t) (r : Proxy.request) (w : world) :
  snd (Proxy.serve runner r w) = snd (Proxy.route runner r w).
Proof. unfold Proxy.serve. now destruct (Proxy.route runner r w) as [[o|e] w']. Qed.

Lemma start_carries (runner : ActionRunner.t) (w : world) :
  carries w (snd (Proxy.start runner w)).
Proof.
  unfold Proxy.start. destruct (started w).
  - run_monad. rewrite error_response. run_monad. cbn [snd].
    now apply proceeds_carries, proceeds_add_events.
  - unfold modify. run_monad.
    pose proof (steady_call (ActionRunner.start runner) []
                  (add_events [Write Stdout (line "onStart");
                               Write Stderr (line "onStart")]
                     (set_started true w))) as Hc.
    apply proceeds_carries in Hc.
    assert (H0 : carries w (add_events [Write Stdout (line "onStart");
                                        Write Stderr (line "onStart")]
                              (set_started true w))).
    { eapply carries_trans; [apply (carries_flags (set_started true)); reflexivity|].
      now apply proceeds_carries, proceeds_add_events. }
    destruct (ActionRunner.call _ _ _) as [[v|x] w1]; cbn [snd] in *;
      eapply carries_trans; eassumption.
Qed.

Lemma hook_route_carries (m : ActionRunner.method) (msg text : string)
    (w : world) :
  carries w (snd ((log msg ;; ActionRunner.call m [] ;;
                   mret (Response 200 (BJson (JObj [("msg", JStr text)])))) w)).
Proof.
  run_monad.
  pose proof (steady_call m [] (add_events [Write Stdout (line msg);
                                            Write Stderr (line msg)] w)) as Hc.
  apply proceeds_carries in Hc.
  destruct (ActionRunner.call _ _ _) as [[v|x] w1]; cbn [snd] in *;
    (eapply carries_trans; [|exact Hc]);
    now apply proceeds_carries, proceeds_add_events.
Qed.

(** /run keeps a variable that its message does not supply, and the
    child it creates sees it. *)
Lemma run_keeps (runner : ActionRunner.t) (message : json) (key s : string)
    (w : world) :
  environ w !! key = Some s ->
  supplies key (Proxy.or_empty message) = false ->
  keeps key s w (snd (Proxy.run runner message w)).
Proof.
  intros Hk Hs. unfold Proxy.run. cbv zeta.
  assert (Herr : forall msg code w1, keeps key s w w1 ->
                   keeps key s w (snd (Proxy.error msg code w1))).
  { intros msg code w1 Hw1. rewrite error_response. cbn [snd].
    eapply keeps_trans; [exact Hw1|]. apply carries_keeps; [apply Hw1|].
    now apply proceeds_carries, proceeds_add_events. }
  assert (Hw : keeps key s w w) by (apply carries_keeps; [exact Hk | apply carries_refl]).
  destruct (truthy message && negb (is_dict message)); [now apply Herr|].
  destruct (Proxy.value_of message) as [| | | | |args]; try (now apply Herr).
  rewrite bind_eval. unfold ActionRunner.verify, gets. cbn beta iota.
  destruct (isfile _ _ && access_x _ _); [|now apply Herr].
  unfold Proxy.answer, Proxy.invoke, ActionRunner.env. rewrite !bind_eval.
  pose proof (env_items_frame (Proxy.or_empty message) w) as Hf.
  pose proof (env_items_keeps key (Proxy.or_empty message) w Hs) as He.
  destruct (ActionRunner.env_items _ w) as [[[]|e] w1]; cbn [snd] in Hf, He;
    destruct Hf as (Ht1 & _);
    assert (H1 : keeps key s w w1)
      by (split; [now rewrite He | exists []; rewrite app_nil_r;
                                   split; [exact Ht1 | constructor]]);
    [|now apply Herr].
  unfold mret at 1, M_ret at 1. cbn beta iota. rewrite bind_eval.
  pose proof (steady_run runner args w1) as Hr.
  apply proceeds_carries, (carries_keeps key s) in Hr; [|apply H1].
  destruct (ActionRunner.run runner args OsEnviron w1) as [[[code result]|e] w2];
    cbn [snd] in Hr;
    assert (H2 : keeps key s w w2) by (eapply keeps_trans; eassumption);
    [|now apply Herr].
  rewrite bind_eval. cbn [fst snd].
  destruct result as [d|[t|x]]; cbn [Proxy.jsonify];
    unfold mret, M_ret, raise; cbn beta iota; try (now apply Herr).
  all: unfold Proxy.complete; run_monad; cbn [snd];
    (eapply keeps_trans; [exact H2|]); (apply carries_keeps; [apply H2|]);
    now apply proceeds_carries, proceeds_add_events.
Qed.

(** One request that does not supply the variable. *)
Lemma serve_keeps (runner : ActionRunner.t) (r : Proxy.request)
    (key s : string) (w : world) :
  environ w !! key = Some s -> request_supplies key r = false ->
  keeps key s w (snd (Proxy.serve runner r w)).
Proof.
  intros Hk Hr. rewrite serve_snd. destruct r as [m|m| | |]; cbn [Proxy.route].
  - apply carries_keeps; [exact Hk | apply init_carries].
  - now apply run_keeps.
  - apply carries_keeps; [exact Hk | apply start_carries].
  - apply carries_keeps; [exact Hk | apply hook_route_carries].
  - apply carries_keeps; [exact Hk | apply hook_route_carries].
Qed.

(** Any number of them. *)
Lemma serve_all_keeps (runner : ActionRunner.t) (rs : list Proxy.request)
    (key s : string) (w : world) :
  environ w !! key = Some s ->
  forallb (fun q => negb (request_supplies key q)) rs = true ->
  keeps key s w (Proxy.serve_all runner rs w).
Proof.
  revert w. induction rs as [|r rs IH]; intros w Hk Hrs; cbn [Proxy.serve_all].
  - apply carries_keeps; [exact Hk | apply carries_refl].
  - cbn [forallb] in Hrs. apply andb_true_iff in Hrs as [Hr Hrs].
    apply negb_true_iff in Hr.
    pose proof (serve_keeps runner r key s w Hk Hr) as H1.
    eapply keeps_trans; [exact H1|]. apply IH; [apply H1 | exact Hrs].
Qed.

(** C10: [env] returns the live [os.environ] after setting in it the
    variable of each metadata key; the entry stays for every later
    request that does not supply the key again: it is in the process
    environment after them, in what a later [env] call returns, and in
    the environment of every child created meanwhile. *)
Theorem env_entries_persist (runner : ActionRunner.t) (pre suf : dict)
    (k s : string) (w w1 : world) (r : envobj) :
  k <> "value" -> supplies (variable_of k) suf = false ->
  ActionRunner.env (pre ++ (k, JStr s) :: suf) w = (Ok r, w1) ->
  r = OsEnviron
  /\ environ w1 !! variable_of k = Some s
  /\ forall rs : list Proxy.request,
      forallb (fun q => negb (request_supplies (variable_of k) q)) rs = true ->
      let w2 := Proxy.serve_all runner rs w1 in
      keeps (variable_of k) s w1 w2
      /\ forall (m : dict) (r' : envobj) (w3 : world),
          supplies (variable_of k) m = false ->
          ActionRunner.env m w2 = (Ok r', w3) ->
          r' = OsEnviron /\ environ w3 !! variable_of k = Some s.
Proof.
  intros Hk Hsuf E. apply env_returns_environ in E as [-> E].
  pose proof (env_items_sets pre suf k s w w1 Hk Hsuf E) as Hset.
  split; [reflexivity|]. split; [exact Hset|].
  intros rs Hrs w2. pose proof (serve_all_keeps runner rs _ s w1 Hset Hrs) as Hkeep.
  split; [exact Hkeep|].
  intros m r' w3 Hm E'. apply env_returns_environ in E' as [-> E'].
  split; [reflexivity|].
  pose proof (env_items_keeps (variable_of k) m w2 Hm) as Hm'.
  rewrite E' in Hm'. cbn [snd] in Hm'. rewrite Hm'. apply Hkeep.
Qed.

End Environment.

(** * The lifecycle theorems at concrete runs *)

Lemma reinit_refused_witness :
  let P := Machine.platform Demo.polite in
  let w := Demo.running Demo.polite in
  let msg := "Cannot initialize the action more than once." in
  @Proxy.serve P Demo.stock (Proxy.PostInit Demo.inline_source) w
  = (Response 403 (BJson (JObj [("error", JStr msg)])),
     add_events (Write Stderr (line msg) :: sentinel_lines) w).
Proof.
  intros P w msg.
  destruct (@reinit_refused P Demo.stock Demo.inline_source w eq_refl eq_refl)
    as (Ho & _ & Hw & _).
  rewrite (surjective_pairing (Proxy.serve _ _ _)), Ho, Hw. reflexivity.
Defined.

(** C8 as stated fails: the refusal of a second /onstart is a 500, which
    is not a client-class status. *)
Lemma duplicate_start_is_not_client_error :
  let P := Machine.platform Demo.polite in
  exists code b,
    fst (@Proxy.serve P Demo.stock Proxy.PostOnStart (Demo.running Demo.polite))
    = Response code b
    /\ client_error code = false.
Proof. intros P. exists 500. eexists. split; reflexivity. Qed.

Lemma second_start_fails_witness :
  let P := Machine.platform Demo.polite in
  let w := Demo.running Demo.polite in
  let msg := "Cannot trigger start the action more than once." in
  @Proxy.serve P Demo.stock Proxy.PostOnStart w
  = (Response 500 (BJson (JObj [("error", JStr msg)])),
     add_events (Write Stderr (line msg) :: sentinel_lines) w).
Proof.
  intros P w msg.
  destruct (@second_start_fails P Demo.stock w eq_refl) as (Ho & _ & Hw & _).
  rewrite (surjective_pairing (Proxy.serve _ _ _)), Ho, Hw. reflexivity.
Defined.

Lemma init_success_sets_flags_witness :
  let P := Machine.platform Demo.polite in
  let w := Demo.permissive Demo.polite in
  let served := @Proxy.serve P Demo.stock (Proxy.PostInit Demo.inline_source) w in
  started w = true
  /\ fst served = Response 200 (BVal (PStr "OK"))
  /\ initialized (snd served) = true /\ started (snd served) = false.
Proof.
  intros P w served.
  assert (Hf : fst served = Response 200 (BVal (PStr "OK"))) by reflexivity.
  split; [reflexivity|]. split; [exact Hf|].
  apply (@init_success_sets_flags P Demo.stock Demo.inline_source w (snd served)
           (BVal (PStr "OK"))).
  rewrite <- Hf. apply surjective_pairing.
Defined.

(** C5 as stated fails: an /init that succeeds writes no sentinel. *)
Lemma successful_init_without_sentinel :
  let P := Machine.platform Demo.polite in
  let w := Demo.fresh Demo.polite in
  let served := @Proxy.serve P Demo.stock (Proxy.PostInit Demo.inline_source) w in
  fst served = Response 200 (BVal (PStr "OK"))
  /\ trace w = []
  /\ Forall (fun ev => ~ In ev sentinel_lines) (trace (snd served)).
Proof.
  intros P w served. split; [reflexivity|]. split; [reflexivity|].
  subst served w P. vm_compute.
  repeat constructor; intros [E|[E|[]]]; discriminate E.
Qed.

Lemma completion_sentinel_witness :
  let P := Machine.platform Demo.polite in
  let run_request := JObj [("value", JObj [("n", JInt 1)])] in
  (exists code b w',
      @Proxy.serve P Demo.stock (Proxy.PostRun run_request) (Demo.running Demo.polite)
      = (Response code b, w')
      /\ ends_with (trace (Demo.running Demo.polite)) (trace w') sentinel_lines)
  /\ (let w := Demo.running Demo.polite in
      let served := @Proxy.serve P Demo.stock (Proxy.PostInit Demo.inline_source) w in
      ends_with (trace w) (trace (snd served)) sentinel_lines)
  /\ (let w := Demo.fresh Demo.polite in
      let served := @Proxy.serve P Demo.stock (Proxy.PostInit Demo.inline_source) w in
      ends_with (trace w) (trace (snd served)) verified_lines).
Proof.
  intros P run_request. split; [|split].
  - apply (@completion_sentinel P Demo.stock run_request (Demo.running Demo.polite)).
  - intros w served.
    assert (Hf : fst served
                 = Response 403 (BJson (JObj [("error",
                     JStr "Cannot initialize the action more than once.")])))
      by reflexivity.
    apply (proj1 (proj2 (@completion_sentinel P Demo.stock Demo.inline_source w))
             403 (BJson (JObj [("error", JStr "Cannot initialize the action more than once.")]))
             (snd served)); [|discriminate].
    rewrite <- Hf. apply surjective_pairing.
  - intros w served.
    assert (Hf : fst served = Response 200 (BVal (PStr "OK"))) by reflexivity.
    apply (proj2 (proj2 (@completion_sentinel P Demo.stock Demo.inline_source w))
             (BVal (PStr "OK")) (snd served)).
    rewrite <- Hf. apply surjective_pairing.
Defined.

Lemma bad_archive_init_succeeds_witness :
  let P := Machine.platform Demo.polite in
  exists w',
    @Proxy.serve P Demo.stock (Proxy.PostInit (JObj [("value", JObj Demo.bad_archive)]))
                 (Demo.fresh Demo.polite)
    = (Response 200 (BVal (PStr "OK")), w')
    /\ initialized w' = true
    /\ In (Write Stdout (line "err File is not a zip file")) (trace w').
Proof.
  intros P.
  apply (@bad_archive_init_succeeds P Demo.action_path Demo.action_path "/action"
           Demo.bad_archive (JStr "!") (Exn "BadZipFile" "File is not a zip file")
           Demo.disk (Demo.fresh Demo.polite));
    try reflexivity.
  discriminate.
Defined.

(** A binary that cannot be executed, seen from the /run route:
    [flask.jsonify] cannot serialize the exception object that [run] put
    under ['error'], and the route answers 500. *)
Example spawn_failure_at_route :
  let P := Machine.platform Demo.broken in
  fst (@Proxy.serve P Demo.stock (Proxy.PostRun (JObj [("value", JObj [("n", JInt 1)])]))
                    (Demo.running Demo.broken))
  = Response 500 (BJson (JObj [("error",
      JStr "Internal error. Object of type OSError is not JSON serializable")])).
Proof. reflexivity. Qed.

(** The stock runner on a started process: /onpause is not answered. *)
Example pause_on_stock_runner :
  let P := Machine.platform Demo.polite in
  fst (@Proxy.serve P Demo.stock Proxy.PostOnPause (Demo.running Demo.polite))
  = Unhandled (Exn "TypeError" "pause() called with the wrong number of arguments").
Proof. reflexivity. Qed.

Lemma env_entries_persist_witness :
  let P := Machine.platform Demo.polite in
  let w := Demo.running Demo.polite in
  let first := [("value", JObj []); ("api_key", JStr "secret")] in
  let w1 := snd (@ActionRunner.env P first w) in
  let later := [Proxy.PostRun (JObj [("value", JObj [("n", JInt 1)])])] in
  environ w1 !! "__OW_API_KEY" = Some "secret"
  /\ keeps "__OW_API_KEY" "secret" w1 (@Proxy.serve_all P Demo.stock later w1).
Proof.
  intros P w first w1 later.
  destruct (@env_entries_persist P Demo.stock [("value", JObj [])] [] "api_key"
              "secret" w w1 OsEnviron) as (_ & Hset & Hlater);
    [discriminate | reflexivity | reflexivity |].
  split; [exact Hset|]. apply (Hlater later). reflexivity.
Defined.

(** The child of that later request got the variable, though the request
    carried no metadata. *)
Example later_child_environment :
  let P := Machine.platform Demo.polite in
  let w := Demo.running Demo.polite in
  let w1 := snd (@ActionRunner.env P [("api_key", JStr "secret")] w) in
  let later := [Proxy.PostRun (JObj [("value", JObj [("n", JInt 1)])])] in
  map (fun c => snd (fst c))
      (popen_calls (trace (@Proxy.serve_all P Demo.stock later w1)))
  = [ {[ "__OW_API_KEY" := "secret" ]} ].
Proof. vm_compute. reflexivity. Qed.

(** * More about the executor and the /run route *)
Section MoreExecutor.
Context `{Platform}.
Import Text.

(** Bytes that do not decode: the exception is raised after the [try]
    block of [run], so [run] itself raises it, and it has written nothing.
    Undecodable stderr has the same effect, even when stdout is fine. *)
Lemma decode_error_raises (self : ActionRunner.t) (args : dict)
    (env : envobj) (w w1 : world) (o x : pybytes) (e : exn) :
  ActionRunner.spawn self args env w = (Ok (o, x), w1) ->
  decode o = Raise e \/ (exists t, decode o = Ok t /\ decode x = Raise e) ->
  ActionRunner.run self args env w = (Raise e, w1).
Proof.
  intros Hspawn Hdec. unfold ActionRunner.run. rewrite Hspawn.
  unfold ActionRunner.collect. rewrite bind_eval.
  destruct Hdec as [-> | (t & -> & Hx)]; [reflexivity|].
  cbn beta iota. now rewrite bind_eval, Hx.
Qed.

(** Whatever the child printed, once it decodes [run] returns, with status
    200 and an object or with status 502 and an error text. *)
Theorem run_status (self : ActionRunner.t) (args : dict) (env : envobj)
    (w w1 : world) (o err : string) :
  ActionRunner.spawn self args env w = (Ok (Utf8 o, Utf8 err), w1) ->
  exists (code : Z) (r : runresult) (w' : world),
    ActionRunner.run self args env w = (Ok (code, r), w')
    /\ ((code = 200 /\ exists d, r = RObj d)
        \/ (code = 502 /\ exists s, r = RErr (MText s))).
Proof.
  intros Hspawn. unfold ActionRunner.run. rewrite Hspawn.
  destruct (every_output_splits o) as (lines & j & term & -> & Hj & Hterm).
  rewrite collect_output by assumption. cbv zeta.
  destruct (json_loads (strip j)) as [[| | | | |d]|];
    rewrite ?error_writes; do 3 eexists; (split; [reflexivity|]); eauto.
Qed.

(** The child's stderr, when it is not empty, is written to stderr as it
    is, whether the last line of stdout is a result or not. *)
Theorem stderr_forwarded (self : ActionRunner.t) (args : dict) (env : envobj)
    (w w1 : world) (o err : string) :
  ActionRunner.spawn self args env w = (Ok (Utf8 o, Utf8 err), w1) ->
  err <> "" ->
  exists before after,
    trace (snd (ActionRunner.run self args env w))
    = trace w1 ++ before ++ Write Stderr err :: after
    /\ Forall (fun ev => exists s, ev = Write Stdout s) (before ++ after).
Proof.
  intros Hspawn Herr. unfold ActionRunner.run. rewrite Hspawn.
  destruct (every_output_splits o) as (lines & j & term & -> & Hj & Hterm).
  rewrite collect_output by assumption. cbv zeta.
  unfold forwarded_err. apply String.eqb_neq in Herr. rewrite Herr.
  exists (forwarded lines).
  destruct (json_loads (strip j)) as [[| | | | |d]|];
    rewrite ?error_writes; cbn [snd trace add_events];
    first [ exists []; split;
            [rewrite <- ?(assoc_L (++)); reflexivity|]
          | exists [Write Stdout (line (strip j))]; split;
            [rewrite <- ?(assoc_L (++)); reflexivity|] ];
    destruct lines; cbn; repeat constructor; eauto.
Qed.

(** How /run continues once the payload is accepted, the binary verified
    and the environment built. *)
Lemma run_route_reaches (runner : ActionRunner.t) (message : json)
    (args : dict) (r : envobj) (w w1 : world) :
  truthy message && negb (is_dict message) = false ->
  Proxy.value_of message = JObj args ->
  runnable runner w = true ->
  ActionRunner.env (Proxy.or_empty message) w = (Ok r, w1) ->
  Proxy.run runner message w
  = match ActionRunner.run runner args OsEnviron w1 with
    | (Ok (code, RObj d), w2) =>
        (Ok (Response code (BJson (JObj d))), add_events sentinel_lines w2)
    | (Ok (code, RErr (MText s)), w2) =>
        (Ok (Response code (error_body s)), add_events sentinel_lines w2)
    | (Ok (code, RErr (MExc e)), w2) =>
        (Ok (Response 500 (error_body
               ("Internal error. Object of type " +:+ exn_class e
                +:+ " is not JSON serializable"))),
         add_events sentinel_lines w2)
    | (Raise e, w2) =>
        (Ok (Response 500 (error_body ("Internal error. " +:+ exn_str e))),
         add_events sentinel_lines w2)
    end.
Proof.
  intros Hmsg Hval Hrun Henv. unfold Proxy.run. cbv zeta.
  rewrite Hmsg, Hval, bind_eval. unfold ActionRunner.verify, gets.
  cbn beta iota. unfold runnable in Hrun. rewrite Hrun.
  unfold Proxy.answer, Proxy.invoke. rewrite bind_eval, Henv.
  apply env_returns_environ in Henv as [-> _]. cbn beta iota.
  rewrite bind_eval.
  destruct (ActionRunner.run runner args OsEnviron w1) as [[[code result]|e] w2];
    [|now rewrite error_response].
  rewrite bind_eval. cbn [fst snd].
  destruct result as [d|[s|x]]; cbn [Proxy.jsonify];
    unfold mret, M_ret, raise; cbn beta iota;
    rewrite ?error_response; try reflexivity;
    unfold Proxy.complete; run_monad; reflexivity.
Qed.

Lemma serve_run (runner : ActionRunner.t) (message : json) (w w' : world)
    (o : outcome) :
  Proxy.run runner message w = (Ok o, w') ->
  Proxy.serve runner (Proxy.PostRun message) w = (o, w').
Proof. intros E. unfold Proxy.serve, Proxy.route. now rewrite E. Qed.

(** Output that is not UTF-8 makes [run] raise; the /run route catches
    the exception and answers 500 with its text, after the sentinel. *)
Theorem undecodable_output_answered_500 (runner : ActionRunner.t)
    (message : json) (args : dict) (r : envobj) (w w1 w2 : world)
    (o x : pybytes) (e : exn) :
  truthy message && negb (is_dict message) = false ->
  Proxy.value_of message = JObj args ->
  runnable runner w = true ->
  ActionRunner.env (Proxy.or_empty message) w = (Ok r, w1) ->
  ActionRunner.spawn runner args OsEnviron w1 = (Ok (o, x), w2) ->
  decode o = Raise e \/ (exists t, decode o = Ok t /\ decode x = Raise e) ->
  ActionRunner.run runner args OsEnviron w1 = (Raise e, w2)
  /\ Proxy.serve runner (Proxy.PostRun message) w
     = (Response 500 (error_body ("Internal error. " +:+ exn_str e)),
        add_events sentinel_lines w2).
Proof.
  intros Hmsg Hval Hrun Henv Hspawn Hdec.
  pose proof (decode_error_raises runner args OsEnviron w1 w2 o x e Hspawn Hdec) as E.
  split; [exact E|]. apply serve_run.
  rewrite (run_route_reaches runner message args r w w1) by assumption.
  now rewrite E.
Qed.

(** A binary that cannot be spawned: [run] returns 502 with the exception
    object under ['error']; [flask.jsonify] cannot serialize it, and the
    route answers 500 with the text of that second error. *)
Theorem spawn_failure_answered_500 (runner : ActionRunner.t)
    (message : json) (args : dict) (r : envobj) (w w1 w2 : world) (e : exn) :
  truthy message && negb (is_dict message) = false ->
  Proxy.value_of message = JObj args ->
  runnable runner w = true ->
  ActionRunner.env (Proxy.or_empty message) w = (Ok r, w1) ->
  ActionRunner.spawn runner args OsEnviron w1 = (Raise e, w2) ->
  Proxy.serve runner (Proxy.PostRun message) w
  = (Response 500 (error_body ("Internal error. Object of type " +:+ exn_class e
                               +:+ " is not JSON serializable")),
     add_events (Write Stdout (line (exn_str e)) :: sentinel_lines) w2).
Proof.
  intros Hmsg Hval Hrun Henv Hspawn. apply serve_run.
  rewrite (run_route_reaches runner message args r w w1) by assumption.
  unfold ActionRunner.run. rewrite Hspawn, error_writes.
  now rewrite add_events_app.
Qed.

(** /run end to end: the child logs some lines and prints an object on
    its last line; the route answers 200 with that object, having
    forwarded the log and the child's stderr and then written the
    sentinel. *)
Theorem run_route_returns_result (runner : ActionRunner.t) (message : json)
    (args : dict) (r : envobj) (w w1 w2 : world) (lines : list string)
    (j err : string) (term : bool) (obj : dict) :
  truthy message && negb (is_dict message) = false ->
  Proxy.value_of message = JObj args ->
  runnable runner w = true ->
  ActionRunner.env (Proxy.or_empty message) w = (Ok r, w1) ->
  ActionRunner.spawn runner args OsEnviron w1
    = (Ok (Utf8 (output_of lines j term), Utf8 err), w2) ->
  contains_nl j = false ->
  term = true \/ j <> "" \/ lines = [] ->
  json_loads (strip j) = Some (JObj obj) ->
  Proxy.serve runner (Proxy.PostRun message) w
  = (Response 200 (BJson (JObj obj)),
     add_events (forwarded lines ++ forwarded_err err ++ sentinel_lines) w2).
Proof.
  intros Hmsg Hval Hrun Henv Hspawn Hj Hterm Hobj. apply serve_run.
  rewrite (run_route_reaches runner message args r w w1) by assumption.
  unfold ActionRunner.run. rewrite Hspawn.
  rewrite collect_output by assumption. cbv zeta. rewrite Hobj.
  now rewrite add_events_app, <- (assoc_L (++)).
Qed.

(** The same when the last line is not an object: the route answers 502
    with that line, trimmed, as the error. *)
Theorem run_route_reports_bad_result (runner : ActionRunner.t)
    (message : json) (args : dict) (r : envobj) (w w1 w2 : world)
    (lines : list string) (j err : string) (term : bool) :
  truthy message && negb (is_dict message) = false ->
  Proxy.value_of message = JObj args ->
  runnable runner w = true ->
  ActionRunner.env (Proxy.or_empty message) w = (Ok r, w1) ->
  ActionRunner.spawn runner args OsEnviron w1
    = (Ok (Utf8 (output_of lines j term), Utf8 err), w2) ->
  contains_nl j = false ->
  term = true \/ j <> "" \/ lines = [] ->
  (forall obj, json_loads (strip j) <> Some (JObj obj)) ->
  Proxy.serve runner (Proxy.PostRun message) w
  = (Response 502 (error_body (strip j)),
     add_events (forwarded lines ++ forwarded_err err
                 ++ Write Stdout (line (strip j)) :: sentinel_lines) w2).
Proof.
  intros Hmsg Hval Hrun Henv Hspawn Hj Hterm Hbad. apply serve_run.
  rewrite (run_route_reaches runner message args r w w1) by assumption.
  unfold ActionRunner.run. rewrite Hspawn.
  rewrite collect_output by assumption. cbv zeta.
  destruct (json_loads (strip j)) as [[| | | | |d]|];
    try (rewrite error_writes, !add_events_app, <- !(assoc_L (++)); reflexivity).
  now destruct (Hbad d).
Qed.

(** Without a runnable file at the binary path /run does nothing but
    answer: 404 for a payload it refuses, 502 otherwise; no child is
    created, the environment is not touched, and the only output is the
    sentinel. *)
Theorem run_without_binary (runner : ActionRunner.t) (message : json)
    (w : world) :
  runnable runner w = false ->
  Proxy.serve runner (Proxy.PostRun message) w
  = (Response (if bad_payload message then 404 else 502)
       (error_body
          (if bad_payload message
           then "The action did not receive a dictionary as an argument."
           else "The action failed to locate a binary. See logs for details.")),
     add_events sentinel_lines w).
Proof.
  intros Hrun. apply serve_run. unfold Proxy.run, bad_payload. cbv zeta.
  destruct (truthy message && negb (is_dict message));
    [now rewrite error_response|].
  cbn [orb].
  destruct (Proxy.value_of message); cbn [is_dict negb];
    try (now rewrite error_response).
  rewrite bind_eval. unfold ActionRunner.verify, gets. cbn beta iota.
  unfold runnable in Hrun. rewrite Hrun. now rewrite error_response.
Qed.

(** A payload that is true without being a dictionary, or whose ['value']
    is not a dictionary, is answered 404 by /run before anything else
    happens, binary or not. *)
Theorem run_rejects_bad_payload (runner : ActionRunner.t) (message : json)
    (w : world) :
  bad_payload message = true ->
  Proxy.serve runner (Proxy.PostRun message) w
  = (Response 404
       (error_body "The action did not receive a dictionary as an argument."),
     add_events sentinel_lines w).
Proof.
  intros Hbad. apply serve_run. unfold Proxy.run. cbv zeta.
  unfold bad_payload in Hbad.
  destruct (truthy message && negb (is_dict message));
    [now rewrite error_response|].
  cbn [orb] in Hbad.
  destruct (Proxy.value_of message); cbn [is_dict negb] in Hbad;
    try discriminate; now rewrite error_response.
Qed.

End MoreExecutor.

(** * Children *)
Section Children.
Context `{Platform}.

Lemma writes_only_refl (w : world) : writes_only w w.
Proof. exists []. now rewrite app_nil_r. Qed.

Lemma writes_only_trans (w1 w2 w3 : world) :
  writes_only w1 w2 -> writes_only w2 w3 -> writes_only w1 w3.
Proof.
  intros (evs & Ht & Hp) (evs' & Ht' & Hp'). exists (evs ++ evs').
  split; [now rewrite Ht', Ht, <- (assoc_L (++))|].
  now rewrite popen_calls_app, Hp, Hp'.
Qed.

Lemma writes_only_add (evs : list event) (w : world) :
  popen_calls evs = [] -> writes_only w (add_events evs w).
Proof. intros Hp. now exists evs. Qed.

Lemma writes_only_same (w w' : world) : trace w' = trace w -> writes_only w w'.
Proof. intros Ht. exists []. now rewrite app_nil_r. Qed.

Lemma writes_only_calls (w w' : world) :
  writes_only w w' -> popen_calls (trace w') = popen_calls (trace w).
Proof. intros (evs & -> & Hp). now rewrite popen_calls_app, Hp, app_nil_r. Qed.

Lemma quiet_ret {A} (a : A) : quiet (mret a : M A).
Proof. intros w. apply writes_only_refl. Qed.

Lemma quiet_raise {A} (e : exn) : quiet (raise e : M A).
Proof. intros w. apply writes_only_refl. Qed.

Lemma quiet_bind {A B} (c : M A) (k : A -> M B) :
  quiet c -> (forall a, quiet (k a)) -> quiet (c ≫= k).
Proof.
  intros Hc Hk w. unfold mbind, M_bind. specialize (Hc w).
  destruct (c w) as [[a|e] w1]; cbn [snd] in *; [|exact Hc].
  eapply writes_only_trans; [exact Hc | apply Hk].
Qed.

Lemma quiet_try {A} (c : M A) (h : exn -> M A) :
  quiet c -> (forall e, quiet (h e)) -> quiet (try_except c h).
Proof.
  intros Hc Hh w. unfold try_except. specialize (Hc w).
  destruct (c w) as [[a|e] w1]; cbn [snd] in *; [exact Hc|].
  eapply writes_only_trans; [exact Hc | apply Hh].
Qed.

Lemma quiet_gets {A} (f : world -> A) : quiet (gets f).
Proof. intros w. apply writes_only_refl. Qed.

Lemma quiet_stdout (s : string) : quiet (stdout_write s).
Proof. intros w. now apply (writes_only_add [Write Stdout s]). Qed.

Lemma quiet_stderr (s : string) : quiet (stderr_write s).
Proof. intros w. now apply (writes_only_add [Write Stderr s]). Qed.

Lemma quiet_log (msg : string) : quiet (log msg).
Proof. apply quiet_bind; [apply quiet_stdout | intros; apply quiet_stderr]. Qed.

Lemma quiet_os_call (c : FS -> option exn * FS) : quiet (os_call c).
Proof.
  intros w. unfold os_call.
  destruct (c (fs w)) as [[e|] f]; now apply writes_only_same.
Qed.

Lemma quiet_getitem (k : string) (d : dict) : quiet (getitem k d).
Proof.
  unfold getitem. destruct (dict_get k d); [apply quiet_ret | apply quiet_raise].
Qed.

Lemma quiet_call (m : ActionRunner.method) (args : list json) :
  quiet (ActionRunner.call m args).
Proof. intros w. apply writes_only_same, call_frame. Qed.

Lemma quiet_modify_flags (f : world -> world) :
  (forall w, trace (f w) = trace w) -> quiet (modify f).
Proof. intros Hf w. apply writes_only_same, Hf. Qed.

Create HintDb quiet discriminated.
Hint Resolve quiet_ret quiet_raise quiet_gets quiet_stdout quiet_stderr
  quiet_log quiet_os_call quiet_getitem quiet_call : quiet.

Ltac quiet :=
  repeat first
    [ solve [auto with quiet]
    | progress cbv zeta
    | apply quiet_bind; [|intros ?]
    | apply quiet_try; [|intros ?]
    | match goal with
      | |- quiet (if ?b then _ else _) => destruct b
      | |- quiet (match ?x with _ => _ end) => destruct x
      end ].

Lemma quiet_runner_init (self : ActionRunner.t) (message : dict) :
  quiet (ActionRunner.init self message).
Proof.
  unfold ActionRunner.init, ActionRunner.prep, ActionRunner.hooks,
    ActionRunner.initCodeFromString, ActionRunner.initCodeFromZip,
    ActionRunner.verify.
  quiet.
Qed.

Lemma complete_eval (response : outcome) (w : world) :
  Proxy.complete response w = (Ok response, add_events sentinel_lines w).
Proof. unfold Proxy.complete. run_monad. reflexivity. Qed.

Lemma quiet_error (msg : string) (code : Z) : quiet (Proxy.error msg code).
Proof. intros w. rewrite error_response. now apply writes_only_add. Qed.

Hint Resolve quiet_runner_init quiet_error : quiet.

Lemma quiet_init_route (runner : ActionRunner.t) (message : json) :
  quiet (Proxy.init runner message).
Proof.
  intros w. unfold Proxy.init.
  destruct (rejectReinit w && initialized w).
  - apply (quiet_bind (stderr_write _)); [apply quiet_stderr|].
    intros _. apply quiet_error.
  - apply (quiet_bind (log _ : M unit)); [apply quiet_log|]. intros _.
    destruct (truthy message && negb (is_dict message)); [apply quiet_ret|].
    destruct (Proxy.value_of message) as [| | | | |value];
      try apply quiet_ret.
    intros w1. pose proof (quiet_runner_init runner value w1) as Hi.
    destruct (ActionRunner.init runner value w1) as [[[]|e] w2];
      cbn [snd] in Hi;
      (eapply writes_only_trans; [exact Hi|]);
      [|apply quiet_error|apply quiet_error].
    apply quiet_bind; [now apply quiet_modify_flags|]. intros _.
    apply quiet_bind; [now apply quiet_modify_flags|]. intros _.
    apply quiet_bind; [apply quiet_call|]. intros f. apply quiet_ret.
Qed.

Lemma quiet_start_route (runner : ActionRunner.t) : quiet (Proxy.start runner).
Proof.
  intros w. unfold Proxy.start. destruct (started w).
  - apply (quiet_bind (stderr_write _)); [apply quiet_stderr|].
    intros _. apply quiet_error.
  - apply quiet_bind; [now apply quiet_modify_flags|]. intros _.
    apply quiet_bind; [apply quiet_log|]. intros _.
    apply quiet_bind; [apply quiet_call|]. intros _. apply quiet_ret.
Qed.

Lemma quiet_hook_route (m : ActionRunner.method) (msg : string) (o : outcome) :
  quiet (log msg ;; ActionRunner.call m [] ;; mret o).
Proof. quiet. Qed.

(** The children /run creates: none or one. *)
Lemma run_route_children (runner : ActionRunner.t) (message : json) (w : world) :
  exists l, popen_calls (trace (snd (Proxy.run runner message w)))
            = popen_calls (trace w) ++ l
            /\ (length l <= 1)%nat.
Proof.
  unfold Proxy.run. cbv zeta.
  assert (Herr : forall msg code w1,
             popen_calls (trace w1) = popen_calls (trace w) ->
             exists l, popen_calls (trace (snd (Proxy.error msg code w1)))
                       = popen_calls (trace w) ++ l /\ (length l <= 1)%nat).
  { intros msg code w1 H1. exists []. rewrite app_nil_r, <- H1.
    split; [apply writes_only_calls, quiet_error | cbn; lia]. }
  destruct (truthy message && negb (is_dict message)); [now apply Herr|].
  destruct (Proxy.value_of message) as [| | | | |args]; try (now apply Herr).
  rewrite bind_eval. unfold ActionRunner.verify, gets. cbn beta iota.
  destruct (isfile _ _ && access_x _ _); [|now apply Herr].
  unfold Proxy.answer, Proxy.invoke, ActionRunner.env. rewrite !bind_eval.
  pose proof (env_items_frame (Proxy.or_empty message) w) as Hf.
  destruct (ActionRunner.env_items _ w) as [[[]|e] w1]; cbn [snd] in Hf;
    destruct Hf as (Ht1 & _);
    [|apply Herr; now rewrite Ht1].
  unfold mret at 1, M_ret at 1. cbn beta iota. rewrite bind_eval.
  pose proof (run_popen_calls runner args OsEnviron w1) as Hr. cbv zeta in Hr.
  rewrite Ht1 in Hr.
  assert (Hone : forall msg code w2,
             popen_calls (trace w2) = popen_calls (trace (snd (ActionRunner.run runner args OsEnviron w1))) ->
             exists l, popen_calls (trace (snd (Proxy.error msg code w2)))
                       = popen_calls (trace w) ++ l /\ (length l <= 1)%nat).
  { intros msg code w2 H2. eexists.
    rewrite (writes_only_calls _ _ (quiet_error msg code w2)), H2, Hr.
    split; [reflexivity | cbn; lia]. }
  destruct (ActionRunner.run runner args OsEnviron w1) as [[[code result]|e] w2];
    cbn [snd] in Hr, Hone; [|now apply Hone].
  rewrite bind_eval. cbn [fst snd].
  destruct result as [d|[s|x]]; cbn [Proxy.jsonify];
    unfold mret, M_ret, raise; cbn beta iota; try (now apply Hone).
  all: rewrite complete_eval; cbn [snd]; eexists;
    rewrite (writes_only_calls _ _ (writes_only_add sentinel_lines w2 eq_refl)), Hr;
    split; [reflexivity | cbn; lia].
Qed.

(** One request creates at most one child, and only /run creates any. *)
Theorem children_per_request (runner : ActionRunner.t) (r : Proxy.request)
    (w : world) :
  exists l, popen_calls (trace (snd (Proxy.serve runner r w)))
            = popen_calls (trace w) ++ l
            /\ match r with
               | Proxy.PostRun _ => (length l <= 1)%nat
               | _ => l = []
               end.
Proof.
  rewrite serve_snd. destruct r as [m|m| | |]; cbn [Proxy.route].
  - exists []. rewrite app_nil_r. split; [|reflexivity].
    apply writes_only_calls, quiet_init_route.
  - apply run_route_children.
  - exists []. rewrite app_nil_r. split; [|reflexivity].
    apply writes_only_calls, quiet_start_route.
  - exists []. rewrite app_nil_r. split; [|reflexivity].
    apply writes_only_calls, quiet_hook_route.
  - exists []. rewrite app_nil_r. split; [|reflexivity].
    apply writes_only_calls, quiet_hook_route.
Qed.

(** The metadata of a /run request reach the child: it is given the
    arguments on stdin and an environment in which each metadata key has
    its variable, the rest being what the process had. *)
Theorem metadata_reaches_child (runner : ActionRunner.t) (pre suf : dict)
    (k s : string) (args : dict) (r : envobj) (w w1 : world) :
  let items := pre ++ (k, JStr s) :: suf in
  k <> "value" -> supplies (variable_of k) suf = false ->
  Proxy.value_of (JObj items) = JObj args ->
  runnable runner w = true ->
  ActionRunner.env items w = (Ok r, w1) ->
  exists argv vars,
    popen_calls (trace (snd (Proxy.serve runner (Proxy.PostRun (JObj items)) w)))
    = popen_calls (trace w) ++ [(argv, vars, json_dumps (JObj args))]
    /\ vars !! variable_of k = Some s
    /\ forall key, supplies key items = false -> vars !! key = environ w !! key.
Proof.
  intros items Hk Hsuf Hval Hrun Henv.
  assert (Hmsg : truthy (JObj items) && negb (is_dict (JObj items)) = false)
    by (cbn [is_dict negb]; apply andb_false_r).
  rewrite serve_snd. cbn [Proxy.route].
  rewrite (run_route_reaches runner (JObj items) args r w w1) by assumption.
  pose proof (run_popen_calls runner args OsEnviron w1) as Hr. cbv zeta in Hr.
  apply env_returns_environ in Henv as [_ Henv].
  pose proof (env_items_frame items w) as Hf. rewrite Henv in Hf.
  cbn [snd] in Hf. destruct Hf as (Ht1 & _). rewrite Ht1 in Hr.
  exists (if Text.len (json_dumps (JObj args)) >? 131071
          then [ActionRunner.binary runner]
          else [ActionRunner.binary runner; json_dumps (JObj args)]),
         (environ w1).
  split; [|split].
  - destruct (ActionRunner.run runner args OsEnviron w1) as [[[code [d|[t|x]]]|e] w2];
      cbn [snd trace add_events] in *;
      now rewrite popen_calls_app, Hr, app_nil_r.
  - exact (env_items_sets pre suf k s w w1 Hk Hsuf Henv).
  - intros key Hkey. pose proof (env_items_keeps key items w Hkey) as Hkeep.
    now rewrite Henv in Hkeep.
Qed.

End Children.

(** * More about the lifecycle *)
Section MoreLifecycle.
Context `{Platform}.

Lemma serve_init (runner : ActionRunner.t) (message : json) (w w' : world)
    (o : outcome) :
  Proxy.init runner message w = (Ok o, w') ->
  Proxy.serve runner (Proxy.PostInit message) w = (o, w').
Proof. intros E. unfold Proxy.serve, Proxy.route. now rewrite E. Qed.

(** What /init does to the flags, whatever its outcome: it leaves them,
    or it sets [initialized] and clears [started]. *)
Lemma init_route_flags (runner : ActionRunner.t) (message : json) (w : world) :
  let w' := snd (Proxy.init runner message w) in
  rejectReinit w' = rejectReinit w
  /\ ((initialized w' = initialized w /\ started w' = started w)
      \/ (initialized w' = true /\ started w' = false)).
Proof.
  cbv zeta. unfold Proxy.init.
  destruct (rejectReinit w && initialized w).
  { rewrite bind_eval, stderr_write_eval. cbn beta iota.
    rewrite error_response. cbn. auto. }
  rewrite bind_eval, log_eval. cbn beta iota.
  set (w1 := add_events _ w).
  assert (H1 : rejectReinit w1 = rejectReinit w
               /\ initialized w1 = initialized w /\ started w1 = started w)
    by (subst w1; cbn; auto).
  clearbody w1. destruct H1 as (Hr1 & Hi1 & Hs1).
  destruct (truthy message && negb (is_dict message)); [cbn; auto|].
  destruct (Proxy.value_of message) as [| | | | |value]; try (cbn; auto).
  pose proof (steady_init runner value w1) as (Hr & Hi & Hs & _).
  destruct (ActionRunner.init runner value w1) as [[[]|e] w2]; cbn [snd] in *.
  - unfold modify. run_monad.
    pose proof (call_frame (ActionRunner.features runner) []
                  (set_initialized true (set_started false w2))) as Hc.
    pose proof (steady_call (ActionRunner.features runner) []
                  (set_initialized true (set_started false w2))) as (Hr' & _).
    destruct (ActionRunner.call _ _ _) as [[v|x] w3]; cbn [snd] in *;
      destruct Hc as (_ & Hi' & Hs'); unfold mret, M_ret; cbn [snd];
      (split; [rewrite Hr'; cbn; congruence | right; now rewrite Hi', Hs']).
  - rewrite error_response. cbn. split; [congruence|]. left. split; congruence.
  - rewrite error_response. cbn. split; [congruence|]. left. split; congruence.
Qed.

(** /run leaves the three flags alone. *)
Lemma run_route_flags (runner : ActionRunner.t) (message : json) (w : world) :
  let w' := snd (Proxy.run runner message w) in
  rejectReinit w' = rejectReinit w /\ initialized w' = initialized w
  /\ started w' = started w.
Proof.
  cbv zeta. unfold Proxy.run. cbv zeta.
  assert (Herr : forall msg code w1,
             rejectReinit w1 = rejectReinit w /\ initialized w1 = initialized w
             /\ started w1 = started w ->
             let w' := snd (Proxy.error msg code w1) in
             rejectReinit w' = rejectReinit w /\ initialized w' = initialized w
             /\ started w' = started w).
  { intros msg code w1 H1. cbv zeta. now rewrite error_response. }
  assert (Hw : rejectReinit w = rejectReinit w /\ initialized w = initialized w
               /\ started w = started w) by auto.
  destruct (truthy message && negb (is_dict message)); [apply Herr; repeat split; congruence|].
  destruct (Proxy.value_of message) as [| | | | |args]; try (apply Herr; repeat split; congruence).
  rewrite bind_eval. unfold ActionRunner.verify, gets. cbn beta iota.
  destruct (isfile _ _ && access_x _ _); [|apply Herr; repeat split; congruence].
  unfold Proxy.answer, Proxy.invoke, ActionRunner.env. rewrite !bind_eval.
  pose proof (env_items_frame (Proxy.or_empty message) w) as Hf.
  destruct (ActionRunner.env_items _ w) as [[[]|e] w1]; cbn [snd] in Hf;
    destruct Hf as (_ & Hi1 & Hs1 & Hr1 & _);
    [|apply Herr; repeat split; congruence].
  rewrite ret_eval. cbn beta iota. rewrite bind_eval.
  pose proof (steady_run runner args w1) as (Hr2 & Hi2 & Hs2 & _).
  destruct (ActionRunner.run runner args OsEnviron w1) as [[[code result]|e] w2];
    cbn [snd] in *;
    assert (H2 : rejectReinit w2 = rejectReinit w /\ initialized w2 = initialized w
                 /\ started w2 = started w)
      by (repeat split; congruence);
    [|apply Herr; repeat split; congruence].
  rewrite bind_eval. cbn [fst snd].
  destruct result as [d|[s|x]]; cbn [Proxy.jsonify];
    unfold mret, M_ret, raise; cbn beta iota; try (apply Herr; repeat split; congruence);
    now rewrite complete_eval.
Qed.

(** /onstart leaves [started] true, whatever the state and the runner. *)
Lemma start_route_flags (runner : ActionRunner.t) (w : world) :
  let w' := snd (Proxy.start runner w) in
  rejectReinit w' = rejectReinit w /\ initialized w' = initialized w
  /\ started w' = true.
Proof.
  cbv zeta. unfold Proxy.start. destruct (started w) eqn:Hst.
  - run_monad. rewrite error_response. cbn. auto.
  - unfold modify. run_monad.
    pose proof (call_frame (ActionRunner.start runner) []
                  (add_events [Write Stdout (line "onStart");
                               Write Stderr (line "onStart")]
                     (set_started true w))) as (_ & Hi & Hs).
    pose proof (steady_call (ActionRunner.start runner) []
                  (add_events [Write Stdout (line "onStart");
                               Write Stderr (line "onStart")]
                     (set_started true w))) as (Hr & _).
    destruct (ActionRunner.call _ _ _) as [[v|x] w1]; cbn [snd] in *;
      unfold mret, M_ret; cbn [snd]; auto.
Qed.

Lemma hook_route_flags (m : ActionRunner.method) (msg : string) (o : outcome)
    (w : world) :
  let w' := snd ((log msg ;; ActionRunner.call m [] ;; mret o) w) in
  rejectReinit w' = rejectReinit w /\ initialized w' = initialized w
  /\ started w' = started w.
Proof.
  cbv zeta. run_monad.
  pose proof (steady_call m [] (add_events [Write Stdout (line msg);
                                            Write Stderr (line msg)] w))
    as (Hr & Hi & Hs & _).
  destruct (ActionRunner.call _ _ _) as [[v|x] w1]; cbn [snd] in *;
    unfold mret, M_ret; cbn [snd]; auto.
Qed.

(** No request changes the policy or takes [initialized] back. *)
Lemma serve_keeps_initialized (runner : ActionRunner.t) (r : Proxy.request)
    (w : world) :
  let w' := snd (Proxy.serve runner r w) in
  rejectReinit w' = rejectReinit w
  /\ (initialized w = true -> initialized w' = true).
Proof.
  cbv zeta. rewrite serve_snd. destruct r as [m|m| | |]; cbn [Proxy.route].
  - destruct (init_route_flags runner m w) as (Hr & [[Hi _] | [Hi _]]);
      split; auto; congruence.
  - destruct (run_route_flags runner m w) as (Hr & Hi & _). split; auto; congruence.
  - destruct (start_route_flags runner w) as (Hr & Hi & _). split; auto; congruence.
  - unfold Proxy.pause.
    destruct (hook_route_flags (ActionRunner.pause runner) "onpause"
                (Response 200 (BJson (JObj [("msg", JStr "onpause")]))) w)
      as (Hr & Hi & _).
    split; auto; congruence.
  - unfold Proxy.finish.
    destruct (hook_route_flags (ActionRunner.stop runner) "onfinish"
                (Response 200 (BJson (JObj [("msg", JStr "onfinish")]))) w)
      as (Hr & Hi & _).
    split; auto; congruence.
Qed.

Lemma serve_all_keeps_initialized (runner : ActionRunner.t)
    (rs : list Proxy.request) (w : world) :
  let w' := Proxy.serve_all runner rs w in
  rejectReinit w' = rejectReinit w
  /\ (initialized w = true -> initialized w' = true).
Proof.
  cbv zeta. revert w. induction rs as [|r rs IH]; intros w; [now cbn|].
  cbn [Proxy.serve_all].
  destruct (serve_keeps_initialized runner r w) as (Hr & Hi).
  destruct (IH (snd (Proxy.serve runner r w))) as (Hr' & Hi').
  split; [congruence | auto].
Qed.

(** What each request does to the flags: /run, /onpause and /onfinish
    leave them; /onstart leaves [started] true; /init leaves them or sets
    [initialized] and clears [started]; the reinitialization policy never
    changes. *)
Theorem flags_by_request (runner : ActionRunner.t) (r : Proxy.request)
    (w : world) :
  let w' := snd (Proxy.serve runner r w) in
  rejectReinit w' = rejectReinit w
  /\ match r with
     | Proxy.PostInit _ =>
         (initialized w' = initialized w /\ started w' = started w)
         \/ (initialized w' = true /\ started w' = false)
     | Proxy.PostOnStart => initialized w' = initialized w /\ started w' = true
     | _ => initialized w' = initialized w /\ started w' = started w
     end.
Proof.
  cbv zeta. rewrite serve_snd. destruct r as [m|m| | |]; cbn [Proxy.route].
  - apply init_route_flags.
  - apply run_route_flags.
  - apply start_route_flags.
  - apply hook_route_flags.
  - apply hook_route_flags.
Qed.

(** /onstart twice in a row: the second call is refused with 500,
    whatever the first one did. *)
Theorem start_twice (runner : ActionRunner.t) (w : world) :
  fst (Proxy.serve runner Proxy.PostOnStart
         (snd (Proxy.serve runner Proxy.PostOnStart w)))
  = Response 500 (error_body "Cannot trigger start the action more than once.").
Proof.
  assert (Hs : started (snd (Proxy.serve runner Proxy.PostOnStart w)) = true)
    by (rewrite serve_snd; apply start_route_flags).
  set (w1 := snd (Proxy.serve runner Proxy.PostOnStart w)) in *.
  unfold Proxy.serve at 1, Proxy.route, Proxy.start. rewrite Hs.
  run_monad. now rewrite error_response.
Qed.

(** Once an action is initialized under the default policy, /init is
    refused for good: whatever requests come in between, the next /init
    is answered 403. *)
Theorem refused_forever (runner : ActionRunner.t) (rs : list Proxy.request)
    (message : json) (w : world) :
  rejectReinit w = true -> initialized w = true ->
  fst (Proxy.serve runner (Proxy.PostInit message) (Proxy.serve_all runner rs w))
  = Response 403 (error_body "Cannot initialize the action more than once.").
Proof.
  intros Hrej Hini.
  destruct (serve_all_keeps_initialized runner rs w) as (Hr & Hi).
  set (w1 := Proxy.serve_all runner rs w) in *.
  unfold Proxy.serve, Proxy.route, Proxy.init.
  rewrite Hr, Hrej, (Hi Hini). cbn [andb].
  run_monad. now rewrite error_response.
Qed.

(** /init is refused with 403 exactly when the policy forbids
    reinitialization and the action is initialized. *)
Theorem init_refused_iff (runner : ActionRunner.t) (message : json) (w : world) :
  (exists b, fst (Proxy.serve runner (Proxy.PostInit message) w) = Response 403 b)
  <-> rejectReinit w && initialized w = true.
Proof.
  split.
  - intros [b Hb]. destruct (rejectReinit w && initialized w) eqn:Hg;
      [reflexivity|]. exfalso. revert Hb.
    unfold Proxy.serve, Proxy.route, Proxy.init. rewrite Hg.
    rewrite bind_eval, log_eval. cbn beta iota.
    destruct (truthy message && negb (is_dict message)); [discriminate|].
    destruct (Proxy.value_of message) as [| | | | |value]; try discriminate.
    destruct (ActionRunner.init runner value _) as [[[]|e] w2].
    + unfold modify. run_monad.
      destruct (ActionRunner.call _ _ _) as [[v|x] w3]; discriminate.
    + rewrite error_response. discriminate.
    + rewrite error_response. discriminate.
  - intros Hg. unfold Proxy.serve, Proxy.route, Proxy.init. rewrite Hg.
    run_monad. rewrite error_response. eauto.
Qed.

(** With [PROXY_ALLOW_REINIT=1] in the environment at start, /init is
    never refused, whatever was served before. *)
Theorem reinit_allowed_by_environment (runner : ActionRunner.t) (f : FS)
    (env : gmap string string) (rs : list Proxy.request) (message : json)
    (b : body) :
  env !! "PROXY_ALLOW_REINIT" = Some "1" ->
  fst (Proxy.serve runner (Proxy.PostInit message)
         (Proxy.serve_all runner rs (boot f env)))
  <> Response 403 b.
Proof.
  intros Henv Hb.
  destruct (serve_all_keeps_initialized runner rs (boot f env)) as (Hr & _).
  assert (Hrej : rejectReinit (boot f env) = false)
    by (unfold boot; cbn; now rewrite Henv).
  set (w1 := Proxy.serve_all runner rs (boot f env)) in *.
  revert Hb. unfold Proxy.serve, Proxy.route, Proxy.init.
  rewrite Hr, Hrej. cbn [andb].
  rewrite bind_eval, log_eval. cbn beta iota.
  destruct (truthy message && negb (is_dict message)); [discriminate|].
  destruct (Proxy.value_of message) as [| | | | |value]; try discriminate.
  destruct (ActionRunner.init runner value _) as [[[]|e] w2].
  - unfold modify. run_monad.
    destruct (ActionRunner.call _ _ _) as [[v|x] w3]; discriminate.
  - rewrite error_response. discriminate.
  - rewrite error_response. discriminate.
Qed.

(** A payload that /init refuses is answered by [flask.abort(404)]: the
    message has been logged, the runner was not called, nothing else
    changed and no sentinel was written. *)
Theorem init_rejects_bad_payload (runner : ActionRunner.t) (message : json)
    (w : world) :
  rejectReinit w && initialized w = false ->
  bad_payload message = true ->
  Proxy.serve runner (Proxy.PostInit message) w
  = (Aborted 404, add_events (log_lines (py_format message)) w).
Proof.
  intros Hg Hbad. apply serve_init. unfold Proxy.init. rewrite Hg.
  rewrite bind_eval, log_eval. cbn beta iota. unfold bad_payload in Hbad.
  destruct (truthy message && negb (is_dict message)); [reflexivity|].
  cbn [orb] in Hbad.
  destruct (Proxy.value_of message); cbn [is_dict negb] in Hbad;
    try discriminate; reflexivity.
Qed.

(** After the hooks, [init] returns what the verification returns. *)
Lemma init_tail (self : ActionRunner.t) (w : world) :
  (verified ← ActionRunner.verify self;
   log ("verified: " +:+ bool_str verified) ;; mret verified) w
  = (Ok (runnable self w),
     add_events (log_lines ("verified: " +:+ bool_str (runnable self w))) w).
Proof.
  unfold ActionRunner.verify, gets. rewrite bind_eval. cbn beta iota.
  rewrite bind_eval, log_eval. reflexivity.
Qed.

(** [init] never reports success without a runnable file at the binary
    path: when it returns [True], the verification has just found one. *)
Theorem init_success_means_runnable (self : ActionRunner.t) (message : dict)
    (w w' : world) :
  ActionRunner.init self message w = (Ok true, w') ->
  runnable self w' = true.
Proof.
  unfold ActionRunner.init. rewrite bind_eval.
  destruct (ActionRunner.prep self message w) as [[p|e] w1]; [|discriminate].
  rewrite bind_eval.
  assert (Hv : forall w2, (verified ← ActionRunner.verify self;
                           log ("verified: " +:+ bool_str verified) ;;
                           mret verified) w2 = (Ok true, w') ->
               runnable self w' = true).
  { intros w2. rewrite init_tail. intros [= Hr <-]. exact Hr. }
  destruct p.
  - destruct (hooks_result self message w1) as (w2 & [E | E]); rewrite E;
      [apply Hv | discriminate].
  - rewrite ret_eval. apply Hv.
Qed.

(** The hooks of the stock runner do nothing and never stop [init]. *)
Lemma stock_hooks (src bin zdest : string) (message : dict) (w : world) :
  ActionRunner.hooks (ActionRunner.base src bin zdest) message w
  = (Ok None, set_fs (fs w) (set_fs (fs w) w)).
Proof. reflexivity. Qed.

(** With the stock runner [init] returns [True] if and only if a runnable
    file is at the binary path when it ends, as its comment says. *)
Theorem stock_init_is_verify (src bin zdest : string) (message : dict)
    (w w' : world) (v : bool) :
  ActionRunner.init (ActionRunner.base src bin zdest) message w = (Ok v, w') ->
  v = runnable (ActionRunner.base src bin zdest) w'.
Proof.
  unfold ActionRunner.init. rewrite bind_eval.
  destruct (ActionRunner.prep _ message w) as [[p|e] w1]; [|discriminate].
  rewrite bind_eval.
  destruct p; rewrite ?stock_hooks, ?ret_eval; cbn beta iota;
    rewrite init_tail; now intros [= <- <-].
Qed.

(** A payload without code: nothing is written or extracted, the hooks
    [epilogue] and [build] are not called, and [init] returns what the
    verification finds at the binary path as it is. *)
Theorem no_code_init (self : ActionRunner.t) (message : dict) (v : pyval)
    (w w0 : world) :
  no_code message = true ->
  ActionRunner.call (ActionRunner.preinit self) [] w = (Ok v, w0) ->
  ActionRunner.init self message w
  = (Ok (runnable self w0),
     add_events (log_lines (py_format (JObj message)) ++ log_lines "no prep"
                 ++ log_lines ("verified: " +:+ bool_str (runnable self w0))) w0).
Proof.
  intros Hno Hpre. unfold ActionRunner.init, ActionRunner.prep.
  rewrite !bind_eval, Hpre. cbn beta iota. run_monad.
  unfold no_code in Hno.
  destruct (dict_get "code" message) as [[]|]; try discriminate;
    run_monad; rewrite ret_eval; cbn beta iota; rewrite bind_eval, ret_eval;
    cbn beta iota; rewrite init_tail; now rewrite !add_events_app.
Qed.

(** [prep] on inline source that can be written. *)
Lemma prep_inline (self : ActionRunner.t) (message : dict) (code : json)
    (v : pyval) (f' : FS) (w w0 : world) :
  ActionRunner.call (ActionRunner.preinit self) [] w = (Ok v, w0) ->
  dict_get "code" message = Some code -> code <> JNull ->
  truthy (default (JBool false) (dict_get "binary" message)) = false ->
  write_text (ActionRunner.source self) code (fs w0) = (None, f') ->
  ActionRunner.prep self message w
  = (Ok true, set_fs f' (add_events (log_lines (py_format (JObj message))) w0)).
Proof.
  intros Hpre Hcode Hnn Hbin Hw.
  unfold ActionRunner.prep. rewrite !bind_eval, Hpre.
  cbn beta iota. run_monad. rewrite Hcode.
  assert (Hm : forall (A : Type) (x y : A),
             match code with JNull => x | _ => y end = y)
    by (intros; destruct code; congruence).
  rewrite Hm, Hbin. cbn [negb].
  unfold ActionRunner.initCodeFromString, getitem. rewrite Hcode.
  run_monad. rewrite ret_eval. cbn beta iota. run_monad.
  unfold os_call. cbn [fs add_events]. rewrite Hw. reflexivity.
Qed.

(** Inline source with the stock runner: the code is written to the source
    path, and [init] returns whether a runnable file is at the binary path
    after the write. *)
Theorem inline_source_init (src bin zdest : string) (message : dict)
    (code : json) (f' : FS) (w : world) :
  dict_get "code" message = Some code -> code <> JNull ->
  truthy (default (JBool false) (dict_get "binary" message)) = false ->
  write_text src code (fs w) = (None, f') ->
  ActionRunner.init (ActionRunner.base src bin zdest) message w
  = (Ok (isfile bin f' && access_x bin f'),
     add_events (log_lines (py_format (JObj message))
                 ++ log_lines ("verified: "
                               +:+ bool_str (isfile bin f' && access_x bin f')))
       (set_fs f' w)).
Proof.
  intros Hcode Hnn Hbin Hw.
  unfold ActionRunner.init. rewrite bind_eval.
  rewrite (prep_inline (ActionRunner.base src bin zdest) message code PNone f'
             w (set_fs (fs w) w)); try assumption; [|reflexivity].
  cbn beta iota. rewrite bind_eval, stock_hooks. cbn beta iota.
  rewrite init_tail. unfold runnable, add_events, set_fs, log_lines.
  cbn. now rewrite <- !(assoc_L (++)).
Qed.

(** A hook that fails ends [init] at once with [False]: after a failing
    [epilogue] neither [build] nor the verification runs, after a failing
    [build] the verification does not run. *)
Theorem failing_hook_stops (self : ActionRunner.t) (message : dict)
    (w wp w1 : world) :
  ActionRunner.prep self message w = (Ok true, wp) ->
  (ActionRunner.call (ActionRunner.epilogue self) [JObj message] wp
     = (Ok (PBool false), w1)
   \/ (exists e, ActionRunner.call (ActionRunner.epilogue self) [JObj message] wp
                 = (Raise e, w1))
   \/ (exists v w0,
         ActionRunner.call (ActionRunner.epilogue self) [JObj message] wp
           = (Ok v, w0)
         /\ is_False v = false
         /\ (ActionRunner.call (ActionRunner.build self) [JObj message] w0
               = (Ok (PBool false), w1)
             \/ exists e, ActionRunner.call (ActionRunner.build self)
                             [JObj message] w0 = (Raise e, w1)))) ->
  ActionRunner.init self message w = (Ok false, w1).
Proof.
  intros Hp Hfail. apply (failing_hook_aborts self message w wp w1 Hp).
  destruct Hfail as [E | [E | (v & w0 & E & Hv & E')]].
  - apply epilogue_failure. now left.
  - apply epilogue_failure. now right.
  - now apply (build_failure self message v wp w0 w1).
Qed.

(** A successful /init arms /onstart again: the next /onstart is not the
    refusal. *)
Theorem start_rearmed_by_init (runner : ActionRunner.t) (message : json)
    (w w' : world) (b b' : body) :
  Proxy.serve runner (Proxy.PostInit message) w = (Response 200 b, w') ->
  fst (Proxy.serve runner Proxy.PostOnStart w') <> Response 500 b'.
Proof.
  intros E. pose proof (init_outcome runner message w) as Ho.
  cbv zeta in Ho. rewrite E in Ho. cbn [fst snd] in Ho.
  destruct Ho as [(x & [=] & _) | [[[=] _] | [(x & [=] & _)
                 | [(_ & _ & Hs & _) | (e & [=])]]]].
  unfold Proxy.serve, Proxy.route, Proxy.start. rewrite Hs.
  unfold modify. run_monad.
  destruct (ActionRunner.call _ _ _) as [[v|x] w1]; cbn; discriminate.
Qed.

(** With a runner whose [pause] and [stop] take no argument and return,
    /onpause and /onfinish are answered 200 in every state. *)
Theorem hooks_without_parameters_accepted (runner : ActionRunner.t) (w : world) :
  ActionRunner.m_params (ActionRunner.pause runner) = [] ->
  ActionRunner.m_params (ActionRunner.stop runner) = [] ->
  (forall f, exists v f',
      ActionRunner.m_body (ActionRunner.pause runner) [] f = (Ok v, f')) ->
  (forall f, exists v f',
      ActionRunner.m_body (ActionRunner.stop runner) [] f = (Ok v, f')) ->
  fst (Proxy.serve runner Proxy.PostOnPause w)
    = Response 200 (BJson (JObj [("msg", JStr "onpause")]))
  /\ fst (Proxy.serve runner Proxy.PostOnFinish w)
    = Response 200 (BJson (JObj [("msg", JStr "onfinish")])).
Proof.
  intros Hp Hs Hbp Hbs.
  split; unfold Proxy.serve, Proxy.route, Proxy.pause, Proxy.finish;
    run_monad; unfold ActionRunner.call; rewrite ?Hp, ?Hs; cbn [length Nat.eqb];
    match goal with
    | |- context [ActionRunner.m_body (ActionRunner.pause _) [] ?f] =>
        destruct (Hbp f) as (v & f' & ->)
    | |- context [ActionRunner.m_body (ActionRunner.stop _) [] ?f] =>
        destruct (Hbs f) as (v & f' & ->)
    end; reflexivity.
Qed.

End MoreLifecycle.

(** ** The process environment across requests *)
Section MoreEnvironment.
Context `{Platform}.

(** The entry ['value'] of a message is not metadata: [env] passes over it
    whatever it holds, and does exactly what it does on the message
    without it. *)
Theorem env_skips_value (pre suf : dict) (v : json) (w : world) :
  ActionRunner.env (pre ++ ("value", v) :: suf) w
  = ActionRunner.env (pre ++ suf) w.
Proof.
  unfold ActionRunner.env. rewrite !bind_eval.
  enough (E : ActionRunner.env_items (pre ++ ("value", v) :: suf) w
              = ActionRunner.env_items (pre ++ suf) w) by now rewrite E.
  revert w. induction pre as [|[k x] pre IH]; intros w.
  - cbn [app ActionRunner.env_items]. rewrite bind_eval. reflexivity.
  - cbn [app ActionRunner.env_items]. rewrite !bind_eval.
    destruct ((if negb (String.eqb k "value")
               then ActionRunner.environ_setitem ("__OW_" +:+ str_upper k) x
               else mret ()) w) as [[[]|e] w1]; [apply IH | reflexivity].
Qed.

(** The loop stops at the first entry it cannot set. *)
Lemma env_items_stops (pre suf : dict) (k : string) (v : json) (e : exn)
    (w w1 w2 : world) :
  k <> "value" ->
  ActionRunner.env_items pre w = (Ok tt, w1) ->
  ActionRunner.environ_setitem (variable_of k) v w1 = (Raise e, w2) ->
  ActionRunner.env_items (pre ++ (k, v) :: suf) w = (Raise e, w2).
Proof.
  intros Hk. revert w. induction pre as [|[k' x] pre IH]; intros w Hpre Hset.
  - cbn [ActionRunner.env_items] in Hpre. unfold mret, M_ret in Hpre.
    injection Hpre as <-. cbn [app ActionRunner.env_items]. rewrite bind_eval.
    apply String.eqb_neq in Hk. rewrite Hk. cbn [negb].
    unfold variable_of in Hset. now rewrite Hset.
  - cbn [app ActionRunner.env_items] in *. rewrite bind_eval in *.
    destruct ((if negb (String.eqb k' "value")
               then ActionRunner.environ_setitem ("__OW_" +:+ str_upper k') x
               else mret ()) w) as [[[]|e'] w0]; [|discriminate].
    now apply IH.
Qed.

(** A metadata entry that is not a string makes [env] raise [TypeError]:
    the entries before it are set and stay set, the ones after it are not
    looked at; /run then answers 500 with the text of the exception, after
    the sentinel, without having created a child. *)
Theorem metadata_must_be_strings (runner : ActionRunner.t) (pre suf : dict)
    (k : string) (v : json) (args : dict) (w w1 : world) :
  let items := pre ++ (k, v) :: suf in
  let text := "str expected, not " +:+ type_name v in
  k <> "value" -> is_str v = false ->
  ActionRunner.env_items pre w = (Ok tt, w1) ->
  ActionRunner.env items w = (Raise (Exn "TypeError" text), w1)
  /\ (Proxy.value_of (JObj items) = JObj args -> runnable runner w = true ->
      Proxy.serve runner (Proxy.PostRun (JObj items)) w
      = (Response 500 (error_body ("Internal error. " +:+ text)),
         add_events sentinel_lines w1)).
Proof.
  intros items text Hk Hv Hpre.
  assert (Hset : ActionRunner.environ_setitem (variable_of k) v w1
                 = (Raise (Exn "TypeError" text), w1))
    by (destruct v; try discriminate; reflexivity).
  pose proof (env_items_stops pre suf k v _ w w1 w1 Hk Hpre Hset) as Hitems.
  assert (Henv : ActionRunner.env items w = (Raise (Exn "TypeError" text), w1))
    by (unfold ActionRunner.env; rewrite bind_eval; subst items;
        now rewrite Hitems).
  split; [exact Henv|]. intros Hval Hrun.
  unfold Proxy.serve, Proxy.route, Proxy.run. cbv zeta.
  cbn [truthy is_dict negb andb]. rewrite andb_false_r.
  rewrite Hval, bind_eval. unfold ActionRunner.verify, gets. cbn beta iota.
  unfold runnable in Hrun. rewrite Hrun.
  unfold Proxy.answer, Proxy.invoke. rewrite bind_eval.
  cbn [Proxy.or_empty]. fold items. rewrite Henv.
  now rewrite error_response.
Qed.

(** What /run does to the environment is what the loop of [env] on its
    message does, if anything. *)
Lemma run_route_environ (runner : ActionRunner.t) (message : json) (w : world) :
  environ (snd (Proxy.run runner message w)) = environ w
  \/ environ (snd (Proxy.run runner message w))
     = environ (snd (ActionRunner.env_items (Proxy.or_empty message) w)).
Proof.
  unfold Proxy.run. cbv zeta.
  assert (Herr : forall msg code w1,
             environ (snd (Proxy.error msg code w1)) = environ w1)
    by (intros; now rewrite error_response).
  destruct (truthy message && negb (is_dict message)); [left; apply Herr|].
  destruct (Proxy.value_of message) as [| | | | |args]; try (left; apply Herr).
  rewrite bind_eval. unfold ActionRunner.verify, gets. cbn beta iota.
  destruct (isfile _ _ && access_x _ _); [|left; apply Herr].
  right. unfold Proxy.answer, Proxy.invoke, ActionRunner.env. rewrite !bind_eval.
  destruct (ActionRunner.env_items _ w) as [[[]|e] w1]; cbn [snd];
    [|apply Herr].
  rewrite ret_eval. cbn beta iota. rewrite bind_eval.
  pose proof (steady_run runner args w1) as (_ & _ & _ & Hr & _).
  destruct (ActionRunner.run runner args OsEnviron w1) as [[[code result]|e] w2];
    cbn [snd] in Hr; [|now rewrite Herr].
  rewrite bind_eval. cbn [fst snd].
  destruct result as [d|[t|x]]; cbn [Proxy.jsonify];
    unfold mret, M_ret, raise; cbn beta iota; rewrite ?Herr, ?complete_eval;
    exact Hr.
Qed.

(** The loop of [env] only adds or replaces entries. *)
Lemma env_items_grows (key : string) (items : dict) (w : world) :
  is_Some (environ w !! key) ->
  is_Some (environ (snd (ActionRunner.env_items items w)) !! key).
Proof.
  revert w. induction items as [|[k v] rest IH]; intros w Hs; [exact Hs|].
  cbn [ActionRunner.env_items]. rewrite bind_eval.
  assert (Hset : forall key' w1,
             ActionRunner.environ_setitem key' v w = (Ok tt, w1) ->
             is_Some (environ w1 !! key)).
  { intros key' w1 E. apply setitem_ok in E as (s & _ & ->). cbn.
    destruct (decide (key' = key)) as [->|Hne].
    - rewrite lookup_insert_eq. eauto.
    - now rewrite lookup_insert_ne. }
  destruct (negb (String.eqb k "value")).
  - destruct (ActionRunner.environ_setitem _ v w) as [[[]|e] w1] eqn:E.
    + apply IH. eapply Hset. exact E.
    + cbn [snd].
      assert (Hw : environ w1 = environ w).
      { unfold ActionRunner.environ_setitem in E. destruct v; try (now inversion E).
        destruct (_ || _); [now inversion E|].
        destruct (ActionRunner.has_char _ _); [now inversion E | discriminate]. }
      now rewrite Hw.
  - rewrite ret_eval. now apply IH.
Qed.

(** Routes other than /run leave the environment as it is. *)
Lemma route_environ (runner : ActionRunner.t) (r : Proxy.request) (w : world) :
  (forall m, r <> Proxy.PostRun m) ->
  environ (snd (Proxy.serve runner r w)) = environ w.
Proof.
  intros Hr. rewrite serve_snd. destruct r as [m|m| | |]; cbn [Proxy.route].
  - apply init_carries.
  - now destruct (Hr m).
  - apply start_carries.
  - apply (hook_route_carries (ActionRunner.pause runner) "onpause" "onpause").
  - apply (hook_route_carries (ActionRunner.stop runner) "onfinish" "onfinish").
Qed.

Lemma serve_lookup (runner : ActionRunner.t) (r : Proxy.request) (key : string)
    (w : world) :
  request_supplies key r = false ->
  environ (snd (Proxy.serve runner r w)) !! key = environ w !! key.
Proof.
  intros Hs. destruct r as [m|m| | |];
    try (rewrite route_environ; [reflexivity | discriminate]).
  rewrite serve_snd. cbn [Proxy.route].
  destruct (run_route_environ runner m w) as [-> | ->]; [reflexivity|].
  now apply env_items_keeps.
Qed.

Lemma serve_grows (runner : ActionRunner.t) (r : Proxy.request) (key : string)
    (w : world) :
  is_Some (environ w !! key) ->
  is_Some (environ (snd (Proxy.serve runner r w)) !! key).
Proof.
  intros Hs. destruct r as [m|m| | |];
    try (rewrite route_environ; [exact Hs | discriminate]).
  rewrite serve_snd. cbn [Proxy.route].
  destruct (run_route_environ runner m w) as [-> | ->]; [exact Hs|].
  now apply env_items_grows.
Qed.

(** The variables that [env] sets all start with [__OW_]. *)
Lemma variable_prefix (k : string) : String.prefix "__OW_" (variable_of k) = true.
Proof.
  unfold variable_of. rewrite !TextFacts.append_cons, TextFacts.append_nil_l.
  now destruct (str_upper k).
Qed.

Lemma foreign_unsupplied (key : string) (items : dict) :
  String.prefix "__OW_" key = false -> supplies key items = false.
Proof.
  intros Hp. induction items as [|[k v] rest IH]; [reflexivity|].
  cbn [supplies existsb fst]. fold (supplies key rest). rewrite IH, orb_false_r.
  destruct (String.eqb (variable_of k) key) eqn:E; [|apply andb_false_r].
  apply String.eqb_eq in E. rewrite <- E, variable_prefix in Hp. discriminate.
Qed.

(** A variable that no request supplies is the same after any number of
    requests as before, whether it was set or not. *)
Theorem unsupplied_variable_unchanged (runner : ActionRunner.t)
    (rs : list Proxy.request) (key : string) (w : world) :
  forallb (fun q => negb (request_supplies key q)) rs = true ->
  environ (Proxy.serve_all runner rs w) !! key = environ w !! key.
Proof.
  revert w. induction rs as [|r rs IH]; intros w Hrs; [reflexivity|].
  cbn [forallb] in Hrs. apply andb_true_iff in Hrs as [Hr Hrs].
  apply negb_true_iff in Hr. cbn [Proxy.serve_all].
  rewrite IH by exact Hrs. now apply serve_lookup.
Qed.

(** The proxy writes only to variables whose name starts with [__OW_]:
    any other variable of the process, set or not, is the same after any
    requests. *)
Theorem foreign_variables_untouched (runner : ActionRunner.t)
    (rs : list Proxy.request) (key : string) (w : world) :
  String.prefix "__OW_" key = false ->
  environ (Proxy.serve_all runner rs w) !! key = environ w !! key.
Proof.
  intros Hp. revert w. induction rs as [|r rs IH]; intros w; [reflexivity|].
  cbn [Proxy.serve_all]. rewrite IH. apply serve_lookup.
  destruct r; try reflexivity. now apply foreign_unsupplied.
Qed.

(** No request removes a variable from the process environment. *)
Theorem environ_only_grows (runner : ActionRunner.t) (rs : list Proxy.request)
    (key : string) (w : world) :
  is_Some (environ w !! key) ->
  is_Some (environ (Proxy.serve_all runner rs w) !! key).
Proof.
  revert w. induction rs as [|r rs IH]; intros w Hs; [exact Hs|].
  cbn [Proxy.serve_all]. apply IH. now apply serve_grows.
Qed.

End MoreEnvironment.

(** ** Source that cannot be written *)
Section InitErrors.
Context `{Platform}.

(** Inline source that cannot be written: the exception leaves the
    runner's [init], and /init answers 502 with its text in the message. *)
Theorem unwritable_source_answered_502 (runner : ActionRunner.t)
    (message : json) (value : dict) (code : json) (v : pyval) (e : exn)
    (f' : FS) (w w0 : world) :
  rejectReinit w && initialized w = false ->
  truthy message && negb (is_dict message) = false ->
  Proxy.value_of message = JObj value ->
  ActionRunner.call (ActionRunner.preinit runner) []
    (add_events (log_lines (py_format message)) w) = (Ok v, w0) ->
  dict_get "code" value = Some code -> code <> JNull ->
  truthy (default (JBool false) (dict_get "binary" value)) = false ->
  write_text (ActionRunner.source runner) code (fs w0) = (Some e, f') ->
  fst (Proxy.serve runner (Proxy.PostInit message) w)
  = Response 502
      (error_body ("The action failed to generate or locate a binary with exception "
                   +:+ exn_str e +:+ ". See logs for details.")).
Proof.
  intros Hguard Hmsg Hval Hpre Hcode Hnn Hbin Hw.
  destruct (write_failure_raises runner value code v e f' _ w0
              Hpre Hcode Hnn Hbin Hw) as (w' & Hinit).
  now rewrite (failed_init_answer runner message value (Raise e) w w'
                 Hguard Hmsg Hval Hinit).
Qed.

(** How an /init that is not answered 200 ends: with a 403 or 502
    response of the route, written after the sentinel lines, both flags
    as they were; or with the 404 of [flask.abort] on a payload that is
    refused, where the message has been logged, no sentinel is written
    and nothing else changed; or with an exception of [runner.features()]
    that leaves the route after the flags were set. *)
Theorem init_failure_outcomes (runner : ActionRunner.t) (message : json)
    (w w' : world) (o : outcome) :
  Proxy.serve runner (Proxy.PostInit message) w = (o, w') ->
  (forall b, o <> Response 200 b) ->
  (exists code b, o = Response code b /\ (code = 403 \/ code = 502)
      /\ initialized w' = initialized w /\ started w' = started w
      /\ ends_with (trace w) (trace w') sentinel_lines)
  \/ (o = Aborted 404 /\ bad_payload message = true
      /\ w' = add_events (log_lines (py_format message)) w)
  \/ (exists e, o = Unhandled e /\ initialized w' = true /\ started w' = false).
Proof.
  intros E Hnot. revert E.
  unfold Proxy.serve, Proxy.route, Proxy.init, bad_payload.
  destruct (rejectReinit w && initialized w).
  { rewrite bind_eval, stderr_write_eval. cbn beta iota.
    rewrite error_response, add_events_app. intros [= <- <-]. left.
    exists 403. eexists. split; [reflexivity|]. split; [now left|].
    split; [reflexivity|]. split; [reflexivity|]. apply (ends_with_add [_]). }
  rewrite bind_eval, log_eval. cbn beta iota.
  fold (log_lines (py_format message)).
  set (w1 := add_events _ w).
  assert (H1 : proceeds w w1) by now apply proceeds_add_events.
  destruct (truthy message && negb (is_dict message)).
  { rewrite ret_eval. intros [= <- <-]. right. left. now repeat split. }
  destruct (Proxy.value_of message) as [| | | | |value];
    try (rewrite ret_eval; intros [= <- <-]; right; left; now repeat split).
  pose proof (steady_init runner value w1) as Hs.
  destruct (ActionRunner.init runner value w1) as [[[]|e] w2]; cbn [snd] in Hs.
  - unfold modify. run_monad.
    pose proof (call_frame (ActionRunner.features runner) []
                  (set_initialized true (set_started false w2))) as Hc.
    destruct (ActionRunner.call _ _ _) as [[v|x] w3]; cbn [snd] in Hc;
      destruct Hc as (_ & Hi & Hst).
    + rewrite ret_eval. intros [= <- <-]. now destruct (Hnot (BVal v)).
    + intros [= <- <-]. right. right. exists x. now repeat split.
  - rewrite error_response. intros [= <- <-]. left.
    pose proof (proceeds_trans _ _ _ H1 Hs) as (_ & Hi & Hst & _).
    exists 502. eexists. split; [reflexivity|]. split; [now right|].
    split; [exact Hi|]. split; [exact Hst|].
    apply ends_with_after. eapply proceeds_trans; eassumption.
  - rewrite error_response. intros [= <- <-]. left.
    pose proof (proceeds_trans _ _ _ H1 Hs) as (_ & Hi & Hst & _).
    exists 502. eexists. split; [reflexivity|]. split; [now right|].
    split; [exact Hi|]. split; [exact Hst|].
    apply ends_with_after. eapply proceeds_trans; eassumption.
Qed.

End InitErrors.

(** * Concrete runs of the further properties *)

Lemma run_status_witness :
  let P := Machine.platform Demo.sloppy in
  let w := Demo.running Demo.sloppy in
  exists (code : Z) (r : runresult) (w' : world),
    @ActionRunner.run P Demo.stock [("n", JInt 1)] OsEnviron w = (Ok (code, r), w')
    /\ ((code = 200 /\ exists d, r = RObj d)
        \/ (code = 502 /\ exists s, r = RErr (MText s))).
Proof.
  intros P w.
  apply (@run_status P Demo.stock [("n", JInt 1)] OsEnviron w
           (add_events [Popen [Demo.action_path; Machine.dumps (JObj [("n", JInt 1)])]
                          ∅ (Machine.dumps (JObj [("n", JInt 1)]))] w)
           (output_of ["working"] "42" true) "").
  reflexivity.
Defined.

Lemma stderr_forwarded_witness :
  let P := Machine.platform Demo.noisy in
  let w := Demo.running Demo.noisy in
  let input := Machine.dumps (JObj [("n", JInt 1)]) in
  let w1 := add_events [Popen [Demo.action_path; input] ∅ input] w in
  exists before after,
    trace (snd (@ActionRunner.run P Demo.stock [("n", JInt 1)] OsEnviron w))
    = trace w1 ++ before ++ Write Stderr "warning: low disk" :: after
    /\ Forall (fun ev => exists s, ev = Write Stdout s) (before ++ after).
Proof.
  intros P w input w1.
  apply (@stderr_forwarded P Demo.stock [("n", JInt 1)] OsEnviron w w1
           (Machine.dumps (JObj Demo.answer)) "warning: low disk").
  - reflexivity.
  - discriminate.
Defined.

Lemma undecodable_output_answered_500_witness :
  let P := Machine.platform Demo.garbled in
  let w := Demo.running Demo.garbled in
  let input := Machine.dumps (JObj [("n", JInt 1)]) in
  let w1 := snd (@ActionRunner.env P (Proxy.or_empty Demo.activation) w) in
  let w2 := add_events [Popen [Demo.action_path; input] (environ w1) input] w1 in
  @ActionRunner.run P Demo.stock [("n", JInt 1)] OsEnviron w1
    = (Raise Demo.bad_bytes, w2)
  /\ @Proxy.serve P Demo.stock (Proxy.PostRun Demo.activation) w
     = (Response 500 (error_body ("Internal error. " +:+ exn_str Demo.bad_bytes)),
        add_events sentinel_lines w2).
Proof.
  intros P w input w1 w2.
  apply (@undecodable_output_answered_500 P Demo.stock Demo.activation
           [("n", JInt 1)] OsEnviron w w1 w2 (Undecodable Demo.bad_bytes)
           (Utf8 "") Demo.bad_bytes); try reflexivity.
  left. reflexivity.
Defined.

Lemma spawn_failure_answered_500_witness :
  let P := Machine.platform Demo.broken in
  let w := Demo.running Demo.broken in
  let input := Machine.dumps (JObj [("n", JInt 1)]) in
  let w2 := add_events [Popen [Demo.action_path; input] ∅ input] w in
  @Proxy.serve P Demo.stock (Proxy.PostRun (JObj [("value", JObj [("n", JInt 1)])])) w
  = (Response 500 (error_body
       "Internal error. Object of type OSError is not JSON serializable"),
     add_events (Write Stdout (line (exn_str Demo.exec_format_error))
                 :: sentinel_lines) w2).
Proof.
  intros P w input w2.
  apply (@spawn_failure_answered_500 P Demo.stock
           (JObj [("value", JObj [("n", JInt 1)])]) [("n", JInt 1)] OsEnviron
           w w w2 Demo.exec_format_error); reflexivity.
Defined.

Lemma run_route_returns_result_witness :
  let P := Machine.platform Demo.polite in
  let w := Demo.running Demo.polite in
  let input := Machine.dumps (JObj [("n", JInt 1)]) in
  let w1 := snd (@ActionRunner.env P (Proxy.or_empty Demo.activation) w) in
  let w2 := add_events [Popen [Demo.action_path; input] (environ w1) input] w1 in
  @Proxy.serve P Demo.stock (Proxy.PostRun Demo.activation) w
  = (Response 200 (BJson (JObj Demo.answer)),
     add_events (Write Stdout (line "hello") :: sentinel_lines) w2).
Proof.
  intros P w input w1 w2.
  apply (@run_route_returns_result P Demo.stock Demo.activation [("n", JInt 1)]
           OsEnviron w w1 w2 ["hello"] (Machine.dumps (JObj Demo.answer)) ""
           true Demo.answer); try reflexivity.
  left. reflexivity.
Defined.

Lemma run_route_reports_bad_result_witness :
  let P := Machine.platform Demo.sloppy in
  let w := Demo.running Demo.sloppy in
  let input := Machine.dumps (JObj [("n", JInt 1)]) in
  let w1 := snd (@ActionRunner.env P (Proxy.or_empty Demo.activation) w) in
  let w2 := add_events [Popen [Demo.action_path; input] (environ w1) input] w1 in
  @Proxy.serve P Demo.stock (Proxy.PostRun Demo.activation) w
  = (Response 502 (error_body "42"),
     add_events [Write Stdout (line "working"); Write Stdout (line "42");
                 Write Stdout (line ActionRunner.LOG_SENTINEL);
                 Write Stderr (line ActionRunner.LOG_SENTINEL)] w2).
Proof.
  intros P w input w1 w2.
  apply (@run_route_reports_bad_result P Demo.stock Demo.activation
           [("n", JInt 1)] OsEnviron w w1 w2 ["working"] "42" "" true);
    try reflexivity.
  - left. reflexivity.
  - intros obj. discriminate.
Defined.

Lemma run_without_binary_witness :
  let P := Machine.platform Demo.polite in
  let w := Demo.bare Demo.polite in
  @Proxy.serve P Demo.stock (Proxy.PostRun Demo.activation) w
  = (Response 502
       (error_body "The action failed to locate a binary. See logs for details."),
     add_events sentinel_lines w).
Proof.
  intros P w.
  apply (@run_without_binary P Demo.stock Demo.activation w). reflexivity.
Defined.

Lemma run_rejects_bad_payload_witness :
  let P := Machine.platform Demo.polite in
  let w := Demo.running Demo.polite in
  @Proxy.serve P Demo.stock (Proxy.PostRun (JObj [("value", JInt 3)])) w
  = (Response 404
       (error_body "The action did not receive a dictionary as an argument."),
     add_events sentinel_lines w).
Proof.
  intros P w.
  apply (@run_rejects_bad_payload P Demo.stock (JObj [("value", JInt 3)]) w).
  reflexivity.
Defined.

Lemma metadata_reaches_child_witness :
  let P := Machine.platform Demo.polite in
  let w := Demo.running Demo.polite in
  exists argv vars,
    popen_calls (trace (snd (@Proxy.serve P Demo.stock
                               (Proxy.PostRun Demo.activation) w)))
    = popen_calls (trace w)
      ++ [(argv, vars, @json_dumps P (JObj [("n", JInt 1)]))]
    /\ vars !! variable_of "api_key" = Some "secret"
    /\ forall key, supplies key (Proxy.or_empty Demo.activation) = false ->
                   vars !! key = environ w !! key.
Proof.
  intros P w.
  apply (@metadata_reaches_child P Demo.stock [("value", JObj [("n", JInt 1)])]
           [("deadline", JStr "1700000000")] "api_key" "secret" [("n", JInt 1)]
           OsEnviron w
           (snd (@ActionRunner.env P (Proxy.or_empty Demo.activation) w)));
    try reflexivity.
  discriminate.
Defined.

Lemma refused_forever_witness :
  let P := Machine.platform Demo.polite in
  let w := Demo.running Demo.polite in
  let rs := [Proxy.PostRun Demo.activation; Proxy.PostOnStart;
             Proxy.PostInit Demo.inline_source] in
  fst (@Proxy.serve P Demo.stock (Proxy.PostInit Demo.inline_source)
         (@Proxy.serve_all P Demo.stock rs w))
  = Response 403 (error_body "Cannot initialize the action more than once.").
Proof.
  intros P w rs.
  apply (@refused_forever P Demo.stock rs Demo.inline_source w); reflexivity.
Defined.

Lemma reinit_allowed_by_environment_witness :
  let P := Machine.platform Demo.polite in
  let rs := [Proxy.PostInit Demo.inline_source; Proxy.PostOnStart] in
  let env : gmap string string := {[ "PROXY_ALLOW_REINIT" := "1" ]} in
  env !! "PROXY_ALLOW_REINIT" = Some "1"
  /\ fst (@Proxy.serve P Demo.stock (Proxy.PostInit Demo.inline_source)
            (@Proxy.serve_all P Demo.stock rs (@boot P Demo.disk env)))
     <> Response 403 (error_body "Cannot initialize the action more than once.").
Proof.
  intros P rs env.
  assert (He : env !! "PROXY_ALLOW_REINIT" = Some "1")
    by apply lookup_singleton_eq.
  split; [exact He|].
  apply (@reinit_allowed_by_environment P Demo.stock Demo.disk env rs
           Demo.inline_source). exact He.
Defined.

Lemma init_rejects_bad_payload_witness :
  let P := Machine.platform Demo.polite in
  let w := Demo.fresh Demo.polite in
  let message := JObj [("value", JStr "echo hello")] in
  @Proxy.serve P Demo.stock (Proxy.PostInit message) w
  = (Aborted 404, add_events (log_lines (@py_format P message)) w).
Proof.
  intros P w message.
  apply (@init_rejects_bad_payload P Demo.stock message w); reflexivity.
Defined.

Lemma init_success_means_runnable_witness :
  let P := Machine.platform Demo.polite in
  let w := Demo.fresh Demo.polite in
  let done := @ActionRunner.init P Demo.stock [("code", JStr "echo hello")] w in
  fst done = Ok true /\ @runnable P Demo.stock (snd done) = true.
Proof.
  intros P w done.
  assert (Hf : fst done = Ok true) by reflexivity.
  split; [exact Hf|].
  apply (@init_success_means_runnable P Demo.stock [("code", JStr "echo hello")]
           w (snd done)).
  rewrite <- Hf. apply surjective_pairing.
Defined.

Lemma stock_init_is_verify_witness :
  let P := Machine.platform Demo.polite in
  let w := Demo.bare Demo.polite in
  let self := @ActionRunner.base P Demo.action_path Demo.action_path "/action" in
  let done := @ActionRunner.init P self [] w in
  fst done = Ok false /\ false = @runnable P self (snd done).
Proof.
  intros P w self done.
  assert (Hf : fst done = Ok false) by reflexivity.
  split; [exact Hf|].
  apply (@stock_init_is_verify P Demo.action_path Demo.action_path "/action" [] w
           (snd done) false).
  rewrite <- Hf. apply surjective_pairing.
Defined.

Lemma no_code_init_witness :
  let P := Machine.platform Demo.polite in
  let w := Demo.fresh Demo.polite in
  let message := [("code", JNull)] in
  let w0 := set_fs (fs w) w in
  @ActionRunner.init P Demo.stock message w
  = (Ok (@runnable P Demo.stock w0),
     add_events (log_lines (@py_format P (JObj message)) ++ log_lines "no prep"
                 ++ log_lines ("verified: "
                               +:+ bool_str (@runnable P Demo.stock w0))) w0).
Proof.
  intros P w message w0.
  apply (@no_code_init P Demo.stock message PNone w w0); reflexivity.
Defined.

Lemma inline_source_init_witness :
  let P := Machine.platform Demo.polite in
  let w := Demo.fresh Demo.polite in
  let message := [("code", JStr "echo hello")] in
  let f' := <[Demo.action_path :=
                Machine.File "echo hello"
                  (Machine.mode_of Demo.action_path Demo.disk)]> Demo.disk in
  let ok := @isfile P Demo.action_path f' && @access_x P Demo.action_path f' in
  @ActionRunner.init P
     (@ActionRunner.base P Demo.action_path Demo.action_path "/action") message w
  = (Ok ok,
     add_events (log_lines (@py_format P (JObj message))
                 ++ log_lines ("verified: " +:+ bool_str ok))
       (set_fs f' w)).
Proof.
  intros P w message f' ok.
  apply (@inline_source_init P Demo.action_path Demo.action_path "/action"
           message (JStr "echo hello") f' w); try reflexivity.
  discriminate.
Defined.

Lemma failing_hook_stops_witness :
  let P := Machine.platform Demo.polite in
  let w := Demo.fresh Demo.polite in
  let message := [("code", JStr "echo hello")] in
  let wp := snd (@ActionRunner.prep P Demo.strict message w) in
  let w1 := set_fs (fs wp) (set_fs (fs wp) wp) in
  @ActionRunner.init P Demo.strict message w = (Ok false, w1).
Proof.
  intros P w message wp w1.
  assert (Hf : fst (@ActionRunner.prep P Demo.strict message w) = Ok true)
    by reflexivity.
  apply (@failing_hook_stops P Demo.strict message w wp w1).
  - rewrite <- Hf. apply surjective_pairing.
  - right. right. exists PNone, (set_fs (fs wp) wp).
    split; [reflexivity|]. split; [reflexivity|]. left. reflexivity.
Defined.

Lemma start_rearmed_by_init_witness :
  let P := Machine.platform Demo.polite in
  let w := Demo.permissive Demo.polite in
  let served := @Proxy.serve P Demo.stock (Proxy.PostInit Demo.inline_source) w in
  started w = true
  /\ fst (@Proxy.serve P Demo.stock Proxy.PostOnStart (snd served))
     <> Response 500 (error_body "Cannot trigger start the action more than once.").
Proof.
  intros P w served.
  assert (Hf : fst served = Response 200 (BVal (PStr "OK"))) by reflexivity.
  split; [reflexivity|].
  apply (@start_rearmed_by_init P Demo.stock Demo.inline_source w (snd served)
           (BVal (PStr "OK"))).
  rewrite <- Hf. apply surjective_pairing.
Defined.

Lemma hooks_without_parameters_accepted_witness :
  let P := Machine.platform Demo.polite in
  let w := Demo.running Demo.polite in
  fst (@Proxy.serve P Demo.patched Proxy.PostOnPause w)
    = Response 200 (BJson (JObj [("msg", JStr "onpause")]))
  /\ fst (@Proxy.serve P Demo.patched Proxy.PostOnFinish w)
    = Response 200 (BJson (JObj [("msg", JStr "onfinish")])).
Proof.
  intros P w.
  apply (@hooks_without_parameters_accepted P Demo.patched w);
    try reflexivity; intros f; exists PNone, f; reflexivity.
Defined.

Lemma metadata_must_be_strings_witness :
  let P := Machine.platform Demo.polite in
  let w := Demo.running Demo.polite in
  let w1 := set_environ (<["__OW_API_KEY" := "secret"]> (environ w)) w in
  @ActionRunner.env P (Proxy.or_empty Demo.odd_activation) w
    = (Raise (Exn "TypeError" "str expected, not int"), w1)
  /\ @Proxy.serve P Demo.stock (Proxy.PostRun Demo.odd_activation) w
     = (Response 500 (error_body "Internal error. str expected, not int"),
        add_events sentinel_lines w1).
Proof.
  intros P w w1.
  pose proof (@metadata_must_be_strings P Demo.stock
                [("value", JObj [("n", JInt 1)]); ("api_key", JStr "secret")] []
                "deadline" (JInt 1700000000) [("n", JInt 1)] w w1) as Hx.
  cbv zeta in Hx.
  destruct Hx as [Henv Hserve]; [discriminate | reflexivity | reflexivity |].
  split; [exact Henv|]. apply Hserve; reflexivity.
Defined.

Lemma unsupplied_variable_unchanged_witness :
  let P := Machine.platform Demo.polite in
  let w := Demo.running Demo.polite in
  let rs := [Proxy.PostRun Demo.activation; Proxy.PostInit Demo.inline_source] in
  environ (@Proxy.serve_all P Demo.stock rs w) !! "__OW_NAMESPACE"
  = environ w !! "__OW_NAMESPACE".
Proof.
  intros P w rs.
  apply (@unsupplied_variable_unchanged P Demo.stock rs "__OW_NAMESPACE" w).
  reflexivity.
Defined.

Lemma foreign_variables_untouched_witness :
  let P := Machine.platform Demo.polite in
  let w := Demo.permissive Demo.polite in
  let rs := [Proxy.PostRun Demo.activation; Proxy.PostInit Demo.inline_source] in
  environ (@Proxy.serve_all P Demo.stock rs w) !! "PROXY_ALLOW_REINIT"
  = environ w !! "PROXY_ALLOW_REINIT".
Proof.
  intros P w rs.
  apply (@foreign_variables_untouched P Demo.stock rs "PROXY_ALLOW_REINIT" w).
  reflexivity.
Defined.

Lemma environ_only_grows_witness :
  let P := Machine.platform Demo.polite in
  let w := Demo.permissive Demo.polite in
  let rs := [Proxy.PostRun Demo.activation; Proxy.PostInit Demo.inline_source] in
  is_Some (environ (@Proxy.serve_all P Demo.stock rs w) !! "PROXY_ALLOW_REINIT").
Proof.
  intros P w rs.
  apply (@environ_only_grows P Demo.stock rs "PROXY_ALLOW_REINIT" w).
  exists "1". apply lookup_singleton_eq.
Defined.

Lemma unwritable_source_answered_502_witness :
  let P := Machine.platform Demo.polite in
  let w := Demo.fresh Demo.polite in
  let message := JObj [("value", JObj [("code", JInt 7)])] in
  fst (@Proxy.serve P Demo.stock (Proxy.PostInit message) w)
  = Response 502
      (error_body ("The action failed to generate or locate a binary with exception "
                   +:+ "utf_8_encode() argument 1 must be str, not int"
                   +:+ ". See logs for details.")).
Proof.
  intros P w message.
  set (w1 := add_events (log_lines (@py_format P message)) w).
  apply (@unwritable_source_answered_502 P Demo.stock message [("code", JInt 7)]
           (JInt 7) PNone
           (Exn "TypeError" "utf_8_encode() argument 1 must be str, not int")
           (<[Demo.action_path :=
                Machine.File "" (Machine.mode_of Demo.action_path Demo.disk)]>
              Demo.disk)
           w (set_fs (fs w1) w1)); try reflexivity.
  discriminate.
Defined.

Lemma init_failure_outcomes_witness :
  let P := Machine.platform Demo.polite in
  let w := Demo.bare Demo.polite in
  let bad := JObj [("value", JStr "echo hello")] in
  let failed := @Proxy.serve P Demo.stock (Proxy.PostInit (JObj [])) w in
  let aborted := @Proxy.serve P Demo.stock (Proxy.PostInit bad) w in
  (exists b, fst failed = Response 502 b
             /\ initialized (snd failed) = initialized w
             /\ started (snd failed) = started w
             /\ ends_with (trace w) (trace (snd failed)) sentinel_lines)
  /\ fst aborted = Aborted 404
  /\ snd aborted = add_events (log_lines (@py_format P bad)) w.
Proof.
  intros P w bad failed aborted.
  assert (Hf : fst failed
               = Response 502 (error_body
                   "The action failed to generate or locate a binary with exception . See logs for details."))
    by reflexivity.
  assert (Ha : fst aborted = Aborted 404) by reflexivity.
  split; [|split; [exact Ha|]].
  - destruct (@init_failure_outcomes P Demo.stock (JObj []) w (snd failed)
                (fst failed))
      as [(code & b & Ho & _ & Hi & Hst & Hend)
         | [(Ho & _) | (e & Ho & _)]];
      [apply surjective_pairing | rewrite Hf; discriminate | | |];
      rewrite Hf in Ho; try discriminate Ho.
    eexists. split; [reflexivity|]. now repeat split.
  - destruct (@init_failure_outcomes P Demo.stock bad w (snd aborted)
                (fst aborted))
      as [(code & b & Ho & _) | [(_ & _ & Hw) | (e & Ho & _)]];
      [apply surjective_pairing | rewrite Ha; discriminate | | |];
      rewrite ?Ha in *; try discriminate Ho.
    exact Hw.
Defined.
